(** * KY Highway Plan Projects dashboard: filter state and aggregation layer

    A shallow embedding of the filtering, querying and title logic of
    [js/download.js].  The script keeps its state in module-level [let]
    variables and mutates them from event handlers; here that state is one
    record, [Dashboard], and every handler is a function from dashboards to
    dashboards.  The SQL statements sent to the embedded SQLite engine are
    read-only [SELECT]s; each one is written out as the list function it
    computes over the tables of the loaded snapshot, and each loader is split
    into what it reads from the database and what it then writes to the
    state.

    Conventions of the embedding
    - Strings are ASCII; [toUpperCase] / [toLowerCase] map the 26 letters.
    - JavaScript numbers that occur here are row counts, years and district
      numbers, all integers: they are [Z].
    - The columns of [Basic_Project_Info] that the statements name are typed
      (nullable TEXT, and INTEGER for [RSY_YEAR]); rows come in table order.
    - The pre-aggregated views are data of the database file.  A view is
      absent, or has column names and rows; a statement over it throws when
      the view is absent or has no column of a name the statement uses.
      SQLite finds a column under its name in any letter case, while the row
      objects keep the spelling of the view.  The key columns of the views
      are TEXT, as in the base table.  Where a property relates a view to
      the base table, the view is given by a definition marked as modelled
      from the spec.
    - [countyLayers] and [districtLayers] are plain objects: association
      lists of their own properties, in insertion order, and beside them the
      members every plain object inherits from [Object.prototype].  A lookup
      of an inherited name yields a truthy value that has no [getBounds].
    - A title element holds what was last assigned to it, as text
      ([textContent]) or as markup ([innerHTML]).
    - The Leaflet map, the Chart.js canvases and the Chart and Tabulator
      libraries are assumed present when a handler runs (the filter controls
      are Leaflet controls of that very map), so the only exceptions that
      occur are a statement over a missing view or column, [toString] on
      [null] or [undefined], and [getBounds] on an inherited member of a
      layer index.  An exception that no [try] catches ends the handler
      where it occurs: what the handler assigned before stays.
      Button labels, the record counter and console output are
      presentation only and are not part of the state.
    - The menus of the filter controls, the opacity of the project lines,
      the grouping of boundary features into the layer indexes and the
      bridge list of a route are modelled beside the state, each on the data
      its source function works on.
    - A [setTimeout] retry is run at once, right after the handler that
      scheduled it. *)

From stdpp Require Import base option strings list gmap sorting pretty.
From Stdlib Require Import ZArith Ascii String.

Local Open Scope string_scope.
Local Open Scope list_scope.
Local Open Scope Z_scope.

(** ** JavaScript values and string primitives *)

Module Js.

(** The values that reach the modelled code: [undefined] (a missing
    property), [null] (an SQL NULL or a cleared filter), integers and
    strings. *)
Inductive value : Type :=
| undefined
| null
| num (z : Z)
| str (s : string).

#[global] Instance value_eq_dec : EqDecision value.
Proof. solve_decision. Defined.

#[global] Instance value_inhabited : Inhabited value := populate undefined.

(** ToBoolean. *)
Definition truthy (v : value) : bool :=
  match v with
  | undefined | null => false
  | num z => negb (Z.eqb z 0)
  | str s => negb (String.eqb s "")
  end.

(** [a || b]. *)
Definition or (a b : value) : value := if truthy a then a else b.

(** ToString, as used by template literals and property keys. *)
Definition toString (v : value) : string :=
  match v with
  | undefined => "undefined"
  | null => "null"
  | num z => pretty z
  | str s => s
  end.

(** The method call [v.toString()]: a TypeError ([None]) on [null] and
    [undefined]. *)
Definition toString_method (v : value) : option string :=
  match v with
  | undefined | null => None
  | _ => Some (toString v)
  end.

(** A nullable SQL TEXT column read through [getAsObject]. *)
Definition of_text (c : option string) : value :=
  match c with Some s => str s | None => null end.

(** A nullable SQL INTEGER column read through [getAsObject]. *)
Definition of_int (c : option Z) : value :=
  match c with Some z => num z | None => null end.

Definition upper_ascii (c : ascii) : ascii :=
  let n := N_of_ascii c in
  if ((97 <=? n) && (n <=? 122))%N then ascii_of_N (n - 32) else c.

Definition lower_ascii (c : ascii) : ascii :=
  let n := N_of_ascii c in
  if ((65 <=? n) && (n <=? 90))%N then ascii_of_N (n + 32) else c.

Fixpoint map_string (f : ascii -> ascii) (s : string) : string :=
  match s with
  | EmptyString => EmptyString
  | String c r => String (f c) (map_string f r)
  end.

Definition toUpperCase : string -> string := map_string upper_ascii.
Definition toLowerCase : string -> string := map_string lower_ascii.

(** [s.charAt(0)]: the first character, or the empty string. *)
Definition charAt0 (s : string) : string :=
  match s with
  | EmptyString => EmptyString
  | String c _ => String c EmptyString
  end.

(** [s.slice(1)]. *)
Definition slice1 (s : string) : string :=
  match s with
  | EmptyString => EmptyString
  | String _ r => r
  end.

(** [s.includes(sub)]. *)
Fixpoint includes (s sub : string) : bool :=
  String.prefix sub s ||
  match s with
  | EmptyString => false
  | String _ r => includes r sub
  end.

(** [s.padStart(2, '0')]. *)
Definition padStart2 (s : string) : string :=
  match s with
  | EmptyString => "00"
  | String c EmptyString => String "0" s
  | _ => s
  end.

Definition is_digit (c : ascii) : bool :=
  let n := N_of_ascii c in ((48 <=? n) && (n <=? 57))%N.

Definition digit_val (c : ascii) : Z := Z.of_N (N_of_ascii c) - 48.

(** The longest run of digits at the head of [s], and the rest. *)
Fixpoint span_digits (s : string) : string * string :=
  match s with
  | String c r =>
      if is_digit c then let '(d, t) := span_digits r in (String c d, t)
      else (EmptyString, s)
  | EmptyString => (EmptyString, EmptyString)
  end.

(** [s.match(/(\d+)/)]: capture group 1 of the leftmost match, which is
    the first maximal run of digits; [None] when [s] has no digit. *)
Fixpoint match_digits (s : string) : option string :=
  match s with
  | EmptyString => None
  | String c r =>
      if is_digit c then Some (fst (span_digits s)) else match_digits r
  end.

Fixpoint decimal_go (acc : Z) (s : string) : Z :=
  match s with
  | EmptyString => acc
  | String c r => decimal_go (10 * acc + digit_val c) r
  end.

Definition is_js_space (c : ascii) : bool :=
  let n := N_of_ascii c in
  ((n =? 32) || ((9 <=? n) && (n <=? 13)))%N.

Fixpoint trim_start (s : string) : string :=
  match s with
  | String c r => if is_js_space c then trim_start r else s
  | EmptyString => EmptyString
  end.

Definition hex_val (c : ascii) : option Z :=
  let n := N_of_ascii c in
  if is_digit c then Some (Z.of_N n - 48)
  else if ((97 <=? n) && (n <=? 102))%N then Some (Z.of_N n - 87)
  else if ((65 <=? n) && (n <=? 70))%N then Some (Z.of_N n - 55)
  else None.

(** The value of the hexadecimal digits at the head of [s]; [acc] is
    [None] until a digit has been read. *)
Fixpoint hex_go (acc : option Z) (s : string) : option Z :=
  match s with
  | String c r =>
      match hex_val c with
      | Some d => hex_go (Some (16 * default 0 acc + d)) r
      | None => acc
      end
  | EmptyString => acc
  end.

(** [parseInt(s)] on a string, with no radix argument: leading white
    space, an optional sign, then either [0x] / [0X] and hexadecimal
    digits or decimal digits; [None] is NaN. *)
Definition parseInt_string (s : string) : option Z :=
  let t := trim_start s in
  let '(neg, u) :=
    match t with
    | String "-" r => (true, r)
    | String "+" r => (false, r)
    | _ => (false, t)
    end in
  let magnitude :=
    match u with
    | String "0" (String ("x" | "X") h) => hex_go None h
    | _ =>
        match fst (span_digits u) with
        | EmptyString => None
        | d => Some (decimal_go 0 d)
        end
    end in
  (fun m => if neg : bool then - m else m) <$> magnitude.

(** [parseInt(v)]: the argument is first converted with ToString. *)
Definition parseInt (v : value) : option Z :=
  match v with
  | num z => Some z
  | str s => parseInt_string s
  | undefined | null => None
  end.

End Js.

Import Js.

(** A row as [stmt.getAsObject()] returns it, and a GeoJSON [properties]
    object: column (property) names with their values, in column order. *)
Definition Row : Type := list (string * value).

(** [row.name]: [undefined] when the object has no such property. *)
Fixpoint prop (name : string) (r : Row) : value :=
  match r with
  | [] => undefined
  | (k, v) :: r' => if String.eqb k name then v else prop name r'
  end.

(** ** The loaded snapshot *)

(** One row of [Basic_Project_Info].  The statements of the script compare
    [DISTRICT], [COUNTY], [TYPE_WORK] and [AWARDED] with text and [RSY_YEAR]
    with the number 2024: these five columns are nullable TEXT, TEXT, TEXT,
    TEXT and INTEGER.  The columns that no statement names are kept as they
    come. *)
Record Project : Type := {
  DISTRICT : option string;
  COUNTY : option string;
  RSY_YEAR : option Z;
  TYPE_WORK : option string;
  AWARDED : option string;
  other_columns : Row
}.

(** One row of the [crosswalk] table. *)
Record Crosswalk : Type := {
  raw_project_type : option string;
  dropdown_category : option string;
  dropdown_display_name : option string
}.

(** A view of the database file: the names of its columns, and its rows as
    tuples of values in column order. *)
Record View : Type := {
  view_columns : list string;
  view_tuples : list (list value)
}.

(** [stmt.getAsObject()] on each row of a view: the row objects are keyed by
    the column names as the view spells them, and the script probes them
    under several spellings. *)
Definition view_rows (view : View) : list Row :=
  zip (view_columns view) <$> view_tuples view.

(** The SQLite database held in the global [database].  A view that the
    file does not define is [None]. *)
Record Database : Type := {
  Basic_Project_Info : list Project;
  crosswalk : list Crosswalk;
  ProjectsAwarded : option View;
  ProjectsAwarded_ByDistrict : option View;
  ProjectsAwarded_ByCounty : option View;
  ProjectCount_Year : option View;
  ProjectYears_ByDistrict : option View;
  ProjectYears_ByCounty : option View
}.

(** [stmt.getAsObject()] on a row of [Basic_Project_Info]. *)
Definition getAsObject (p : Project) : Row :=
  [("DISTRICT", of_text (DISTRICT p));
   ("COUNTY", of_text (COUNTY p));
   ("RSY_YEAR", of_int (RSY_YEAR p));
   ("TYPE_WORK", of_text (TYPE_WORK p));
   ("AWARDED", of_text (AWARDED p))] ++ other_columns p.

(** ** SQL comparisons *)

(** [column = ?] with a text parameter: never true on NULL. *)
Definition sql_text_eq (c : option string) (param : string) : bool :=
  match c with
  | Some s => String.eqb s param
  | None => false
  end.

(** [column = ?] on a row object of a view. *)
Definition sql_value_eq (v : value) (param : string) : bool :=
  match v with
  | str s => String.eqb s param
  | _ => false
  end.

(** [RSY_YEAR >= 2024]: never true on NULL. *)
Definition sql_year_ge_2024 (y : option Z) : bool :=
  match y with
  | Some z => 2024 <=? z
  | None => false
  end.

(** [AWARDED IS NOT NULL AND AWARDED != ''] *)
Definition sql_awarded (a : option string) : bool :=
  match a with
  | Some s => negb (String.eqb s "")
  | None => false
  end.

(** [AWARDED IS NULL OR AWARDED = ''] *)
Definition sql_not_awarded (a : option string) : bool :=
  match a with
  | Some s => String.eqb s ""
  | None => true
  end.

(** SQLite's ordering of values, for [ORDER BY]: NULL first, then numbers,
    then text. *)
Definition sql_le (a b : value) : Prop :=
  match a, b with
  | (undefined | null), _ => True
  | num _, (undefined | null) => False
  | num x, num y => x <= y
  | num _, str _ => True
  | str s, str t => String.le s t
  | str _, _ => False
  end.

#[global] Instance sql_le_dec : RelDecision sql_le.
Proof. intros [] []; simpl; apply _. Defined.

Definition row_le (column : string) (r1 r2 : Row) : Prop :=
  sql_le (prop column r1) (prop column r2).

#[global] Instance row_le_dec column : RelDecision (row_le column).
Proof. intros r1 r2; unfold row_le; apply _. Defined.

(** [ORDER BY column] over row objects. *)
Definition sql_order_by (column : string) (rows : list Row) : list Row :=
  merge_sort (row_le column) rows.

(** The column of a view that an identifier of a statement names.  SQLite
    matches column names without regard to letter case; [None] when the view
    has no such column. *)
Definition sql_column (name : string) (view : View) : option string :=
  head (filter (fun column =>
                  String.eqb (toUpperCase column) (toUpperCase name) = true)
          (view_columns view)).

(** The file has no such view, or the view no column of that name. *)
Definition no_column (view : option View) (name : string) : Prop :=
  view = None \/ exists v, view = Some v /\ sql_column name v = None.

(** [SELECT * FROM view WHERE key = ?], each row read with [getAsObject].
    [None] when [database.prepare] throws: the file has no such view, or the
    view no such column. *)
Definition select_where (view : option View) (key param : string)
  : option (list Row) :=
  v ← view;
  column ← sql_column key v;
  Some (filter (fun r => sql_value_eq (prop column r) param = true)
          (view_rows v)).

(** [SELECT * FROM view ORDER BY order] *)
Definition select_order_by (view : option View) (order : string)
  : option (list Row) :=
  v ← view;
  by_column ← sql_column order v;
  Some (sql_order_by by_column (view_rows v)).

(** [SELECT * FROM view WHERE key = ? ORDER BY order] *)
Definition select_where_order_by (view : option View)
    (key param order : string) : option (list Row) :=
  v ← view;
  column ← sql_column key v;
  by_column ← sql_column order v;
  Some (sql_order_by by_column
          (filter (fun r => sql_value_eq (prop column r) param = true)
             (view_rows v))).

(** The ordering of a nullable INTEGER key, for [GROUP BY] / [ORDER BY]. *)
Definition year_lt (a b : option Z) : bool :=
  match a, b with
  | None, None => false
  | None, Some _ => true
  | Some _, None => false
  | Some x, Some y => x <? y
  end.

(** Count one more row under key [k] in a key-ordered list of groups. *)
Fixpoint bump (k : option Z) (groups : list (option Z * Z))
  : list (option Z * Z) :=
  match groups with
  | [] => [(k, 1)]
  | (k', n) :: rest =>
      if bool_decide (k = k') then (k', n + 1) :: rest
      else if year_lt k k' then (k, 1) :: groups
      else (k', n) :: bump k rest
  end.

(** [SELECT key, COUNT( * ) ... GROUP BY key ORDER BY key]. *)
Definition group_count (keys : list (option Z)) : list (option Z * Z) :=
  foldr bump [] keys.

(** [FROM Basic_Project_Info b LEFT JOIN crosswalk c
     ON b.TYPE_WORK = c.raw_project_type]: every project with each crosswalk
    row of its work type, or with an all-NULL right side when there is
    none. *)
Definition join_on (b : Project) (c : Crosswalk) : bool :=
  match TYPE_WORK b, raw_project_type c with
  | Some t, Some r => String.eqb t r
  | _, _ => false
  end.

Definition left_join_crosswalk (db : Database)
  : list (Project * option Crosswalk) :=
  b ← Basic_Project_Info db;
  match filter (fun c => join_on b c = true) (crosswalk db) with
  | [] => [(b, None)]
  | cs => (fun c => (b, Some c)) <$> cs
  end.

(** [c.dropdown_category = ?] on a joined row. *)
Definition category_is (projectType : string)
    (bc : Project * option Crosswalk) : bool :=
  match bc.2 with
  | Some c => sql_text_eq (dropdown_category c) projectType
  | None => false
  end.

(** [... LEFT JOIN crosswalk c ON ... WHERE c.dropdown_category = ?] *)
Definition joined_where_category (db : Database) (projectType : string)
  : list (Project * option Crosswalk) :=
  filter (fun bc => category_is projectType bc = true) (left_join_crosswalk db).

(** ** The dashboard state *)

(** [projectCounts]: what the pie chart shows. *)
Record Counts : Type := { awarded : value; current : value }.

(** The Tabulator table: its column fields and its rows. *)
Record Tabulator : Type := { columns : list string; data : list Row }.

(** A Leaflet GeoJSON layer: the [properties] of its features.  Its
    bounding box is computed by the map library. *)
Definition Layer : Type := list Row.

(** Where the map was last sent. *)
Inductive MapView : Type :=
| KentuckyView                 (* setView([37.8, -85.0], 7) *)
| FitBounds (layer : Layer).   (* fitBounds(layer.getBounds()) *)

(** What a title element was last given: its text, through [textContent],
    or markup, through [innerHTML], which the browser parses. *)
Inductive Title : Type :=
| textContent (text : string)
| innerHTML (markup : string).

(** The module-level variables of the script and the two title elements. *)
Record Dashboard : Type := {
  currentDistrictFilter : value;
  currentCountyFilter : option string;
  currentProjectTypeFilter : option string;
  projectCounts : Counts;
  (** labels and data of the years chart; empty when nothing is drawn *)
  projectYearsChart : list (string * value);
  highwayProjectsTable : option Tabulator;
  database : option Database;
  districtLayers : list (string * Layer);
  countyLayers : list (string * Layer);
  allProjectsLayer : option Layer;
  mapView : MapView;
  (** the last assignment to the element, [None] when the page has no such
      element *)
  projectsPanelTitle : option Title;
  tableDataTitle : option Title
}.

Definition set_district (v : value) (s : Dashboard) : Dashboard :=
  {| currentDistrictFilter := v;
     currentCountyFilter := currentCountyFilter s;
     currentProjectTypeFilter := currentProjectTypeFilter s;
     projectCounts := projectCounts s;
     projectYearsChart := projectYearsChart s;
     highwayProjectsTable := highwayProjectsTable s;
     database := database s;
     districtLayers := districtLayers s;
     countyLayers := countyLayers s;
     allProjectsLayer := allProjectsLayer s;
     mapView := mapView s;
     projectsPanelTitle := projectsPanelTitle s;
     tableDataTitle := tableDataTitle s |}.

Definition set_county (c : option string) (s : Dashboard) : Dashboard :=
  {| currentDistrictFilter := currentDistrictFilter s;
     currentCountyFilter := c;
     currentProjectTypeFilter := currentProjectTypeFilter s;
     projectCounts := projectCounts s;
     projectYearsChart := projectYearsChart s;
     highwayProjectsTable := highwayProjectsTable s;
     database := database s;
     districtLayers := districtLayers s;
     countyLayers := countyLayers s;
     allProjectsLayer := allProjectsLayer s;
     mapView := mapView s;
     projectsPanelTitle := projectsPanelTitle s;
     tableDataTitle := tableDataTitle s |}.

Definition set_projectType (t : option string) (s : Dashboard) : Dashboard :=
  {| currentDistrictFilter := currentDistrictFilter s;
     currentCountyFilter := currentCountyFilter s;
     currentProjectTypeFilter := t;
     projectCounts := projectCounts s;
     projectYearsChart := projectYearsChart s;
     highwayProjectsTable := highwayProjectsTable s;
     database := database s;
     districtLayers := districtLayers s;
     countyLayers := countyLayers s;
     allProjectsLayer := allProjectsLayer s;
     mapView := mapView s;
     projectsPanelTitle := projectsPanelTitle s;
     tableDataTitle := tableDataTitle s |}.

Definition set_counts (c : Counts) (s : Dashboard) : Dashboard :=
  {| currentDistrictFilter := currentDistrictFilter s;
     currentCountyFilter := currentCountyFilter s;
     currentProjectTypeFilter := currentProjectTypeFilter s;
     projectCounts := c;
     projectYearsChart := projectYearsChart s;
     highwayProjectsTable := highwayProjectsTable s;
     database := database s;
     districtLayers := districtLayers s;
     countyLayers := countyLayers s;
     allProjectsLayer := allProjectsLayer s;
     mapView := mapView s;
     projectsPanelTitle := projectsPanelTitle s;
     tableDataTitle := tableDataTitle s |}.

Definition set_chart (c : list (string * value)) (s : Dashboard) : Dashboard :=
  {| currentDistrictFilter := currentDistrictFilter s;
     currentCountyFilter := currentCountyFilter s;
     currentProjectTypeFilter := currentProjectTypeFilter s;
     projectCounts := projectCounts s;
     projectYearsChart := c;
     highwayProjectsTable := highwayProjectsTable s;
     database := database s;
     districtLayers := districtLayers s;
     countyLayers := countyLayers s;
     allProjectsLayer := allProjectsLayer s;
     mapView := mapView s;
     projectsPanelTitle := projectsPanelTitle s;
     tableDataTitle := tableDataTitle s |}.

Definition set_table (t : option Tabulator) (s : Dashboard) : Dashboard :=
  {| currentDistrictFilter := currentDistrictFilter s;
     currentCountyFilter := currentCountyFilter s;
     currentProjectTypeFilter := currentProjectTypeFilter s;
     projectCounts := projectCounts s;
     projectYearsChart := projectYearsChart s;
     highwayProjectsTable := t;
     database := database s;
     districtLayers := districtLayers s;
     countyLayers := countyLayers s;
     allProjectsLayer := allProjectsLayer s;
     mapView := mapView s;
     projectsPanelTitle := projectsPanelTitle s;
     tableDataTitle := tableDataTitle s |}.

Definition set_mapView (m : MapView) (s : Dashboard) : Dashboard :=
  {| currentDistrictFilter := currentDistrictFilter s;
     currentCountyFilter := currentCountyFilter s;
     currentProjectTypeFilter := currentProjectTypeFilter s;
     projectCounts := projectCounts s;
     projectYearsChart := projectYearsChart s;
     highwayProjectsTable := highwayProjectsTable s;
     database := database s;
     districtLayers := districtLayers s;
     countyLayers := countyLayers s;
     allProjectsLayer := allProjectsLayer s;
     mapView := m;
     projectsPanelTitle := projectsPanelTitle s;
     tableDataTitle := tableDataTitle s |}.

Definition set_titles (panel table : option Title) (s : Dashboard)
  : Dashboard :=
  {| currentDistrictFilter := currentDistrictFilter s;
     currentCountyFilter := currentCountyFilter s;
     currentProjectTypeFilter := currentProjectTypeFilter s;
     projectCounts := projectCounts s;
     projectYearsChart := projectYearsChart s;
     highwayProjectsTable := highwayProjectsTable s;
     database := database s;
     districtLayers := districtLayers s;
     countyLayers := countyLayers s;
     allProjectsLayer := allProjectsLayer s;
     mapView := mapView s;
     projectsPanelTitle := panel;
     tableDataTitle := table |}.

(** ** Titles *)

(** [getProjectTypeDisplayName(category)]:
    [SELECT DISTINCT dropdown_display_name FROM crosswalk
     WHERE dropdown_category = ? LIMIT 1]. *)
Definition getProjectTypeDisplayName (s : Dashboard) (category : string)
  : string :=
  match database s with
  | None => category
  | Some db =>
      if negb (truthy (str category)) then category
      else
        match filter (fun c => sql_text_eq (dropdown_category c) category = true)
                (crosswalk db) with
        | c :: _ =>
            toString (or (of_text (dropdown_display_name c)) (str category))
        | [] => category
        end
  end.

Definition districtSuffix (s : Dashboard) : string :=
  if truthy (currentDistrictFilter s)
  then " in District " +:+ toString (currentDistrictFilter s)
  else "".

Definition countySuffix (s : Dashboard) : string :=
  match currentCountyFilter s with
  | Some c => if truthy (str c) then " in " +:+ c +:+ " County" else ""
  | None => ""
  end.

Definition projectTypeSuffix (s : Dashboard) : string :=
  match currentProjectTypeFilter s with
  | Some t =>
      if truthy (str t)
      then " (" +:+ getProjectTypeDisplayName s t +:+ ")"
      else ""
  | None => ""
  end.

(** [updatePanelTitles()] *)
Definition updatePanelTitles (s : Dashboard) : Dashboard :=
  let projectsTitleSuffix := districtSuffix s +:+ countySuffix s in
  let tableTitleSuffix :=
    districtSuffix s +:+ countySuffix s +:+ projectTypeSuffix s in
  let panel :=
    (fun _ : Title =>
       if truthy (str projectsTitleSuffix)
       then innerHTML ("Projects" +:+ projectsTitleSuffix)
       else textContent "Projects") <$> projectsPanelTitle s in
  let table :=
    (fun _ : Title =>
       if truthy (str tableTitleSuffix)
       then innerHTML ("Highway Projects Data" +:+ tableTitleSuffix)
       else textContent "Highway Projects Data") <$> tableDataTitle s in
  set_titles panel table s.

(** ** Charts *)

(** The object [yearData]: year label to count. *)
Abbreviation YearData := (gmap string value).

(** [createProjectYearsChart(yearData)]: the labels are
    [Object.keys(yearData).sort()], in the default (string) order, and each
    bar is [yearData[year]].  With no key the old chart is destroyed and
    none is drawn. *)
Definition years_chart (yearData : YearData) : list (string * value) :=
  let years := merge_sort String.le (map_to_list yearData).*1 in
  (fun year => (year, default undefined (yearData !! year))) <$> years.

Definition createProjectYearsChart (yearData : YearData) (s : Dashboard)
  : Dashboard :=
  set_chart (years_chart yearData) s.

(** [yearData[year] = count], guarded by
    [if (year && count !== undefined)]. *)
Definition record_year (year count : value) (yearData : YearData)
  : YearData :=
  if truthy year && negb (bool_decide (count = undefined))
  then <[toString year := count]> yearData
  else yearData.

(** [updateProjectCounts(type, count)] *)
Definition updateProjectCounts_awarded (count : value) (s : Dashboard)
  : Dashboard :=
  set_counts {| awarded := count; current := current (projectCounts s) |} s.

Definition updateProjectCounts_current (count : value) (s : Dashboard)
  : Dashboard :=
  set_counts {| awarded := awarded (projectCounts s); current := count |} s.

(** Every loader starts with [if (!database) return]. *)
Definition with_database (load : Database -> Dashboard -> Dashboard)
    (s : Dashboard) : Dashboard :=
  match database s with
  | Some db => load db s
  | None => s
  end.

(** [projectCounts.awarded = ...; projectCounts.current = ...;
     createProjectsPieChart()], or nothing when the loader ends without
    assigning. *)
Definition show_counts (counts : option Counts) (s : Dashboard) : Dashboard :=
  match counts with
  | Some c => set_counts c s
  | None => s
  end.

(** [createProjectYearsChart(yearData)], or nothing when the loader ends
    without calling it. *)
Definition show_years (yearData : option YearData) (s : Dashboard)
  : Dashboard :=
  match yearData with
  | Some m => createProjectYearsChart m s
  | None => s
  end.

(** ** Awarded-versus-current queries *)

(** The counts read off a row of one of the [ProjectsAwarded] views. *)
Definition counts_of_view_row (row : Row) : Counts :=
  {| awarded := or (prop "Awarded" row) (or (prop "awarded" row) (num 0));
     current := or (prop "Current" row) (or (prop "current" row) (num 0)) |}.

Definition count_rows {A} (P : A -> bool) (l : list A) : Z :=
  Z.of_nat (List.length (filter (fun x => P x = true) l)).

Definition no_counts : Counts := {| awarded := num 0; current := num 0 |}.

(** What [loadProjectsAwardedData()] assigns: the first row of
    [SELECT * FROM ProjectsAwarded]; nothing when the view is empty; and when
    the view does not exist,
    [SELECT COUNT( * ) as count FROM Basic_Project_Info]
    with "For fallback, assume all are current projects". *)
Definition awarded_all (db : Database) : option Counts :=
  match view_rows <$> ProjectsAwarded db with
  | Some (row :: _) => Some (counts_of_view_row row)
  | Some [] => None
  | None =>
      Some {| awarded := num 0;
              current := num (Z.of_nat (List.length (Basic_Project_Info db))) |}
  end.

(** [loadProjectsAwardedData()] *)
Definition loadProjectsAwardedData : Dashboard -> Dashboard :=
  with_database (fun db => show_counts (awarded_all db)).

(** ["District " + districtNumber.toString().padStart(2, '0')]; [None] when
    [toString] throws. *)
Definition formattedDistrict (districtNumber : value) : option string :=
  (fun d => "District " +:+ padStart2 d) <$> toString_method districtNumber.

(** What [loadFilteredProjectsAwardedData(districtNumber)] assigns: the row
    of [ProjectsAwarded_ByDistrict] for the district, zeros when it has
    none; nothing when the statement throws (the error is caught and
    logged). *)
Definition awarded_byDistrict (db : Database) (districtNumber : value)
  : option Counts :=
  fd ← formattedDistrict districtNumber;
  rows ← select_where (ProjectsAwarded_ByDistrict db) "DISTRICT" fd;
  Some match rows with
       | row :: _ => counts_of_view_row row
       | [] => no_counts
       end.

(** [loadFilteredProjectsAwardedData(districtNumber)] *)
Definition loadFilteredProjectsAwardedData (districtNumber : value)
  : Dashboard -> Dashboard :=
  with_database (fun db => show_counts (awarded_byDistrict db districtNumber)).

(** What [loadFilteredProjectsAwardedDataByCounty(countyName)] assigns: the
    row of [ProjectsAwarded_ByCounty] for the county, zeros when it has
    none; when the statement over the view throws,
    [SELECT COUNT(CASE WHEN AWARDED IS NOT NULL AND AWARDED != '' THEN 1 END)
            as Awarded,
            COUNT(CASE WHEN AWARDED IS NULL OR AWARDED = '' THEN 1 END)
            as Current
     FROM Basic_Project_Info WHERE COUNTY = ?]. *)
Definition awarded_byCounty (db : Database) (countyName : string) : Counts :=
  match select_where (ProjectsAwarded_ByCounty db) "COUNTY" countyName with
  | Some (row :: _) => counts_of_view_row row
  | Some [] => no_counts
  | None =>
      let rows :=
        filter (fun p => sql_text_eq (COUNTY p) countyName = true)
          (Basic_Project_Info db) in
      {| awarded :=
           or (num (count_rows (fun p => sql_awarded (AWARDED p)) rows))
              (num 0);
         current :=
           or (num (count_rows (fun p => sql_not_awarded (AWARDED p)) rows))
              (num 0) |}
  end.

(** [loadFilteredProjectsAwardedDataByCounty(countyName)] *)
Definition loadFilteredProjectsAwardedDataByCounty (countyName : string)
  : Dashboard -> Dashboard :=
  with_database (fun db => show_counts (Some (awarded_byCounty db countyName))).

(** The [status] column of the by-project-type statement:
    [CASE WHEN c.dropdown_category = ? THEN 'Awarded' ELSE 'Current' END]. *)
Definition status_case (projectType : string)
    (bc : Project * option Crosswalk) : string :=
  if category_is projectType bc then "Awarded" else "Current".

(** The rows of
    [SELECT CASE ... END as status, COUNT( * ) as count
     FROM Basic_Project_Info b LEFT JOIN crosswalk c ON ...
     WHERE c.dropdown_category = ? GROUP BY status]. *)
Definition awarded_by_projectType_rows (db : Database) (projectType : string)
  : list Row :=
  let rows := joined_where_category db projectType in
  let group (label : string) : list Row :=
    let n := count_rows (fun bc => String.eqb (status_case projectType bc) label)
               rows in
    if 0 <? n then [[("status", str label); ("count", num n)]] else [] in
  group "Awarded" ++ group "Current".

(** The [while (stmt.step())] loop of
    [loadFilteredProjectsAwardedDataByProjectType]: [awardedCount] and
    [currentCount]. *)
Definition awarded_byProjectType (db : Database) (projectType : string)
  : value * value :=
  foldl
    (fun '(awardedCount, currentCount) row =>
       if bool_decide (prop "status" row = str "Awarded")
       then (or (prop "count" row) (num 0), currentCount)
       else (awardedCount, or (prop "count" row) (num 0)))
    (num 0, num 0)
    (awarded_by_projectType_rows db projectType).

(** [loadFilteredProjectsAwardedDataByProjectType(projectType)] *)
Definition loadFilteredProjectsAwardedDataByProjectType (projectType : string)
  : Dashboard -> Dashboard :=
  with_database
    (fun db s =>
       let '(awardedCount, currentCount) :=
         awarded_byProjectType db projectType in
       updateProjectCounts_current currentCount
         (updateProjectCounts_awarded awardedCount s)).

(** ** Counts-by-year queries *)

(** The rows of [SELECT RSY_YEAR as YEAR, COUNT( * ) as record_count ...
    GROUP BY RSY_YEAR ORDER BY RSY_YEAR] over the selected projects. *)
Definition year_count_rows (selected : list Project) : list Row :=
  (fun '(y, n) => [("YEAR", of_int y); ("record_count", num n)])
    <$> group_count (RSY_YEAR <$> selected).

(** [(yearData[rsyYear] || 0) + 1] *)
Definition incr (v : value) : value :=
  match or v (num 0) with
  | num n => num (n + 1)
  | other => str (toString other +:+ "1")
  end.

(** The loop of the unfiltered fallback over
    [SELECT RSY_YEAR FROM Basic_Project_Info WHERE RSY_YEAR >= 2024]. *)
Definition count_year (yearData : YearData) (p : Project) : YearData :=
  match parseInt (of_int (RSY_YEAR p)) with
  | Some rsyYear =>
      <[pretty rsyYear :=
          incr (default undefined (yearData !! pretty rsyYear))]> yearData
  | None => yearData
  end.

Definition fallback_yearData (db : Database) : YearData :=
  foldl count_year ∅
    (filter (fun p => sql_year_ge_2024 (RSY_YEAR p) = true)
       (Basic_Project_Info db)).

(** The [rows.forEach] conversion of [loadProjectCountByYear]. *)
Definition yearData_unfiltered (rows : list Row) : YearData :=
  foldl
    (fun yearData row =>
       record_year
         (or (prop "YEAR" row) (prop "year" row))
         (or (prop "record_count" row)
             (or (prop "RECORD_COUNT" row) (prop "count" row)))
         yearData)
    ∅ rows.

(** [if (Object.keys(yearData).length > 0) createProjectYearsChart(yearData)]
    with nothing in the else branch. *)
Definition if_any (yearData : YearData) : option YearData :=
  if bool_decide (0 < size yearData)%nat then Some yearData else None.

(** What [loadProjectCountByYear()] draws:
    [SELECT * FROM ProjectCount_Year ORDER BY YEAR], nothing when the view is
    empty; when the statement throws, the years from 2024 on counted from
    [Basic_Project_Info]. *)
Definition years_all (db : Database) : option YearData :=
  match select_order_by (ProjectCount_Year db) "YEAR" with
  | Some [] => None
  | Some rows => if_any (yearData_unfiltered rows)
  | None => if_any (fallback_yearData db)
  end.

(** [loadProjectCountByYear()] *)
Definition loadProjectCountByYear : Dashboard -> Dashboard :=
  with_database (fun db => show_years (years_all db)).

(** The [rows.forEach] conversion of [loadFilteredProjectCountByYear]. *)
Definition yearData_byDistrict (rows : list Row) : YearData :=
  foldl
    (fun yearData row =>
       record_year
         (or (prop "RSY_YEAR" row) (or (prop "YEAR" row) (prop "year" row)))
         (or (prop "total_projects" row)
             (or (prop "record_count" row)
                 (or (prop "RECORD_COUNT" row)
                     (or (prop "count" row) (prop "Count" row)))))
         yearData)
    ∅ rows.

(** The rows [loadFilteredProjectCountByYear] converts: those of the view,
    and when the statement over the view throws, those aggregated from
    [Basic_Project_Info]. *)
Definition year_rows_byDistrict (db : Database) (fd : string) : list Row :=
  match select_where_order_by (ProjectYears_ByDistrict db) "DISTRICT" fd
          "RSY_YEAR" with
  | Some rows => rows
  | None =>
      year_count_rows
        (filter
           (fun p => sql_text_eq (DISTRICT p) fd
                     && sql_year_ge_2024 (RSY_YEAR p) = true)
           (Basic_Project_Info db))
  end.

(** [if (Object.keys(yearData).length > 0) createProjectYearsChart(yearData)
     else createProjectYearsChart({})] *)
Definition or_empty (yearData : YearData) : YearData :=
  if bool_decide (0 < size yearData)%nat then yearData else ∅.

(** What [loadFilteredProjectCountByYear(districtNumber)] draws; nothing
    when [toString] throws. *)
Definition years_byDistrict (db : Database) (districtNumber : value)
  : option YearData :=
  (fun fd => or_empty (yearData_byDistrict (year_rows_byDistrict db fd)))
    <$> formattedDistrict districtNumber.

(** [loadFilteredProjectCountByYear(districtNumber)] *)
Definition loadFilteredProjectCountByYear (districtNumber : value)
  : Dashboard -> Dashboard :=
  with_database (fun db => show_years (years_byDistrict db districtNumber)).

(** The [rows.forEach] conversion of
    [loadFilteredProjectCountByYearByCounty]. *)
Definition yearData_byCounty (rows : list Row) : YearData :=
  foldl
    (fun yearData row =>
       record_year
         (or (prop "RSY_YEAR" row) (or (prop "YEAR" row) (prop "year" row)))
         (or (prop "total_projects" row)
             (or (prop "record_count" row)
                 (or (prop "RECORD_COUNT" row) (prop "count" row))))
         yearData)
    ∅ rows.

Definition year_rows_byCounty (db : Database) (countyName : string)
  : list Row :=
  match select_where_order_by (ProjectYears_ByCounty db) "COUNTY" countyName
          "RSY_YEAR" with
  | Some rows => rows
  | None =>
      year_count_rows
        (filter
           (fun p => sql_text_eq (COUNTY p) countyName
                     && sql_year_ge_2024 (RSY_YEAR p) = true)
           (Basic_Project_Info db))
  end.

(** What [loadFilteredProjectCountByYearByCounty(countyName)] draws. *)
Definition years_byCounty (db : Database) (countyName : string) : YearData :=
  or_empty (yearData_byCounty (year_rows_byCounty db countyName)).

(** [loadFilteredProjectCountByYearByCounty(countyName)] *)
Definition loadFilteredProjectCountByYearByCounty (countyName : string)
  : Dashboard -> Dashboard :=
  with_database (fun db => show_years (Some (years_byCounty db countyName))).

(** What [loadFilteredProjectCountByYearByProjectType(projectType)] draws:
    there is one statement, over [Basic_Project_Info] joined to the
    crosswalk. *)
Definition years_byProjectType (db : Database) (projectType : string)
  : YearData :=
  yearData_unfiltered
    (year_count_rows (fst <$> joined_where_category db projectType)).

(** [loadFilteredProjectCountByYearByProjectType(projectType)] *)
Definition loadFilteredProjectCountByYearByProjectType (projectType : string)
  : Dashboard -> Dashboard :=
  with_database
    (fun db => show_years (Some (years_byProjectType db projectType))).

(** ** Row queries for the table *)

(** The table as [initializeProjectsTable()] creates it. *)
Definition initialTable : Tabulator :=
  {| columns := ["loading"]; data := [] |}.

(** [createTableColumns(sampleRow)]: one column per key of the sample row;
    the title, widths and formatter of a column are fixed by its field. *)
Definition createTableColumns (sampleRow : Row) : list string := sampleRow.*1.

(** [SELECT * FROM Basic_Project_Info LIMIT 1000] *)
Definition rows_unfiltered (db : Database) : list Row :=
  take 1000 (getAsObject <$> Basic_Project_Info db).

(** [SELECT * FROM Basic_Project_Info WHERE DISTRICT = ? LIMIT 1000] *)
Definition rows_byDistrict (db : Database) (fd : string) : list Row :=
  take 1000
    (getAsObject <$>
       filter (fun p => sql_text_eq (DISTRICT p) fd = true)
         (Basic_Project_Info db)).

(** [SELECT * FROM Basic_Project_Info WHERE COUNTY = ? LIMIT 1000] *)
Definition rows_byCounty (db : Database) (countyName : string) : list Row :=
  take 1000
    (getAsObject <$>
       filter (fun p => sql_text_eq (COUNTY p) countyName = true)
         (Basic_Project_Info db)).

(** [SELECT b.* FROM Basic_Project_Info b LEFT JOIN crosswalk c ON ...
     WHERE c.dropdown_category = ? LIMIT 1000] *)
Definition rows_byProjectType (db : Database) (projectType : string)
  : list Row :=
  take 1000
    ((fun bc => getAsObject bc.1) <$> joined_where_category db projectType).

(** The table [loadBasicProjectInfo] shows for these rows. *)
Definition unfiltered_table (row0 : Row) (rows : list Row) : Tabulator :=
  {| columns := createTableColumns row0; data := row0 :: rows |}.

(** One pass of [loadBasicProjectInfo()]; the flag tells that the table did
    not exist yet, was created, and a retry was scheduled. *)
Definition loadBasicProjectInfo_pass (s : Dashboard) : Dashboard * bool :=
  match database s with
  | None => (s, false)
  | Some db =>
      match rows_unfiltered db with
      | [] => (s, false)
      | row0 :: rest =>
          let s' := loadProjectsAwardedData (loadProjectCountByYear s) in
          match highwayProjectsTable s' with
          | Some _ => (set_table (Some (unfiltered_table row0 rest)) s', false)
          | None => (set_table (Some initialTable) s', true)
          end
      end
  end.

(** [loadBasicProjectInfo()] *)
Definition loadBasicProjectInfo (s : Dashboard) : Dashboard :=
  let '(s1, retry) := loadBasicProjectInfo_pass s in
  if retry : bool then (loadBasicProjectInfo_pass s1).1 else s1.

(** What the three filtered loaders do with their rows once the table
    exists. *)
Definition show_filtered_rows (rows : list Row) (t : Tabulator) : Tabulator :=
  match rows with
  | [] => {| columns := columns t; data := [] |}
  | row0 :: _ =>
      {| columns :=
           if bool_decide (List.length (columns t) = 0%nat)
              || bool_decide (head (columns t) = Some "loading")
           then createTableColumns row0
           else columns t;
         data := rows |}
  end.

(** The tail shared by the filtered loaders: when the table does not exist
    it is created and the loader runs again, with the same rows. *)
Definition load_filtered_rows (rows : list Row) (s : Dashboard) : Dashboard :=
  set_table
    (Some (show_filtered_rows rows
             (default initialTable (highwayProjectsTable s))))
    s.

(** The rows the table is given under the district filter; [None] when
    [toString] throws. *)
Definition table_rows_byDistrict (db : Database) (districtNumber : value)
  : option (list Row) :=
  rows_byDistrict db <$> formattedDistrict districtNumber.

(** The table is given the rows, or is left as it is when the statement
    threw. *)
Definition show_rows (rows : option (list Row)) (s : Dashboard) : Dashboard :=
  match rows with
  | Some rows => load_filtered_rows rows s
  | None => s
  end.

(** [loadFilteredBasicProjectInfo(districtNumber)] *)
Definition loadFilteredBasicProjectInfo (districtNumber : value)
  : Dashboard -> Dashboard :=
  with_database (fun db => show_rows (table_rows_byDistrict db districtNumber)).

(** [loadFilteredBasicProjectInfoByCounty(countyName)] *)
Definition loadFilteredBasicProjectInfoByCounty (countyName : string)
  : Dashboard -> Dashboard :=
  with_database (fun db => load_filtered_rows (rows_byCounty db countyName)).

(** [loadFilteredBasicProjectInfoByProjectType(projectType)] *)
Definition loadFilteredBasicProjectInfoByProjectType (projectType : string)
  : Dashboard -> Dashboard :=
  with_database
    (fun db => load_filtered_rows (rows_byProjectType db projectType)).

(** ** The aggregation dispatcher *)

(** A filter variable that passes [if (filter)]: a non-empty string. *)
Definition active_text (f : option string) : option string :=
  match f with
  | Some t => if truthy (str t) then Some t else None
  | None => None
  end.

(** The three loads of one filter kind, in the order the script runs
    them: pie chart, years chart, table. *)
Definition load_byProjectType (projectType : string) (s : Dashboard)
  : Dashboard :=
  loadFilteredBasicProjectInfoByProjectType projectType
    (loadFilteredProjectCountByYearByProjectType projectType
       (loadFilteredProjectsAwardedDataByProjectType projectType s)).

Definition load_byDistrict (districtNumber : value) (s : Dashboard)
  : Dashboard :=
  loadFilteredBasicProjectInfo districtNumber
    (loadFilteredProjectCountByYear districtNumber
       (loadFilteredProjectsAwardedData districtNumber s)).

Definition load_byCounty (countyName : string) (s : Dashboard) : Dashboard :=
  loadFilteredBasicProjectInfoByCounty countyName
    (loadFilteredProjectCountByYearByCounty countyName
       (loadFilteredProjectsAwardedDataByCounty countyName s)).

Definition load_all (s : Dashboard) : Dashboard :=
  loadBasicProjectInfo (loadProjectCountByYear (loadProjectsAwardedData s)).

(** [updateChartsAndTable()] *)
Definition updateChartsAndTable (s : Dashboard) : Dashboard :=
  match active_text (currentProjectTypeFilter s) with
  | Some projectType => load_byProjectType projectType s
  | None =>
      if truthy (currentDistrictFilter s)
      then load_byDistrict (currentDistrictFilter s) s
      else
        match active_text (currentCountyFilter s) with
        | Some countyName => load_byCounty countyName s
        | None => load_all s
        end
  end.

(** ** The spatial layer index *)

(** The names every plain object inherits from [Object.prototype]. *)
Definition Object_prototype_names : list string :=
  ["constructor"; "__defineGetter__"; "__defineSetter__"; "hasOwnProperty";
   "__lookupGetter__"; "__lookupSetter__"; "isPrototypeOf";
   "propertyIsEnumerable"; "toString"; "valueOf"; "__proto__";
   "toLocaleString"].

(** The own property [key] of an index, if it has one. *)
Fixpoint layer_at (key : string) (layers : list (string * Layer))
  : option Layer :=
  match layers with
  | [] => None
  | (k, l) :: rest => if String.eqb k key then Some l else layer_at key rest
  end.

(** What [layers[key]] evaluates to.  [countyLayers] and [districtLayers]
    are plain objects: a name they do not own is looked up in
    [Object.prototype], whose members (functions, and the prototype itself
    under [__proto__]) are truthy and have no [getBounds]. *)
Inductive Member : Type :=
| stored (layer : Layer)
| inherited
| missing.

Definition member_at (key : string) (layers : list (string * Layer))
  : Member :=
  match layer_at key layers with
  | Some layer => stored layer
  | None =>
      if bool_decide (key ∈ Object_prototype_names) then inherited
      else missing
  end.

(** [a || b] on two such lookups: only [undefined] is falsy. *)
Definition or_member (a b : Member) : Member :=
  match a with missing => b | _ => a end.

(** [name.charAt(0).toUpperCase() + name.slice(1).toLowerCase()] *)
Definition titleCase (name : string) : string :=
  toUpperCase (charAt0 name) +:+ toLowerCase (slice1 name).

(** The test of the partial-match filter of [zoomToCounty]: containment
    either way, on the lowercased strings. *)
Definition partial_match (countyName key : string) : bool :=
  includes (toLowerCase key) (toLowerCase countyName)
  || includes (toLowerCase countyName) (toLowerCase key).

(** [Object.keys(countyLayers).filter(key => ...)] *)
Definition partialMatches (countyName : string)
    (layers : list (string * Layer)) : list string :=
  filter (fun key => partial_match countyName key = true) layers.*1.

(** [exactMatch || upperMatch || lowerMatch || titleMatch] *)
Definition foundLayer (countyName : string) (layers : list (string * Layer))
  : Member :=
  let exactMatch := member_at countyName layers in
  let upperMatch := member_at (toUpperCase countyName) layers in
  let lowerMatch := member_at (toLowerCase countyName) layers in
  let titleMatch := member_at (titleCase countyName) layers in
  or_member exactMatch (or_member upperMatch (or_member lowerMatch titleMatch)).

(** [window.mainMap.fitBounds(member.getBounds())]: a TypeError ([None])
    unless the member is a layer. *)
Definition fitBounds (member : Member) (s : Dashboard) : option Dashboard :=
  match member with
  | stored layer => Some (set_mapView (FitBounds layer) s)
  | inherited | missing => None
  end.

(** [zoomToCounty(countyName)]; [None] when it throws. *)
Definition zoomToCounty (countyName : string) (s : Dashboard)
  : option Dashboard :=
  match foundLayer countyName (countyLayers s) with
  | missing =>
      match partialMatches countyName (countyLayers s) with
      | key :: _ => fitBounds (member_at key (countyLayers s)) s
      | [] => Some s
      end
  | found => fitBounds found s
  end.

(** The property key of [districtLayers[numKey]] for
    [numKey = parseInt(districtNumber)]. *)
Definition numKey (districtNumber : value) : string :=
  match parseInt districtNumber with
  | Some n => pretty n
  | None => "NaN"
  end.

(** The layer the if / else-if chain of [zoomToDistrict] picks:
    [districtLayers[numKey]], else [districtLayers[strKey]]. *)
Definition foundDistrict (districtNumber : value) (strKey : string)
    (layers : list (string * Layer)) : Member :=
  or_member (member_at (numKey districtNumber) layers)
    (member_at strKey layers).

(** [zoomToDistrict(districtNumber)]; [None] when it throws, in
    [districtNumber.toString()] or in [getBounds]. *)
Definition zoomToDistrict (districtNumber : value) (s : Dashboard)
  : option Dashboard :=
  strKey ← toString_method districtNumber;
  match foundDistrict districtNumber strKey (districtLayers s) with
  | missing => Some s
  | found => fitBounds found s
  end.

(** The map reset shared by the three clear operations. *)
Definition resetMapView (s : Dashboard) : Dashboard :=
  match allProjectsLayer s with
  | Some layer => set_mapView (FitBounds layer) s
  | None => set_mapView KentuckyView s
  end.

(** ** Filter transitions *)

(** [applyCountyFilter(countyName)].  When [zoomToCounty] throws, the
    handler stops there: the filter and the titles stay as set. *)
Definition applyCountyFilter (countyName : string) (s : Dashboard)
  : Dashboard :=
  let s1 := updatePanelTitles (set_county (Some countyName) s) in
  match zoomToCounty countyName s1 with
  | Some s2 => load_byCounty countyName s2
  | None => s1
  end.

(** [applyDistrictFilter(districtNumber)].  When [zoomToDistrict] throws,
    the handler stops there: the filter and the titles stay as set. *)
Definition applyDistrictFilter (districtNumber : value) (s : Dashboard)
  : Dashboard :=
  let s1 := updatePanelTitles (set_district districtNumber s) in
  match zoomToDistrict districtNumber s1 with
  | Some s2 => load_byDistrict districtNumber s2
  | None => s1
  end.

(** [applyProjectTypeFilter(map, projectType)] *)
Definition applyProjectTypeFilter (projectType : string) (s : Dashboard)
  : Dashboard :=
  updateChartsAndTable
    (updatePanelTitles (set_projectType (Some projectType) s)).

(** [clearCountyFilter(map)] *)
Definition clearCountyFilter (s : Dashboard) : Dashboard :=
  let s1 := resetMapView (updatePanelTitles (set_county None s)) in
  if truthy (currentDistrictFilter s1)
  then load_byDistrict (currentDistrictFilter s1) s1
  else load_all s1.

(** [clearDistrictFilter(map)] *)
Definition clearDistrictFilter (s : Dashboard) : Dashboard :=
  let s1 := resetMapView (updatePanelTitles (set_district null s)) in
  match active_text (currentCountyFilter s1) with
  | Some countyName => load_byCounty countyName s1
  | None => load_all s1
  end.

(** [clearProjectTypeFilter(map)] *)
Definition clearProjectTypeFilter (s : Dashboard) : Dashboard :=
  updateChartsAndTable (updatePanelTitles (set_projectType None s)).

(** [clearAllFilters(map)] *)
Definition clearAllFilters (s : Dashboard) : Dashboard :=
  load_all
    (resetMapView
       (updatePanelTitles
          (set_projectType None (set_county None (set_district null s))))).

(** ** The district menu *)

(** One turn of the [while (stmt.step())] loop of [loadDistrictOptions] over
    the [KYTC_Districts] table: the district number pushed for this row, if
    any. *)
Definition districtOption (row : Row) : option Z :=
  let districtValue :=
    or (prop "Name" row) (or (prop "DISTRICT" row) (prop "district" row)) in
  if truthy districtValue then
    m ← match_digits (toString districtValue);
    districtNum ← parseInt (str m);
    if (1 <=? districtNum) && (districtNum <=? 12) then Some districtNum
    else None
  else None.

(** The [data-district] values of the buttons built from these rows:
    [[...new Set(districts)].sort((a, b) => a - b)], each written into its
    button with a template literal. *)
Definition districtMenu (rows : list Row) : list value :=
  (fun district => str (pretty district))
    <$> merge_sort Z.le (remove_dups (omap districtOption rows)).

(** ** A small snapshot to run the model on

    Three projects: two in Fayette county, District 07 (one awarded, one
    not), and an awarded one in Jefferson county, District 05. *)

Module Fixture.

Definition project (district county : string) (year : Z)
    (type_work : string) (awarded : option string) : Project :=
  {| DISTRICT := Some district; COUNTY := Some county;
     RSY_YEAR := Some year; TYPE_WORK := Some type_work;
     AWARDED := awarded; other_columns := [] |}.

Definition projects : list Project :=
  [ project "District 07" "Fayette" 2025 "BRIDGE REPLACEMENT" None;
    project "District 07" "Fayette" 2023 "BRIDGE REHAB" (Some "Yes");
    project "District 05" "Jefferson" 2026 "PAVEMENT REHAB" (Some "Yes") ].

Definition crosswalk_rows : list Crosswalk :=
  [ {| raw_project_type := Some "BRIDGE REPLACEMENT";
       dropdown_category := Some "bridge";
       dropdown_display_name := Some "Bridge Projects" |};
    {| raw_project_type := Some "BRIDGE REHAB";
       dropdown_category := Some "bridge";
       dropdown_display_name := Some "Bridge Projects" |};
    {| raw_project_type := Some "PAVEMENT REHAB";
       dropdown_category := Some "pavement";
       dropdown_display_name := Some "Pavement" |} ].

(** The same projects with the 2023 one moved to 2024. *)
Definition recent_projects : list Project :=
  [ project "District 07" "Fayette" 2025 "BRIDGE REPLACEMENT" None;
    project "District 07" "Fayette" 2024 "BRIDGE REHAB" (Some "Yes");
    project "District 05" "Jefferson" 2026 "PAVEMENT REHAB" (Some "Yes") ].

(** The snapshot with none of the pre-aggregated views. *)
Definition db : Database :=
  {| Basic_Project_Info := projects;
     crosswalk := crosswalk_rows;
     ProjectsAwarded := None;
     ProjectsAwarded_ByDistrict := None;
     ProjectsAwarded_ByCounty := None;
     ProjectCount_Year := None;
     ProjectYears_ByDistrict := None;
     ProjectYears_ByCounty := None |}.

Definition recent_db : Database :=
  {| Basic_Project_Info := recent_projects;
     crosswalk := crosswalk_rows;
     ProjectsAwarded := None;
     ProjectsAwarded_ByDistrict := None;
     ProjectsAwarded_ByCounty := None;
     ProjectCount_Year := None;
     ProjectYears_ByDistrict := None;
     ProjectYears_ByCounty := None |}.


Definition fayette : Layer := [[("NAME", str "Fayette")]].
Definition jefferson : Layer := [[("NAME", str "Jefferson")]].

(** The dashboard once the page, the layers and [snapshot] are loaded and
    before any filter is chosen. *)
Definition loaded (snapshot : Database) : Dashboard :=
  {| currentDistrictFilter := null;
     currentCountyFilter := None;
     currentProjectTypeFilter := None;
     projectCounts := {| awarded := num 0; current := num 0 |};
     projectYearsChart := [];
     highwayProjectsTable := Some initialTable;
     database := Some snapshot;
     districtLayers :=
       [("5", [[("DISTNBR", num 5)]]); ("7", [[("DISTNBR", num 7)]])];
     countyLayers := [("Fayette", fayette); ("Jefferson", jefferson)];
     allProjectsLayer := None;
     mapView := KentuckyView;
     projectsPanelTitle := Some (textContent "Projects");
     tableDataTitle := Some (textContent "Highway Projects Data") |}.

End Fixture.

(** ** Observations of the state, and the dispatcher as specified *)

(** The part of the state no loader writes: the three filter variables, the
    titles, the map view, the layer indexes and the database. *)
Definition frame (s : Dashboard) :=
  (currentDistrictFilter s, currentCountyFilter s, currentProjectTypeFilter s,
   (projectsPanelTitle s, tableDataTitle s), mapView s,
   (districtLayers s, countyLayers s, allProjectsLayer s), database s).

(** The part the loaders compute: pie counts, years chart, table. *)
Definition outputs (s : Dashboard) :=
  (projectCounts s, projectYearsChart s, highwayProjectsTable s).

Definition filters (s : Dashboard) :=
  (currentDistrictFilter s, currentCountyFilter s, currentProjectTypeFilter s).

Definition titles (s : Dashboard) :=
  (projectsPanelTitle s, tableDataTitle s).

(** The filter that drives a refresh. *)
Inductive Driver : Type :=
| ByProjectType (projectType : string)
| ByDistrict (districtNumber : value)
| ByCounty (countyName : string)
| Unfiltered.

#[global] Instance Driver_eq_dec : EqDecision Driver.
Proof. solve_decision. Defined.

(** The precedence among the three filter variables: project type first,
    else district, else county, else no filter. *)
Definition driving_filter (district : value)
    (county projectType : option string) : Driver :=
  match active_text projectType with
  | Some t => ByProjectType t
  | None =>
      if truthy district then ByDistrict district
      else
        match active_text county with
        | Some c => ByCounty c
        | None => Unfiltered
        end
  end.

Definition load_by (driver : Driver) (s : Dashboard) : Dashboard :=
  match driver with
  | ByProjectType t => load_byProjectType t s
  | ByDistrict d => load_byDistrict d s
  | ByCounty c => load_byCounty c s
  | Unfiltered => load_all s
  end.

Definition with_filters (district : value) (county projectType : option string)
    (s : Dashboard) : Dashboard :=
  set_projectType projectType (set_county county (set_district district s)).

(** A state transformer whose outputs are a function of the database and
    of the outputs before it. *)
Definition reads_db_and_outputs (F : Dashboard -> Dashboard) : Prop :=
  forall s1 s2,
    database s1 = database s2 -> outputs s1 = outputs s2 ->
    outputs (F s1) = outputs (F s2).

(** The rows a refresh hands to the table for a driving filter ([None] when
    the statement cannot be run). *)
Definition queryRows (db : Database) (driver : Driver) : option (list Row) :=
  match driver with
  | ByProjectType t => Some (rows_byProjectType db t)
  | ByDistrict d => table_rows_byDistrict db d
  | ByCounty c => Some (rows_byCounty db c)
  | Unfiltered => Some (rows_unfiltered db)
  end.

Definition table_within_limit (s : Dashboard) : Prop :=
  forall t, highwayProjectsTable s = Some t -> (List.length (data t) <= 1000)%nat.

(** Counting projects by award status, as the by-county fallback statement
    does: awarded when [AWARDED] is neither NULL nor empty. *)
Definition count_by_award_status (rows : list Project) : Counts :=
  {| awarded := num (count_rows (fun p => sql_awarded (AWARDED p)) rows);
     current := num (count_rows (fun p => sql_not_awarded (AWARDED p)) rows) |}.

(** How many of the keys are [k]. *)
Definition occurrences (k : option Z) (keys : list (option Z)) : Z :=
  count_rows (fun k' => bool_decide (k' = k)) keys.

(** The groups of a [GROUP BY] are in strictly increasing key order. *)
Definition key_lt (g1 g2 : option Z * Z) : Prop := year_lt g1.1 g2.1 = true.

(** The entry that [yearData[year] = count] writes, when its guard
    passes. *)
Definition year_entry (year count : value) : option (string * value) :=
  if truthy year && negb (bool_decide (count = undefined))
  then Some (toString year, count)
  else None.

(** The entry a group row (year, number of projects) ends up as. *)
Definition group_entry (g : option Z * Z) : option (string * value) :=
  match g.1 with
  | Some z =>
      if (z =? 0) || (g.2 =? 0) then None else Some (pretty z, num g.2)
  | None => None
  end.

(** [yearData] holds, under the label of each non-zero year that occurs
    among [keys], the number of its occurrences, and nothing else. *)
Definition counts_years (yearData : YearData) (keys : list (option Z))
  : Prop :=
  forall k v,
    yearData !! k = Some v
    <-> exists z, z <> 0 /\ k = pretty z
                  /\ v = num (occurrences (Some z) keys)
                  /\ 0 < occurrences (Some z) keys.

(** Modelled from the spec: the view [ProjectCount_Year], which the
    database file defines and the sources do not.  The spec calls it a
    pre-aggregated view of the counts by year; it is taken to hold one row
    per plan year of [Basic_Project_Info], with the columns [YEAR] and
    [record_count] that [loadProjectCountByYear] reads. *)
Definition view_ProjectCount_Year (base : list Project) : View :=
  {| view_columns := ["YEAR"; "record_count"];
     view_tuples :=
       (fun '(y, n) => [of_int y; num n])
         <$> group_count (RSY_YEAR <$> base) |}.

(** Modelled from the spec: the views [ProjectYears_ByDistrict] and
    [ProjectYears_ByCounty], likewise missing from the sources: one row per
    value of the key column and plan year, with the key column, [RSY_YEAR]
    and the [total_projects] that the two filtered loaders read. *)
Definition view_ProjectYears_By (column : string)
    (key : Project -> option string) (base : list Project) : View :=
  {| view_columns := [column; "RSY_YEAR"; "total_projects"];
     view_tuples :=
       k ← remove_dups (key <$> base);
       (fun '(y, n) => [of_text k; of_int y; num n])
         <$> group_count (RSY_YEAR <$> filter (fun p => key p = k) base) |}.

Definition view_ProjectYears_ByDistrict : list Project -> View :=
  view_ProjectYears_By "DISTRICT" DISTRICT.

Definition view_ProjectYears_ByCounty : list Project -> View :=
  view_ProjectYears_By "COUNTY" COUNTY.

(** The snapshot with its three year views replaced. *)
Definition with_year_views (db : Database)
    (all byDistrict byCounty : option View) : Database :=
  {| Basic_Project_Info := Basic_Project_Info db;
     crosswalk := crosswalk db;
     ProjectsAwarded := ProjectsAwarded db;
     ProjectsAwarded_ByDistrict := ProjectsAwarded_ByDistrict db;
     ProjectsAwarded_ByCounty := ProjectsAwarded_ByCounty db;
     ProjectCount_Year := all;
     ProjectYears_ByDistrict := byDistrict;
     ProjectYears_ByCounty := byCounty |}.

(** The snapshot with the three year views as specified, and without
    them. *)
Definition with_views (db : Database) : Database :=
  let base := Basic_Project_Info db in
  with_year_views db
    (Some (view_ProjectCount_Year base))
    (Some (view_ProjectYears_ByDistrict base))
    (Some (view_ProjectYears_ByCounty base)).

Definition without_views (db : Database) : Database :=
  with_year_views db None None None.

Definition set_database (db : option Database) (s : Dashboard) : Dashboard :=
  {| currentDistrictFilter := currentDistrictFilter s;
     currentCountyFilter := currentCountyFilter s;
     currentProjectTypeFilter := currentProjectTypeFilter s;
     projectCounts := projectCounts s;
     projectYearsChart := projectYearsChart s;
     highwayProjectsTable := highwayProjectsTable s;
     database := db;
     districtLayers := districtLayers s;
     countyLayers := countyLayers s;
     allProjectsLayer := allProjectsLayer s;
     mapView := mapView s;
     projectsPanelTitle := projectsPanelTitle s;
     tableDataTitle := tableDataTitle s |}.

(** The row formats the year conversions meet, and what each conversion
    makes of them. *)
Definition year_row (g : option Z * Z) : Row :=
  [("YEAR", of_int g.1); ("record_count", num g.2)].

Definition view_year_row (column : string) (k : option string)
    (g : option Z * Z) : Row :=
  [(column, of_text k); ("RSY_YEAR", of_int g.1); ("total_projects", num g.2)].

(** The year labels of the chart are in increasing (string) order. *)
Definition chart_sorted (s : Dashboard) : Prop :=
  Sorted String.le (projectYearsChart s).*1.

(** ** The filter menus

    A button carries its value in a [data-] attribute that the script writes
    with a template literal, and a click reads it back from [dataset].  The
    values are taken to hold no character that HTML reads specially inside
    an attribute value (a double quote or an ampersand), so that what is
    read back is what was written. *)

(** The rows of
    [SELECT DISTINCT COUNTY FROM Basic_Project_Info
     WHERE COUNTY IS NOT NULL AND COUNTY != '' ORDER BY COUNTY]. *)
Definition county_rows (db : Database) : list string :=
  merge_sort String.le
    (remove_dups
       (filter (fun c => negb (String.eqb c "") = true)
          (omap COUNTY (Basic_Project_Info db)))).

(** The array [counties] of [loadCountyOptions]: the loop keeps the rows
    that pass [if (row.COUNTY && row.COUNTY !== '')]. *)
Definition counties (db : Database) : list string :=
  filter (fun c => truthy (str c) && negb (String.eqb c "") = true)
    (county_rows db).

(** The counties listed once [term] is typed into the search box:
    [counties.filter(county => county.toLowerCase().includes(searchTerm))]
    with [searchTerm = e.target.value.toLowerCase()]. *)
Definition searchCounties (term : string) (listed : list string)
  : list string :=
  filter (fun county => includes (toLowerCase county) (toLowerCase term) = true)
    listed.

(** The county menu: the buttons shown and the number of click listeners
    its container carries. *)
Record CountyMenu : Type := {
  county_buttons : list string;
  click_listeners : nat
}.

(** [displayCountyOptions(counties, container, controlDiv)]: with no county
    a message replaces the buttons and the function returns; otherwise the
    buttons are rewritten and one more click listener is added to the
    container. *)
Definition displayCountyOptions (listed : list string) (menu : CountyMenu)
  : CountyMenu :=
  match listed with
  | [] => {| county_buttons := []; click_listeners := click_listeners menu |}
  | _ => {| county_buttons := listed;
            click_listeners := S (click_listeners menu) |}
  end.

(** The menu as [loadCountyOptions] leaves it, and after each input event
    of the search box. *)
Definition loadCountyOptions (db : Database) : CountyMenu :=
  displayCountyOptions (counties db)
    {| county_buttons := []; click_listeners := 0 |}.

Definition county_search_input (db : Database) (term : string)
    (menu : CountyMenu) : CountyMenu :=
  displayCountyOptions (searchCounties term (counties db)) menu.

(** A click on the button of [county]: every listener of the container
    runs, and each calls [applyCountyFilter(e.target.dataset.county)]. *)
Definition click_county (menu : CountyMenu) (county : string)
    (s : Dashboard) : Dashboard :=
  Nat.iter (click_listeners menu) (applyCountyFilter county) s.

(** One entry of the array [projectTypes] of [loadProjectTypeOptions]. *)
Record ProjectTypeOption : Type := {
  category : string;
  display : string
}.

#[global] Instance ProjectTypeOption_eq_dec : EqDecision ProjectTypeOption.
Proof. solve_decision. Defined.

Definition category_le (r1 r2 : option string * option string) : Prop :=
  sql_le (of_text r1.1) (of_text r2.1).

#[global] Instance category_le_dec : RelDecision category_le.
Proof. intros r1 r2; unfold category_le; apply _. Defined.

(** The rows of
    [SELECT DISTINCT dropdown_category, dropdown_display_name
     FROM crosswalk ORDER BY dropdown_category].  SQL leaves the order of
    rows with the same category open. *)
Definition projectType_rows (db : Database)
  : list (option string * option string) :=
  merge_sort category_le
    (remove_dups
       ((fun c => (dropdown_category c, dropdown_display_name c))
          <$> crosswalk db)).

(** The loop of [loadProjectTypeOptions]: a row is kept when
    [row.dropdown_category && row.dropdown_category !== ''], with
    [display: row.dropdown_display_name || row.dropdown_category]. *)
Definition projectTypeOption (row : option string * option string)
  : option ProjectTypeOption :=
  match row.1 with
  | Some c =>
      if truthy (str c) && negb (String.eqb c "")
      then Some {| category := c;
                   display := toString (or (of_text row.2) (str c)) |}
      else None
  | None => None
  end.

Definition projectTypes (db : Database) : list ProjectTypeOption :=
  omap projectTypeOption (projectType_rows db).

(** The array [districts] of [loadDistrictOptions] when the statement over
    [KYTC_Districts] throws (the table is missing or has none of the three
    columns): the rows of
    [SELECT DISTINCT DISTRICT FROM Basic_Project_Info
     WHERE DISTRICT IS NOT NULL ORDER BY DISTRICT], kept when
    [if (row.DISTRICT)].  Each value gets one button, which carries it in
    [data-district]. *)
Definition fallback_districts (db : Database) : list string :=
  filter (fun d => truthy (str d) = true)
    (merge_sort String.le (remove_dups (omap DISTRICT (Basic_Project_Info db)))).

(** ** Project lines on the map *)

(** The opacity of a project line: as the layer was loaded, or as one of the
    two settings the script applies. *)
Inductive LineStyle : Type :=
| as_loaded
| full_opacity   (* setStyle({ fillOpacity: 0.7, opacity: 0.8 }) *)
| dimmed.        (* setStyle({ fillOpacity: 0.1, opacity: 0.3 }) *)

#[global] Instance LineStyle_eq_dec : EqDecision LineStyle.
Proof. solve_decision. Defined.

(** A line of a project layer: [layer.feature.properties], [None] when the
    feature has none, and its style. *)
Record ProjectLine : Type := {
  properties : option Row;
  style : LineStyle
}.

(** [currentProjectsLayer] and [awardedProjectsLayer], each [None] until its
    file is loaded. *)
Record ProjectLayers : Type := {
  currentProjectsLayer : option (list ProjectLine);
  awardedProjectsLayer : option (list ProjectLine)
}.

(** The raw project type [checkProjectTypeMatch] reads off the properties
    of a line. *)
Definition rawProjectType (projectProps : Row) : value :=
  or (prop "KYTCDynamic_HighwaysDBOTED_CHIPS_ACTIVEPLANSYP_RPT_TYPEWORK"
        projectProps)
    (or (prop "TYPE_WORK" projectProps)
       (or (prop "type_work" projectProps)
          (or (prop "project_type" projectProps)
             (or (prop "PROJECT_TYPE" projectProps) (str ""))))).

(** [checkProjectTypeMatch(projectProps, selectedType)]: the first row of
    [SELECT dropdown_category FROM crosswalk WHERE raw_project_type = ?]
    decides.  [raw_project_type] is a TEXT column: a property value that is
    a number is compared as its decimal text. *)
Definition checkProjectTypeMatch (s : Dashboard) (projectProps : Row)
    (selectedType : string) : bool :=
  match database s with
  | None => false
  | Some db =>
      let raw := rawProjectType projectProps in
      if negb (truthy raw) then false
      else
        match filter
                (fun c => sql_text_eq (raw_project_type c) (toString raw) = true)
                (crosswalk db) with
        | c :: _ => bool_decide (dropdown_category c = Some selectedType)
        | [] => false
        end
  end.

(** The body of the two [eachLayer] loops of [applyProjectTypeFilter]: a
    line without properties is left as it is. *)
Definition restyle_line (s : Dashboard) (projectType : string)
    (line : ProjectLine) : ProjectLine :=
  match properties line with
  | Some projectProps =>
      {| properties := properties line;
         style := if checkProjectTypeMatch s projectProps projectType
                  then full_opacity else dimmed |}
  | None => line
  end.

(** What [applyProjectTypeFilter(map, projectType)] does to the two project
    layers; [s] is the state it has just written the filter to. *)
Definition restyle_layers (s : Dashboard) (projectType : string)
    (layers : ProjectLayers) : ProjectLayers :=
  {| currentProjectsLayer :=
       fmap (M := list) (restyle_line s projectType)
         <$> currentProjectsLayer layers;
     awardedProjectsLayer :=
       fmap (M := list) (restyle_line s projectType)
         <$> awardedProjectsLayer layers |}.

(** What [clearProjectTypeFilter] and [clearAllFilters] do to them: every
    line is set to full opacity. *)
Definition reset_line (line : ProjectLine) : ProjectLine :=
  {| properties := properties line; style := full_opacity |}.

Definition reset_layers (layers : ProjectLayers) : ProjectLayers :=
  {| currentProjectsLayer :=
       fmap (M := list) reset_line <$> currentProjectsLayer layers;
     awardedProjectsLayer :=
       fmap (M := list) reset_line <$> awardedProjectsLayer layers |}.

(** ** Building the layer indexes *)

Fixpoint all_digits (s : string) : bool :=
  match s with
  | EmptyString => true
  | String c r => is_digit c && all_digits r
  end.

(** The array index a property name denotes, if any: the canonical decimal
    form of an integer below 2^32 - 1. *)
Definition array_index (key : string) : option Z :=
  match key with
  | EmptyString => None
  | String c r =>
      if all_digits key
         && (negb (Ascii.eqb c "0") || String.eqb r "")
         && (decimal_go 0 key <=? 4294967294)
      then Some (decimal_go 0 key)
      else None
  end.

(** The place of a new own property among the others, as [Object.keys]
    lists them: array indexes in increasing order, then the other names in
    the order they were created. *)
Definition key_before (key k : string) : bool :=
  match array_index key, array_index k with
  | Some i, Some j => i <? j
  | Some _, None => true
  | None, _ => false
  end.

Fixpoint own_create {A} (key : string) (v : A) (obj : list (string * A))
  : list (string * A) :=
  match obj with
  | [] => [(key, v)]
  | (k, w) :: rest =>
      if key_before key k then (key, v) :: obj
      else (k, w) :: own_create key v rest
  end.

Fixpoint own_assign {A} (key : string) (v : A) (obj : list (string * A))
  : list (string * A) :=
  match obj with
  | [] => []
  | (k, w) :: rest =>
      if String.eqb k key then (k, v) :: rest
      else (k, w) :: own_assign key v rest
  end.

(** [obj[key] = v] on the own properties of [obj]. *)
Definition own_set {A} (key : string) (v : A) (obj : list (string * A))
  : list (string * A) :=
  if bool_decide (key ∈ obj.*1) then own_assign key v obj
  else own_create key v obj.

(** [if (!groups[key]) groups[key] = []; groups[key].push(feature)].  Under
    an inherited name [groups[key]] is a function or [Object.prototype],
    neither of which has [push]: a TypeError, [None]. *)
Definition push_feature (key : string) (feature : Row)
    (groups : list (string * Layer)) : option (list (string * Layer)) :=
  if bool_decide (key ∈ Object_prototype_names) then None
  else Some (own_set key (default [] (layer_at key groups) ++ [feature]) groups).

(** The name a county feature is grouped under:
    [feature.properties.COUNTY || feature.properties.NAME], when truthy. *)
Definition countyKey (props : Row) : option string :=
  let countyName := or (prop "COUNTY" props) (prop "NAME" props) in
  if truthy countyName then Some (toString countyName) else None.

(** The name a district feature is grouped under:
    [feature.properties.DISTNBR], unless [undefined] or [null]. *)
Definition districtKey (props : Row) : option string :=
  toString_method (prop "DISTNBR" props).

(** The [data.features.forEach] loop that fills [countyGroups]
    ([districtGroups]); a feature whose [properties] is [null] makes the
    property access throw. *)
Definition group_features (key_of : Row -> option string)
    (features : list (option Row)) : option (list (string * Layer)) :=
  foldl
    (fun acc feature =>
       groups ← acc;
       props ← feature;
       match key_of props with
       | Some key => push_feature key props groups
       | None => Some groups
       end)
    (Some []) features.

(** [Object.keys(groups).forEach(name => layers[name] = L.geoJSON(...))].
    For the districts the script assigns a second time, under
    [districtNum.toString()], which names the same property. *)
Definition store_layers (groups layers : list (string * Layer))
  : list (string * Layer) :=
  foldl (fun layers g => own_set g.1 g.2 layers) layers groups.

Definition set_districtLayers (layers : list (string * Layer)) (s : Dashboard)
  : Dashboard :=
  {| currentDistrictFilter := currentDistrictFilter s;
     currentCountyFilter := currentCountyFilter s;
     currentProjectTypeFilter := currentProjectTypeFilter s;
     projectCounts := projectCounts s;
     projectYearsChart := projectYearsChart s;
     highwayProjectsTable := highwayProjectsTable s;
     database := database s;
     districtLayers := layers;
     countyLayers := countyLayers s;
     allProjectsLayer := allProjectsLayer s;
     mapView := mapView s;
     projectsPanelTitle := projectsPanelTitle s;
     tableDataTitle := tableDataTitle s |}.

Definition set_countyLayers (layers : list (string * Layer)) (s : Dashboard)
  : Dashboard :=
  {| currentDistrictFilter := currentDistrictFilter s;
     currentCountyFilter := currentCountyFilter s;
     currentProjectTypeFilter := currentProjectTypeFilter s;
     projectCounts := projectCounts s;
     projectYearsChart := projectYearsChart s;
     highwayProjectsTable := highwayProjectsTable s;
     database := database s;
     districtLayers := districtLayers s;
     countyLayers := layers;
     allProjectsLayer := allProjectsLayer s;
     mapView := mapView s;
     projectsPanelTitle := projectsPanelTitle s;
     tableDataTitle := tableDataTitle s |}.

(** The indexing part of [loadGeoJSONLayer(map, file, style, layerName)] on
    the features of the fetched file.  An exception in either grouping loop
    rejects the promise: what was stored before it stays, the rest is
    skipped. *)
Definition loadGeoJSONLayer (file : string) (features : list (option Row))
    (s : Dashboard) : Dashboard :=
  let indexed_districts :=
    if includes file "KYTC_Districts" then
      (fun groups =>
         set_districtLayers (store_layers groups (districtLayers s)) s)
        <$> group_features districtKey features
    else Some s in
  match indexed_districts with
  | None => s
  | Some s1 =>
      if includes file "KY_Counties" then
        match group_features countyKey features with
        | Some groups =>
            set_countyLayers (store_layers groups (countyLayers s1)) s1
        | None => s1
        end
      else s1
  end.

(** ** Column titles and cell badges *)

Definition is_word (c : ascii) : bool :=
  let n := N_of_ascii c in
  is_digit c || ((65 <=? n) && (n <=? 90))%N || ((97 <=? n) && (n <=? 122))%N
  || (n =? 95)%N.

(** [s.replace(/_/g, ' ')] *)
Definition underscores_to_spaces : string -> string :=
  map_string (fun c => if Ascii.eqb c "_" then " "%char else c).

(** [s.replace(/\b\w/g, l => l.toUpperCase())]: a word character is
    replaced when the character before it is not one; [after_word] tells
    whether it is. *)
Fixpoint capitalize_words (after_word : bool) (s : string) : string :=
  match s with
  | EmptyString => EmptyString
  | String c r =>
      String (if is_word c && negb after_word then upper_ascii c else c)
        (capitalize_words (is_word c) r)
  end.

(** [formatColumnName(colName)] *)
Definition formatColumnName (colName : string) : string :=
  capitalize_words false (underscores_to_spaces colName).

(** The badge the [AWARDED] column formatter of [createTableColumns]
    returns. *)
Inductive Badge : Type := BadgeAwarded | BadgeCurrent | BadgeUnknown.

Definition awarded_formatter (v : value) : Badge :=
  if bool_decide (v = str "Yes") || bool_decide (v = str "Y")
     || bool_decide (v = num 1)
  then BadgeAwarded
  else if bool_decide (v = str "No") || bool_decide (v = str "N")
          || bool_decide (v = num 0)
  then BadgeCurrent
  else BadgeUnknown.

(** ** Route information *)

(** A record of [data.Route_Info]; [Bridge_Identifier] is [None] when the
    property is missing, falsy or not an array. *)
Record RouteRecord : Type := { Bridge_Identifier : option (list value) }.

(** The array [bridges] that [showKYTCResults] and [copyRouteInformation]
    both collect:
    [if (bridge && !bridges.includes(bridge)) bridges.push(bridge)]. *)
Definition push_bridge (bridges : list value) (bridge : value) : list value :=
  if truthy bridge && negb (bool_decide (bridge ∈ bridges))
  then bridges ++ [bridge]
  else bridges.

Definition collect_bridges (Route_Info : list RouteRecord) : list value :=
  foldl
    (fun bridges record =>
       match Bridge_Identifier record with
       | Some ids => foldl push_bridge bridges ids
       | None => bridges
       end)
    [] Route_Info.

(** The features of [features] grouped under [name], in file order. *)
Definition features_named (key_of : Row -> option string) (name : string)
    (features : list (option Row)) : Layer :=
  omap
    (fun feature =>
       props ← feature;
       if bool_decide (key_of props = Some name) then Some props else None)
    features.

(** ** The county lookup, tier by tier *)

(** The spellings [zoomToCounty] looks a name up under, in this order. *)
Definition spellings (countyName : string) : list string :=
  [countyName; toUpperCase countyName; toLowerCase countyName;
   titleCase countyName].

(** The layer [zoomToCounty] fits the map to; [None] where it leaves the
    map alone, finding no layer or stopping at an inherited member. *)
Definition county_layer_for (countyName : string)
    (layers : list (string * Layer)) : option Layer :=
  match foundLayer countyName layers with
  | stored layer => Some layer
  | inherited => None
  | missing => key ← head (partialMatches countyName layers); layer_at key layers
  end.

(** [key] contains [countyName] or is contained in it, letter case aside. *)
Definition related (countyName key : string) : Prop :=
  (exists pre post,
     toLowerCase key = pre +:+ toLowerCase countyName +:+ post)
  \/ (exists pre post,
        toLowerCase countyName = pre +:+ toLowerCase key +:+ post).

(** ** Steps of a handler *)

(** The state [applyCountyFilter] has reached when it calls the loaders, or
    when [zoomToCounty] throws and stops it. *)
Definition prepare_county (countyName : string) (s : Dashboard) : Dashboard :=
  let s1 := updatePanelTitles (set_county (Some countyName) s) in
  default s1 (zoomToCounty countyName s1).

(** A step that works on the frame alone. *)
Definition frame_step (P : Dashboard -> Dashboard) : Prop :=
  (forall s1 s2, frame s1 = frame s2 -> frame (P s1) = frame (P s2))
  /\ (forall s, outputs (P s) = outputs s).

(** The operations the filter controls offer. *)
Inductive Action : Type :=
| SelectCounty (countyName : string)
| SelectDistrict (districtNumber : value)
| SelectProjectType (projectType : string)
| ClearCounty
| ClearDistrict
| ClearProjectType
| ClearAll.

Definition perform (a : Action) : Dashboard -> Dashboard :=
  match a with
  | SelectCounty countyName => applyCountyFilter countyName
  | SelectDistrict districtNumber => applyDistrictFilter districtNumber
  | SelectProjectType projectType => applyProjectTypeFilter projectType
  | ClearCounty => clearCountyFilter
  | ClearDistrict => clearDistrictFilter
  | ClearProjectType => clearProjectTypeFilter
  | ClearAll => clearAllFilters
  end.

(** The number of projects of a county. *)
Definition projects_in_county (db : Database) (countyName : string) : Z :=
  count_rows (fun p => sql_text_eq (COUNTY p) countyName) (Basic_Project_Info db).

(** A title that spells a suffix: the bare text when the suffix is empty,
    else the text and the suffix given as markup. *)
Definition title_with (text suffix : string) : Title :=
  match suffix with
  | EmptyString => textContent text
  | _ => innerHTML (text +:+ suffix)
  end.

(** The titles of [after] spell out the filters of [after]; a title element
    the page lacks ([None] in [before]) stays absent. *)
Definition titles_spell_filters (before after : Dashboard) : Prop :=
  projectsPanelTitle after
  = (fun _ => title_with "Projects"
                (districtSuffix after +:+ countySuffix after))
      <$> projectsPanelTitle before
  /\ tableDataTitle after
     = (fun _ => title_with "Highway Projects Data"
                   (districtSuffix after +:+ countySuffix after
                    +:+ projectTypeSuffix after))
         <$> tableDataTitle before.

(** How many of the projects are planned for year [y]. *)
Definition projects_of_year (y : Z) (projects : list Project) : Z :=
  occurrences (Some y) (RSY_YEAR <$> projects).

(** ** Loading the database *)

(** [loadDatabase()]: [fetched] is the database the fetched file opens as,
    [None] when the library or the file cannot be loaded.  On success the
    global [database] is set and [loadBasicProjectInfo()] runs; on failure
    only the button and the record counter change. *)
Definition loadDatabase (fetched : option Database) (s : Dashboard)
  : Dashboard :=
  match fetched with
  | Some db => loadBasicProjectInfo (set_database (Some db) s)
  | None => s
  end.

(** * Properties *)

(** ** Substrings and letter case *)

Lemma String_app_cons c s t : String c s +:+ t = String c (s +:+ t).
Proof. reflexivity. Qed.

Lemma prefix_app_iff sub s :
  String.prefix sub s = true <-> exists post, s = sub +:+ post.
Proof.
  revert s. induction sub as [|c sub IH]; intros s.
  - split; [intros _; by exists s | by destruct s].
  - destruct s as [|c' s]; cbn.
    + split; [done | by intros [post ?]].
    + destruct (Ascii.ascii_dec c c') as [->|Hne].
      * rewrite IH. split; intros [post Heq]; exists post.
        -- by rewrite Heq.
        -- rewrite String_app_cons in Heq. congruence.
      * split; [done|]. intros [post Heq].
        rewrite String_app_cons in Heq. congruence.
Qed.

(** [s.includes(sub)] holds exactly when [sub] occurs in [s]. *)
Lemma includes_spec s sub :
  includes s sub = true <-> exists pre post, s = pre +:+ sub +:+ post.
Proof.
  induction s as [|c s IH]; cbn [includes].
  - rewrite orb_false_r, prefix_app_iff. split.
    + intros [post Heq]. by exists "", post.
    + intros (pre & post & Heq). destruct pre; [by exists post|done].
  - rewrite orb_true_iff, prefix_app_iff, IH. split.
    + intros [[post Heq]|(pre & post & Heq)].
      * by exists "", post.
      * exists (String c pre), post. by rewrite String_app_cons, Heq.
    + intros (pre & post & Heq). destruct pre as [|c' pre].
      * left. by exists post.
      * right. exists pre, post. rewrite String_app_cons in Heq. congruence.
Qed.

Lemma includes_empty s : includes s "" = true.
Proof. apply includes_spec. by exists "", s. Qed.

Lemma String_app_empty_r s : s +:+ "" = s.
Proof.
  induction s as [|c s IH]; [done|]. by rewrite String_app_cons, IH.
Qed.

Lemma includes_refl s : includes s s = true.
Proof.
  apply includes_spec. exists "", "".
  by rewrite String_app_empty_r.
Qed.

Lemma lower_upper_ascii c : lower_ascii (upper_ascii c) = lower_ascii c.
Proof. by destruct c as [[] [] [] [] [] [] [] []]. Qed.

Lemma lower_lower_ascii c : lower_ascii (lower_ascii c) = lower_ascii c.
Proof. by destruct c as [[] [] [] [] [] [] [] []]. Qed.

Lemma toLowerCase_toUpperCase s : toLowerCase (toUpperCase s) = toLowerCase s.
Proof.
  unfold toLowerCase, toUpperCase.
  induction s as [|c s IH]; [done|]. cbn. by rewrite lower_upper_ascii, IH.
Qed.

Lemma toLowerCase_idem s : toLowerCase (toLowerCase s) = toLowerCase s.
Proof.
  unfold toLowerCase.
  induction s as [|c s IH]; [done|]. cbn. by rewrite lower_lower_ascii, IH.
Qed.

(** ** What the loaders leave alone *)

Ltac unfold_loaders :=
  unfold loadProjectsAwardedData, loadFilteredProjectsAwardedData,
    loadFilteredProjectsAwardedDataByCounty,
    loadFilteredProjectsAwardedDataByProjectType,
    loadProjectCountByYear, loadFilteredProjectCountByYear,
    loadFilteredProjectCountByYearByCounty,
    loadFilteredProjectCountByYearByProjectType,
    loadFilteredBasicProjectInfo, loadFilteredBasicProjectInfoByCounty,
    loadFilteredBasicProjectInfoByProjectType,
    with_database, show_counts, show_years, show_rows, load_filtered_rows,
    updateProjectCounts_awarded, updateProjectCounts_current,
    createProjectYearsChart.

Ltac loader_cases :=
  unfold_loaders;
  repeat (first [ progress cbn [fst snd] | case_match ]); try reflexivity.

Lemma frame_loadProjectsAwardedData s :
  frame (loadProjectsAwardedData s) = frame s.
Proof. unfold loadProjectsAwardedData. loader_cases. Qed.

Lemma frame_loadFilteredProjectsAwardedData d s :
  frame (loadFilteredProjectsAwardedData d s) = frame s.
Proof. unfold loadFilteredProjectsAwardedData. loader_cases. Qed.

Lemma frame_loadFilteredProjectsAwardedDataByCounty c s :
  frame (loadFilteredProjectsAwardedDataByCounty c s) = frame s.
Proof. unfold loadFilteredProjectsAwardedDataByCounty. loader_cases. Qed.

Lemma frame_loadFilteredProjectsAwardedDataByProjectType t s :
  frame (loadFilteredProjectsAwardedDataByProjectType t s) = frame s.
Proof. unfold loadFilteredProjectsAwardedDataByProjectType. loader_cases. Qed.

Lemma frame_loadProjectCountByYear s :
  frame (loadProjectCountByYear s) = frame s.
Proof. unfold loadProjectCountByYear. loader_cases. Qed.

Lemma frame_loadFilteredProjectCountByYear d s :
  frame (loadFilteredProjectCountByYear d s) = frame s.
Proof. unfold loadFilteredProjectCountByYear. loader_cases. Qed.

Lemma frame_loadFilteredProjectCountByYearByCounty c s :
  frame (loadFilteredProjectCountByYearByCounty c s) = frame s.
Proof. unfold loadFilteredProjectCountByYearByCounty. loader_cases. Qed.

Lemma frame_loadFilteredProjectCountByYearByProjectType t s :
  frame (loadFilteredProjectCountByYearByProjectType t s) = frame s.
Proof. unfold loadFilteredProjectCountByYearByProjectType. loader_cases. Qed.

Lemma frame_loadBasicProjectInfo_pass s :
  frame (loadBasicProjectInfo_pass s).1 = frame s.
Proof.
  unfold loadBasicProjectInfo_pass.
  destruct (database s) as [db|]; [|reflexivity].
  destruct (rows_unfiltered db); [reflexivity|].
  transitivity (frame (loadProjectsAwardedData (loadProjectCountByYear s))).
  - case_match; reflexivity.
  - rewrite frame_loadProjectsAwardedData. apply frame_loadProjectCountByYear.
Qed.

Lemma frame_loadBasicProjectInfo s :
  frame (loadBasicProjectInfo s) = frame s.
Proof.
  unfold loadBasicProjectInfo.
  pose proof (frame_loadBasicProjectInfo_pass s) as H1.
  destruct (loadBasicProjectInfo_pass s) as [s1 [|]]; simpl in H1.
  - rewrite frame_loadBasicProjectInfo_pass. exact H1.
  - exact H1.
Qed.

Lemma frame_loadFilteredBasicProjectInfo d s :
  frame (loadFilteredBasicProjectInfo d s) = frame s.
Proof. unfold loadFilteredBasicProjectInfo. loader_cases. Qed.

Lemma frame_loadFilteredBasicProjectInfoByCounty c s :
  frame (loadFilteredBasicProjectInfoByCounty c s) = frame s.
Proof. unfold loadFilteredBasicProjectInfoByCounty. loader_cases. Qed.

Lemma frame_loadFilteredBasicProjectInfoByProjectType t s :
  frame (loadFilteredBasicProjectInfoByProjectType t s) = frame s.
Proof. unfold loadFilteredBasicProjectInfoByProjectType. loader_cases. Qed.

Create Rewrite HintDb frame_db.

#[global] Hint Rewrite
  frame_loadProjectsAwardedData frame_loadFilteredProjectsAwardedData
  frame_loadFilteredProjectsAwardedDataByCounty
  frame_loadFilteredProjectsAwardedDataByProjectType
  frame_loadProjectCountByYear frame_loadFilteredProjectCountByYear
  frame_loadFilteredProjectCountByYearByCounty
  frame_loadFilteredProjectCountByYearByProjectType
  frame_loadBasicProjectInfo frame_loadFilteredBasicProjectInfo
  frame_loadFilteredBasicProjectInfoByCounty
  frame_loadFilteredBasicProjectInfoByProjectType : frame_db.

Lemma frame_load_byProjectType t s : frame (load_byProjectType t s) = frame s.
Proof. unfold load_byProjectType. autorewrite with frame_db. reflexivity. Qed.

Lemma frame_load_byDistrict d s : frame (load_byDistrict d s) = frame s.
Proof. unfold load_byDistrict. autorewrite with frame_db. reflexivity. Qed.

Lemma frame_load_byCounty c s : frame (load_byCounty c s) = frame s.
Proof. unfold load_byCounty. autorewrite with frame_db. reflexivity. Qed.

Lemma frame_load_all s : frame (load_all s) = frame s.
Proof. unfold load_all. autorewrite with frame_db. reflexivity. Qed.

Lemma frame_updateChartsAndTable s : frame (updateChartsAndTable s) = frame s.
Proof.
  unfold updateChartsAndTable.
  repeat case_match;
    auto using frame_load_byProjectType, frame_load_byDistrict,
      frame_load_byCounty, frame_load_all.
Qed.

(** ** Filter transitions *)

Lemma filters_of_frame s1 s2 : frame s1 = frame s2 -> filters s1 = filters s2.
Proof. unfold frame, filters. intros H. congruence. Qed.

Lemma filters_updatePanelTitles s : filters (updatePanelTitles s) = filters s.
Proof. reflexivity. Qed.

Lemma fitBounds_Some member s s' :
  fitBounds member s = Some s' -> s' = set_mapView (mapView s') s.
Proof. destruct member; cbn; by intros [= <-]. Qed.

(** Wherever [zoomToCounty] or [zoomToDistrict] returns, it has changed the
    map view at most. *)
Lemma zoomToCounty_Some c s s' :
  zoomToCounty c s = Some s' -> s' = set_mapView (mapView s') s.
Proof.
  unfold zoomToCounty. intros H.
  destruct (foundLayer c (countyLayers s)) eqn:Hf.
  - by apply (fitBounds_Some (stored layer)).
  - done.
  - destruct (partialMatches c (countyLayers s)) as [|key rest].
    + injection H as <-. by destruct s.
    + by apply (fitBounds_Some _ _ _ H).
Qed.

Lemma zoomToDistrict_Some d s s' :
  zoomToDistrict d s = Some s' -> s' = set_mapView (mapView s') s.
Proof.
  unfold zoomToDistrict. intros H.
  destruct (toString_method d) as [strKey|]; [|done]. cbn in H.
  destruct (foundDistrict d strKey (districtLayers s)) eqn:Hf.
  - by apply (fitBounds_Some (stored layer)).
  - done.
  - injection H as <-. by destruct s.
Qed.

Lemma filters_zoomToCounty c s s' :
  zoomToCounty c s = Some s' -> filters s' = filters s.
Proof. by intros ->%zoomToCounty_Some. Qed.

Lemma filters_zoomToDistrict d s s' :
  zoomToDistrict d s = Some s' -> filters s' = filters s.
Proof. by intros ->%zoomToDistrict_Some. Qed.

Lemma filters_resetMapView s : filters (resetMapView s) = filters s.
Proof. unfold resetMapView. by case_match. Qed.

Lemma titles_resetMapView s : titles (resetMapView s) = titles s.
Proof. unfold resetMapView. by case_match. Qed.

Lemma filters_applyCountyFilter c s :
  filters (applyCountyFilter c s)
  = (currentDistrictFilter s, Some c, currentProjectTypeFilter s).
Proof.
  unfold applyCountyFilter.
  destruct (zoomToCounty c _) as [s2|] eqn:Hz; [|reflexivity].
  rewrite (filters_of_frame _ _ (frame_load_byCounty _ _)).
  by rewrite (filters_zoomToCounty _ _ _ Hz).
Qed.

Lemma filters_applyDistrictFilter d s :
  filters (applyDistrictFilter d s)
  = (d, currentCountyFilter s, currentProjectTypeFilter s).
Proof.
  unfold applyDistrictFilter.
  destruct (zoomToDistrict d _) as [s2|] eqn:Hz; [|reflexivity].
  rewrite (filters_of_frame _ _ (frame_load_byDistrict _ _)).
  by rewrite (filters_zoomToDistrict _ _ _ Hz).
Qed.

Lemma filters_applyProjectTypeFilter t s :
  filters (applyProjectTypeFilter t s)
  = (currentDistrictFilter s, currentCountyFilter s, Some t).
Proof.
  unfold applyProjectTypeFilter.
  by rewrite (filters_of_frame _ _ (frame_updateChartsAndTable _)).
Qed.

Lemma filters_county_then_district c d s :
  filters (applyDistrictFilter d (applyCountyFilter c s))
  = (d, Some c, currentProjectTypeFilter s).
Proof.
  rewrite filters_applyDistrictFilter.
  pose proof (filters_applyCountyFilter c s) as Hc.
  unfold filters in Hc. congruence.
Qed.

(** C1, as the script has it.  Each of the three selections writes its own
    filter variable and leaves the other two as they were: the filters are
    independent variables, not one exclusive state. *)
Theorem selection_sets_only_its_own_filter (s : Dashboard) :
  (forall countyName,
     filters (applyCountyFilter countyName s)
     = (currentDistrictFilter s, Some countyName, currentProjectTypeFilter s))
  /\ (forall districtNumber,
        filters (applyDistrictFilter districtNumber s)
        = (districtNumber, currentCountyFilter s, currentProjectTypeFilter s))
  /\ (forall projectType,
        filters (applyProjectTypeFilter projectType s)
        = (currentDistrictFilter s, currentCountyFilter s, Some projectType)).
Proof.
  auto using filters_applyCountyFilter, filters_applyDistrictFilter,
    filters_applyProjectTypeFilter.
Qed.

(** C1 fails as stated: after county "Fayette" and then district 7, on the
    loaded fixture, the county filter is still "Fayette"; the state is not
    "district 7 only". *)
Lemma selection_not_exclusive :
  let s := applyDistrictFilter (num 7)
             (applyCountyFilter "Fayette" (Fixture.loaded Fixture.db)) in
  filters s = (num 7, Some "Fayette", None)
  /\ filters s <> (num 7, None, None).
Proof.
  cbv zeta. rewrite filters_county_then_district.
  split; [reflexivity | discriminate].
Qed.

Lemma districtOption_range row n :
  districtOption row = Some n -> 1 <= n <= 12.
Proof.
  unfold districtOption. intros H.
  case_match; [|discriminate].
  destruct (match_digits _); simplify_eq/=.
  destruct (parseInt_string _); simplify_eq/=.
  case_match; simplify_eq. lia.
Qed.

(** C3, as the script has it.  [applyDistrictFilter] checks nothing: whatever
    value it is given becomes the district filter, and the other two filters
    are untouched.  The range 1..12 is enforced only where the menu is built
    from the [KYTC_Districts] table, so every button of that menu carries a
    number from 1 to 12. *)
Theorem district_range_checked_only_in_menu :
  (forall districtNumber s,
     filters (applyDistrictFilter districtNumber s)
     = (districtNumber, currentCountyFilter s, currentProjectTypeFilter s))
  /\ (forall rows d,
        d ∈ districtMenu rows ->
        exists n, d = str (pretty n) /\ 1 <= n <= 12).
Proof.
  split; [apply filters_applyDistrictFilter|].
  intros rows d Hd. unfold districtMenu in Hd.
  apply list_elem_of_fmap in Hd as (n & -> & Hn).
  rewrite merge_sort_Permutation in Hn.
  rewrite elem_of_remove_dups in Hn.
  apply list_elem_of_omap in Hn as (row & _ & Hrow).
  eauto using districtOption_range.
Qed.

(** C3 on a [KYTC_Districts] table that names districts 3, 13 and 12: the
    menu offers 3 and 12. *)
Lemma district_range_checked_only_in_menu_witness :
  let rows := [[("Name", str "District 3")]; [("Name", str "District 13")];
               [("Name", str "District 12")]] in
  districtMenu rows = [str "3"; str "12"]
  /\ exists n, str "12" = str (pretty n) /\ 1 <= n <= 12.
Proof.
  intros rows.
  assert (districtMenu rows = [str "3"; str "12"]) as Hmenu
    by (vm_compute; reflexivity).
  split; [exact Hmenu|].
  apply (proj2 district_range_checked_only_in_menu rows).
  rewrite Hmenu. right. left.
Defined.

(** C3 fails as stated: districts 13 and 0 are both taken, and the filter
    state changes. *)
Lemma out_of_range_district_accepted :
  let s0 := Fixture.loaded Fixture.db in
  filters s0 = (null, None, None)
  /\ filters (applyDistrictFilter (num 13) s0) = (num 13, None, None)
  /\ filters (applyDistrictFilter (num 0) s0) = (num 0, None, None).
Proof.
  cbv zeta. rewrite !filters_applyDistrictFilter. done.
Qed.

(** C8.  Whatever the state before, [clearAllFilters] leaves all three
    filter variables cleared, and each title element that the page has is
    given, as its text, exactly "Projects", respectively "Highway Projects
    Data". *)
Theorem clearAllFilters_resets (s : Dashboard) :
  let s' := clearAllFilters s in
  currentDistrictFilter s' = null
  /\ currentCountyFilter s' = None
  /\ currentProjectTypeFilter s' = None
  /\ projectsPanelTitle s'
     = (fun _ => textContent "Projects") <$> projectsPanelTitle s
  /\ tableDataTitle s'
     = (fun _ => textContent "Highway Projects Data") <$> tableDataTitle s.
Proof.
  cbv zeta. unfold clearAllFilters.
  set (s0 := updatePanelTitles _).
  pose proof (frame_load_all (resetMapView s0)) as H.
  assert (filters (resetMapView s0) = (null, None, None)
          /\ titles (resetMapView s0)
             = ((fun _ => textContent "Projects") <$> projectsPanelTitle s,
                (fun _ => textContent "Highway Projects Data")
                  <$> tableDataTitle s))
    as [Hf Ht].
  { rewrite filters_resetMapView, titles_resetMapView. split; reflexivity. }
  unfold frame, filters, titles in *. split_and!; congruence.
Qed.

(** ** The dispatcher *)

Lemma database_of_frame s1 s2 : frame s1 = frame s2 -> database s1 = database s2.
Proof. unfold frame. congruence. Qed.

Lemma reads_compose F G :
  reads_db_and_outputs F -> reads_db_and_outputs G ->
  (forall s, frame (F s) = frame s) ->
  reads_db_and_outputs (fun s => G (F s)).
Proof.
  intros HF HG Hfr s1 s2 Hdb Ho. apply HG; [|by apply HF].
  rewrite !(database_of_frame _ _ (Hfr _)). exact Hdb.
Qed.

Ltac reads_loader :=
  intros [] [] Hdb Ho; unfold outputs in *; cbn in Hdb, Ho;
  simplify_eq; unfold_loaders; cbn; repeat case_match; reflexivity.

Lemma reads_loadProjectsAwardedData :
  reads_db_and_outputs loadProjectsAwardedData.
Proof. unfold loadProjectsAwardedData. reads_loader. Qed.

Lemma reads_loadFilteredProjectsAwardedData d :
  reads_db_and_outputs (loadFilteredProjectsAwardedData d).
Proof. unfold loadFilteredProjectsAwardedData. reads_loader. Qed.

Lemma reads_loadFilteredProjectsAwardedDataByCounty c :
  reads_db_and_outputs (loadFilteredProjectsAwardedDataByCounty c).
Proof. unfold loadFilteredProjectsAwardedDataByCounty. reads_loader. Qed.

Lemma reads_loadFilteredProjectsAwardedDataByProjectType t :
  reads_db_and_outputs (loadFilteredProjectsAwardedDataByProjectType t).
Proof. unfold loadFilteredProjectsAwardedDataByProjectType. reads_loader. Qed.

Lemma reads_loadProjectCountByYear :
  reads_db_and_outputs loadProjectCountByYear.
Proof. unfold loadProjectCountByYear. reads_loader. Qed.

Lemma reads_loadFilteredProjectCountByYear d :
  reads_db_and_outputs (loadFilteredProjectCountByYear d).
Proof. unfold loadFilteredProjectCountByYear. reads_loader. Qed.

Lemma reads_loadFilteredProjectCountByYearByCounty c :
  reads_db_and_outputs (loadFilteredProjectCountByYearByCounty c).
Proof. unfold loadFilteredProjectCountByYearByCounty. reads_loader. Qed.

Lemma reads_loadFilteredProjectCountByYearByProjectType t :
  reads_db_and_outputs (loadFilteredProjectCountByYearByProjectType t).
Proof. unfold loadFilteredProjectCountByYearByProjectType. reads_loader. Qed.

Lemma reads_loadFilteredBasicProjectInfo d :
  reads_db_and_outputs (loadFilteredBasicProjectInfo d).
Proof. unfold loadFilteredBasicProjectInfo. reads_loader. Qed.

Lemma reads_loadFilteredBasicProjectInfoByCounty c :
  reads_db_and_outputs (loadFilteredBasicProjectInfoByCounty c).
Proof. unfold loadFilteredBasicProjectInfoByCounty. reads_loader. Qed.

Lemma reads_loadFilteredBasicProjectInfoByProjectType t :
  reads_db_and_outputs (loadFilteredBasicProjectInfoByProjectType t).
Proof. unfold loadFilteredBasicProjectInfoByProjectType. reads_loader. Qed.

Lemma outputs_set_table t s1 s2 :
  outputs s1 = outputs s2 -> outputs (set_table t s1) = outputs (set_table t s2).
Proof. unfold outputs. cbn. congruence. Qed.

Lemma reads_loadBasicProjectInfo_pass s1 s2 :
  database s1 = database s2 -> outputs s1 = outputs s2 ->
  outputs (loadBasicProjectInfo_pass s1).1
  = outputs (loadBasicProjectInfo_pass s2).1
  /\ (loadBasicProjectInfo_pass s1).2 = (loadBasicProjectInfo_pass s2).2.
Proof.
  intros Hdb Ho. unfold loadBasicProjectInfo_pass.
  rewrite Hdb.
  destruct (database s2) as [db|] eqn:Hdb2; [|done].
  destruct (rows_unfiltered db) as [|row0 rows]; [done|].
  assert (outputs (loadProjectsAwardedData (loadProjectCountByYear s1))
          = outputs (loadProjectsAwardedData (loadProjectCountByYear s2)))
    as Ho'.
  { apply (reads_compose loadProjectCountByYear loadProjectsAwardedData);
      auto using reads_loadProjectCountByYear, reads_loadProjectsAwardedData,
        frame_loadProjectCountByYear.
    congruence. }
  assert (highwayProjectsTable
            (loadProjectsAwardedData (loadProjectCountByYear s1))
          = highwayProjectsTable
              (loadProjectsAwardedData (loadProjectCountByYear s2))) as Ht.
  { unfold outputs in Ho'. congruence. }
  rewrite Ht. case_match; cbn [fst snd]; auto using outputs_set_table.
Qed.

Lemma reads_loadBasicProjectInfo : reads_db_and_outputs loadBasicProjectInfo.
Proof.
  intros s1 s2 Hdb Ho. unfold loadBasicProjectInfo.
  destruct (reads_loadBasicProjectInfo_pass s1 s2 Hdb Ho) as [Ho1 Hr].
  pose proof (frame_loadBasicProjectInfo_pass s1) as Hf1.
  pose proof (frame_loadBasicProjectInfo_pass s2) as Hf2.
  destruct (loadBasicProjectInfo_pass s1) as [a1 r1].
  destruct (loadBasicProjectInfo_pass s2) as [a2 r2].
  cbn [fst snd] in *. subst r2. destruct r1; [|exact Ho1].
  apply reads_loadBasicProjectInfo_pass; [|exact Ho1].
  rewrite (database_of_frame _ _ Hf1), (database_of_frame _ _ Hf2).
  exact Hdb.
Qed.

Lemma reads_load_by driver : reads_db_and_outputs (load_by driver).
Proof.
  destruct driver; cbn [load_by];
    [unfold load_byProjectType | unfold load_byDistrict
     | unfold load_byCounty | unfold load_all].
  - apply (reads_compose
             (fun s => loadFilteredProjectCountByYearByProjectType projectType
                         (loadFilteredProjectsAwardedDataByProjectType
                            projectType s))
             (loadFilteredBasicProjectInfoByProjectType projectType)).
    + apply (reads_compose _ _
               (reads_loadFilteredProjectsAwardedDataByProjectType _)
               (reads_loadFilteredProjectCountByYearByProjectType _)).
      apply frame_loadFilteredProjectsAwardedDataByProjectType.
    + apply reads_loadFilteredBasicProjectInfoByProjectType.
    + intros s. by autorewrite with frame_db.
  - apply (reads_compose
             (fun s => loadFilteredProjectCountByYear districtNumber
                         (loadFilteredProjectsAwardedData districtNumber s))
             (loadFilteredBasicProjectInfo districtNumber)).
    + apply (reads_compose _ _
               (reads_loadFilteredProjectsAwardedData _)
               (reads_loadFilteredProjectCountByYear _)).
      apply frame_loadFilteredProjectsAwardedData.
    + apply reads_loadFilteredBasicProjectInfo.
    + intros s. by autorewrite with frame_db.
  - apply (reads_compose
             (fun s => loadFilteredProjectCountByYearByCounty countyName
                         (loadFilteredProjectsAwardedDataByCounty countyName s))
             (loadFilteredBasicProjectInfoByCounty countyName)).
    + apply (reads_compose _ _
               (reads_loadFilteredProjectsAwardedDataByCounty _)
               (reads_loadFilteredProjectCountByYearByCounty _)).
      apply frame_loadFilteredProjectsAwardedDataByCounty.
    + apply reads_loadFilteredBasicProjectInfoByCounty.
    + intros s. by autorewrite with frame_db.
  - apply (reads_compose
             (fun s => loadProjectCountByYear (loadProjectsAwardedData s))
             loadBasicProjectInfo).
    + apply (reads_compose _ _ reads_loadProjectsAwardedData
               reads_loadProjectCountByYear).
      apply frame_loadProjectsAwardedData.
    + apply reads_loadBasicProjectInfo.
    + intros s. by autorewrite with frame_db.
Qed.

Lemma updateChartsAndTable_driver s :
  updateChartsAndTable s
  = load_by (driving_filter (currentDistrictFilter s) (currentCountyFilter s)
               (currentProjectTypeFilter s)) s.
Proof.
  unfold updateChartsAndTable, driving_filter. by repeat case_match.
Qed.

(** C10.  A refresh runs the loads of one filter only, chosen by the
    precedence project type, then district, then county, then none; two
    settings of the three filter variables that have the same driving
    filter give the same pie counts, years chart and table, so the filters
    that are set but do not drive are ignored. *)
Theorem dispatcher_precedence (s : Dashboard) :
  updateChartsAndTable s
  = load_by (driving_filter (currentDistrictFilter s) (currentCountyFilter s)
               (currentProjectTypeFilter s)) s
  /\ forall d1 c1 t1 d2 c2 t2,
       driving_filter d1 c1 t1 = driving_filter d2 c2 t2 ->
       outputs (updateChartsAndTable (with_filters d1 c1 t1 s))
       = outputs (updateChartsAndTable (with_filters d2 c2 t2 s)).
Proof.
  split; [apply updateChartsAndTable_driver|].
  intros d1 c1 t1 d2 c2 t2 Hdrv.
  rewrite !updateChartsAndTable_driver. cbn. rewrite Hdrv.
  by apply reads_load_by.
Qed.

(** C10 at work on the fixture: with project type "bridge" set, setting
    district 5 and county "Jefferson" as well changes nothing of what is
    shown. *)
Lemma dispatcher_precedence_witness :
  let s := Fixture.loaded Fixture.db in
  outputs (updateChartsAndTable
             (with_filters (str "5") (Some "Jefferson") (Some "bridge") s))
  = outputs (updateChartsAndTable (with_filters null None (Some "bridge") s)).
Proof.
  intros s.
  exact (proj2 (dispatcher_precedence s)
           (str "5") (Some "Jefferson") (Some "bridge")
           null None (Some "bridge") eq_refl).
Defined.

(** ** The row limit *)

Lemma queryRows_limit db driver rows :
  queryRows db driver = Some rows -> (List.length rows <= 1000)%nat.
Proof.
  destruct driver; cbn; intros H; simplify_option_eq;
    unfold table_rows_byDistrict in *; simplify_option_eq;
    unfold rows_byProjectType, rows_byDistrict, rows_byCounty, rows_unfiltered;
    rewrite length_take; lia.
Qed.

Lemma limit_set_table t s :
  (List.length (data t) <= 1000)%nat ->
  table_within_limit (set_table (Some t) s).
Proof. intros H t' Ht'. cbn in Ht'. by simplify_eq. Qed.

Lemma limit_of_table s1 s2 :
  highwayProjectsTable s1 = highwayProjectsTable s2 ->
  table_within_limit s2 -> table_within_limit s1.
Proof. unfold table_within_limit. intros ->. done. Qed.

Lemma limit_load_filtered_rows rows s :
  (List.length rows <= 1000)%nat ->
  table_within_limit (load_filtered_rows rows s).
Proof.
  intros H. apply limit_set_table. unfold show_filtered_rows.
  destruct rows; cbn in *; lia.
Qed.

Lemma table_loadProjectsAwardedData s :
  highwayProjectsTable (loadProjectsAwardedData s) = highwayProjectsTable s.
Proof. loader_cases. Qed.

Lemma table_loadProjectCountByYear s :
  highwayProjectsTable (loadProjectCountByYear s) = highwayProjectsTable s.
Proof. loader_cases. Qed.

Lemma table_loadFilteredProjectsAwardedData d s :
  highwayProjectsTable (loadFilteredProjectsAwardedData d s)
  = highwayProjectsTable s.
Proof. loader_cases. Qed.

Lemma table_loadFilteredProjectCountByYear d s :
  highwayProjectsTable (loadFilteredProjectCountByYear d s)
  = highwayProjectsTable s.
Proof. loader_cases. Qed.

Lemma table_loadFilteredProjectsAwardedDataByCounty c s :
  highwayProjectsTable (loadFilteredProjectsAwardedDataByCounty c s)
  = highwayProjectsTable s.
Proof. loader_cases. Qed.

Lemma table_loadFilteredProjectCountByYearByCounty c s :
  highwayProjectsTable (loadFilteredProjectCountByYearByCounty c s)
  = highwayProjectsTable s.
Proof. loader_cases. Qed.

Lemma table_loadFilteredProjectsAwardedDataByProjectType t s :
  highwayProjectsTable (loadFilteredProjectsAwardedDataByProjectType t s)
  = highwayProjectsTable s.
Proof. loader_cases. Qed.

Lemma table_loadFilteredProjectCountByYearByProjectType t s :
  highwayProjectsTable (loadFilteredProjectCountByYearByProjectType t s)
  = highwayProjectsTable s.
Proof. loader_cases. Qed.

Lemma limit_loadBasicProjectInfo_pass s :
  table_within_limit s -> table_within_limit (loadBasicProjectInfo_pass s).1.
Proof.
  intros H. unfold loadBasicProjectInfo_pass.
  destruct (database s) as [db|]; [|exact H].
  pose proof (queryRows_limit db Unfiltered _ eq_refl) as Hlen.
  destruct (rows_unfiltered db) as [|row0 rows]; [exact H|].
  case_match; cbn [fst]; apply limit_set_table; [exact Hlen | cbn; lia].
Qed.

Lemma limit_loadBasicProjectInfo s :
  table_within_limit s -> table_within_limit (loadBasicProjectInfo s).
Proof.
  intros H. unfold loadBasicProjectInfo.
  pose proof (limit_loadBasicProjectInfo_pass s H) as H1.
  destruct (loadBasicProjectInfo_pass s) as [s1 [|]]; cbn [fst] in H1;
    auto using limit_loadBasicProjectInfo_pass.
Qed.

Lemma limit_loadFilteredBasicProjectInfo d s :
  table_within_limit s -> table_within_limit (loadFilteredBasicProjectInfo d s).
Proof.
  intros H. unfold loadFilteredBasicProjectInfo, with_database.
  destruct (database s) as [db|]; [|exact H].
  destruct (table_rows_byDistrict db d) as [rows|] eqn:Hrows; [|exact H].
  apply limit_load_filtered_rows.
  by apply (queryRows_limit db (ByDistrict d)).
Qed.

Lemma limit_loadFilteredBasicProjectInfoByCounty c s :
  table_within_limit s ->
  table_within_limit (loadFilteredBasicProjectInfoByCounty c s).
Proof.
  intros H. unfold loadFilteredBasicProjectInfoByCounty, with_database.
  destruct (database s) as [db|]; [|exact H].
  apply limit_load_filtered_rows.
  by apply (queryRows_limit db (ByCounty c)).
Qed.

Lemma limit_loadFilteredBasicProjectInfoByProjectType t s :
  table_within_limit s ->
  table_within_limit (loadFilteredBasicProjectInfoByProjectType t s).
Proof.
  intros H. unfold loadFilteredBasicProjectInfoByProjectType, with_database.
  destruct (database s) as [db|]; [|exact H].
  apply limit_load_filtered_rows.
  by apply (queryRows_limit db (ByProjectType t)).
Qed.

Lemma limit_load_by driver s :
  table_within_limit s -> table_within_limit (load_by driver s).
Proof.
  intros H. destruct driver; cbn [load_by].
  - apply limit_loadFilteredBasicProjectInfoByProjectType.
    eapply limit_of_table; [|exact H].
    by rewrite table_loadFilteredProjectCountByYearByProjectType,
      table_loadFilteredProjectsAwardedDataByProjectType.
  - apply limit_loadFilteredBasicProjectInfo.
    eapply limit_of_table; [|exact H].
    by rewrite table_loadFilteredProjectCountByYear,
      table_loadFilteredProjectsAwardedData.
  - apply limit_loadFilteredBasicProjectInfoByCounty.
    eapply limit_of_table; [|exact H].
    by rewrite table_loadFilteredProjectCountByYearByCounty,
      table_loadFilteredProjectsAwardedDataByCounty.
  - apply limit_loadBasicProjectInfo.
    eapply limit_of_table; [|exact H].
    by rewrite table_loadProjectCountByYear, table_loadProjectsAwardedData.
Qed.

(** C7.  Whichever filter drives, the rows queried for the table are at
    most 1000 (every statement ends in LIMIT 1000), and a refresh keeps the
    table within 1000 rows. *)
Theorem table_rows_at_most_1000 :
  (forall db driver rows,
     queryRows db driver = Some rows -> (List.length rows <= 1000)%nat)
  /\ (forall s,
        table_within_limit s -> table_within_limit (updateChartsAndTable s)).
Proof.
  split; [apply queryRows_limit|].
  intros s H. rewrite updateChartsAndTable_driver. by apply limit_load_by.
Qed.

(** C7 on the fixture, with the county filter set to "Fayette". *)
Lemma table_rows_at_most_1000_witness :
  let s := with_filters null (Some "Fayette") None
             (Fixture.loaded Fixture.db) in
  (forall rows,
     queryRows Fixture.db (ByCounty "Fayette") = Some rows ->
     (List.length rows <= 1000)%nat)
  /\ table_within_limit (updateChartsAndTable s).
Proof.
  intros s. split.
  - exact (proj1 table_rows_at_most_1000 Fixture.db (ByCounty "Fayette")).
  - apply (proj2 table_rows_at_most_1000 s).
    intros t Ht. cbn in Ht. injection Ht as <-. cbn. lia.
Defined.

(** ** Spatial key lookup *)

Lemma layer_at_None key (layers : list (string * Layer)) :
  layer_at key layers = None <-> key ∉ layers.*1.
Proof.
  induction layers as [|[k l] layers IH]; cbn.
  - split; [intros _; apply not_elem_of_nil | done].
  - rewrite not_elem_of_cons.
    destruct (String.eqb_spec k key) as [->|Hne].
    + split; [done | by intros [? _]].
    + rewrite IH. split; [by intros ? | by intros [_ ?]].
Qed.

Lemma layer_at_elem key (layers : list (string * Layer)) :
  key ∈ layers.*1 -> is_Some (layer_at key layers).
Proof.
  induction layers as [|[k l] layers IH]; cbn; [by rewrite elem_of_nil|].
  rewrite elem_of_cons. intros [->|Hin].
  - rewrite String.eqb_refl. eauto.
  - destruct (String.eqb k key); eauto.
Qed.

Lemma member_at_stored key layers layer :
  layer_at key layers = Some layer -> member_at key layers = stored layer.
Proof. unfold member_at. by intros ->. Qed.

Lemma member_at_missing key layers :
  layer_at key layers = None -> key ∉ Object_prototype_names ->
  member_at key layers = missing.
Proof. unfold member_at. intros -> Hk. by rewrite bool_decide_false. Qed.

Lemma filter_all {A} (Q : A -> bool) (l : list A) :
  Forall (fun x => Q x = true) l -> filter (fun x => Q x = true) l = l.
Proof.
  induction 1 as [|x l Hx _ IH]; [done|].
  rewrite filter_cons. rewrite decide_True by done. by rewrite IH.
Qed.

Lemma filter_none {A} (Q : A -> bool) (l : list A) :
  Forall (fun x => Q x = false) l -> filter (fun x => Q x = true) l = [].
Proof.
  induction 1 as [|x l Hx _ IH]; [done|].
  rewrite filter_cons. rewrite decide_False by congruence. exact IH.
Qed.

Lemma partial_match_related countyName key :
  partial_match countyName key = true <-> related countyName key.
Proof.
  unfold partial_match, related. by rewrite orb_true_iff, !includes_spec.
Qed.

(** The first stored key related to the name heads the partial matches. *)
Lemma partialMatches_first countyName (layers : list (string * Layer))
    before key after :
  layers.*1 = before ++ key :: after ->
  (forall earlier, earlier ∈ before -> ~ related countyName earlier) ->
  related countyName key ->
  exists rest, partialMatches countyName layers = key :: rest.
Proof.
  intros Hkeys Hbefore Hkey. unfold partialMatches. rewrite Hkeys, filter_app.
  rewrite (filter_none (partial_match countyName) before).
  2: { apply Forall_forall. intros k Hk.
       destruct (partial_match countyName k) eqn:Hm; [|done].
       apply partial_match_related in Hm. by apply Hbefore in Hm. }
  rewrite filter_cons, decide_True by (by apply partial_match_related).
  eauto.
Qed.

Lemma partialMatches_none countyName (layers : list (string * Layer)) :
  (forall key, key ∈ layers.*1 -> ~ related countyName key) ->
  partialMatches countyName layers = [].
Proof.
  intros Hnone. unfold partialMatches. apply filter_none, Forall_forall.
  intros k Hk. destruct (partial_match countyName k) eqn:Hm; [|done].
  apply partial_match_related in Hm. by apply Hnone in Hm.
Qed.

(** C6, as the script has it.  For a name none of whose four spellings is
    the name of a member of [Object.prototype], [zoomToCounty] sends the map
    to the layer stored under the first of the spellings (as given,
    uppercased, lowercased, title-cased) that is a stored key; when none is,
    to the layer of the first stored key that contains the name or is
    contained in it, both lowercased; and it leaves the map alone when no
    stored key is so related.  So with "Fayette" stored, and neither
    "FAYETTE" nor "fayette" stored beside it, the three spellings send the
    map to the layer of "Fayette". *)
Theorem county_lookup_tiers (countyName : string) (s : Dashboard) :
  let layers := countyLayers s in
  (forall name, name ∈ spellings countyName -> name ∉ Object_prototype_names) ->
  (forall before name after layer,
     spellings countyName = before ++ name :: after ->
     (forall earlier, earlier ∈ before -> layer_at earlier layers = None) ->
     layer_at name layers = Some layer ->
     zoomToCounty countyName s = Some (set_mapView (FitBounds layer) s))
  /\ ((forall name, name ∈ spellings countyName ->
                    layer_at name layers = None) ->
      (forall before key after,
         layers.*1 = before ++ key :: after ->
         (forall earlier, earlier ∈ before -> ~ related countyName earlier) ->
         related countyName key ->
         exists layer,
           layer_at key layers = Some layer
           /\ zoomToCounty countyName s
              = Some (set_mapView (FitBounds layer) s))
      /\ ((forall key, key ∈ layers.*1 -> ~ related countyName key) ->
          zoomToCounty countyName s = Some s))
  /\ (forall group,
        countyName ∈ ["FAYETTE"; "fayette"; "Fayette"] ->
        layer_at "Fayette" layers = Some group ->
        layer_at "FAYETTE" layers = None ->
        layer_at "fayette" layers = None ->
        zoomToCounty countyName s = Some (set_mapView (FitBounds group) s)).
Proof.
  cbv zeta. intros Hown.
  assert (forall name, name ∈ spellings countyName ->
            layer_at name (countyLayers s) = None ->
            member_at name (countyLayers s) = missing) as Hmiss.
  { intros name Hname Hnone. apply member_at_missing; auto. }
  split_and!.
  - intros before name after layer Hsp Hbefore Hname.
    assert (forall earlier, earlier ∈ before ->
              member_at earlier (countyLayers s) = missing) as Hearlier.
    { intros earlier Hin. apply Hmiss; [|by apply Hbefore].
      rewrite Hsp. apply elem_of_app. by left. }
    apply member_at_stored in Hname.
    unfold zoomToCounty, foundLayer. unfold spellings in Hsp.
    destruct before as [|b0 [|b1 [|b2 [|b3 before]]]]; cbn in Hsp;
      [injection Hsp as <- <-
      |injection Hsp as <- <- <-
      |injection Hsp as <- <- <- <-
      |injection Hsp as <- <- <- <- <-
      |injection Hsp as _ _ _ _ Hsp].
    + by rewrite Hname.
    + rewrite (Hearlier countyName) by left. cbn. by rewrite Hname.
    + rewrite (Hearlier countyName) by left.
      rewrite (Hearlier (toUpperCase countyName)) by (right; left).
      cbn. by rewrite Hname.
    + rewrite (Hearlier countyName) by left.
      rewrite (Hearlier (toUpperCase countyName)) by (right; left).
      rewrite (Hearlier (toLowerCase countyName)) by (right; right; left).
      cbn. by rewrite Hname.
    + by destruct before.
  - intros Hnone.
    assert (foundLayer countyName (countyLayers s) = missing) as Hfound.
    { unfold foundLayer.
      rewrite !Hmiss; [done|..]; try (apply Hnone);
        unfold spellings; set_solver. }
    split.
    + intros before key after Hkeys Hbefore Hkey.
      destruct (partialMatches_first countyName _ _ _ _ Hkeys Hbefore Hkey)
        as [rest Hpm].
      destruct (layer_at_elem key (countyLayers s)) as [layer Hlayer].
      { rewrite Hkeys. apply elem_of_app. right. left. }
      exists layer. split; [done|].
      unfold zoomToCounty. rewrite Hfound, Hpm.
      by rewrite (member_at_stored _ _ _ Hlayer).
    + intros Hunrelated. unfold zoomToCounty.
      by rewrite Hfound, (partialMatches_none _ _ Hunrelated).
  - intros group Hname Hfay Hup Hlow.
    assert (("FAYETTE" ∉ Object_prototype_names)
            /\ ("fayette" ∉ Object_prototype_names)) as [HU HL].
    { split; apply (bool_decide_unpack _); vm_compute; exact I. }
    apply member_at_stored in Hfay.
    apply (member_at_missing _ _ Hup) in HU.
    apply (member_at_missing _ _ Hlow) in HL.
    unfold zoomToCounty, foundLayer.
    rewrite !elem_of_cons, elem_of_nil in Hname.
    destruct Hname as [->|[->|[->|[]]]].
    + change (toUpperCase "FAYETTE") with "FAYETTE".
      change (toLowerCase "FAYETTE") with "fayette".
      change (titleCase "FAYETTE") with "Fayette".
      by rewrite HU, HL, Hfay.
    + change (toUpperCase "fayette") with "FAYETTE".
      change (toLowerCase "fayette") with "fayette".
      change (titleCase "fayette") with "Fayette".
      by rewrite HU, HL, Hfay.
    + by rewrite Hfay.
Qed.

(** C6 on the county index of the fixture: "fayette" reaches the layer of
    "Fayette" through its title-cased spelling, "fay" through the partial
    match, and "Nonexistent County" leaves the map where it is. *)
Lemma county_lookup_tiers_witness :
  let s := Fixture.loaded Fixture.db in
  zoomToCounty "fayette" s = Some (set_mapView (FitBounds Fixture.fayette) s)
  /\ zoomToCounty "fay" s = Some (set_mapView (FitBounds Fixture.fayette) s)
  /\ zoomToCounty "Nonexistent County" s = Some s.
Proof.
  intros s.
  assert (forall c, bool_decide
            (Forall (fun name => name ∉ Object_prototype_names) (spellings c))
          = true ->
          forall name, name ∈ spellings c -> name ∉ Object_prototype_names)
    as Hown.
  { intros c Hc%bool_decide_eq_true. by rewrite Forall_forall in Hc. }
  split_and!.
  - apply (proj2 (proj2 (county_lookup_tiers "fayette" s
                           (Hown "fayette" eq_refl))) Fixture.fayette);
      [right; left | reflexivity..].
  - assert (forall name, name ∈ spellings "fay" ->
              layer_at name (countyLayers s) = None) as Hnone.
    { apply Forall_forall, (bool_decide_unpack _). vm_compute. exact I. }
    destruct (proj1 (proj1 (proj2 (county_lookup_tiers "fay" s
                                      (Hown "fay" eq_refl))) Hnone)
                [] "Fayette" ["Jefferson"] eq_refl
                ltac:(intros ? []%elem_of_nil)
                ltac:(left; by exists "", "ette"))
      as (layer & Hlayer & Hzoom).
    injection Hlayer as <-. exact Hzoom.
  - apply (proj1 (proj2 (county_lookup_tiers "Nonexistent County" s
                           (Hown "Nonexistent County" eq_refl)))).
    + apply Forall_forall, (bool_decide_unpack _). vm_compute. exact I.
    + intros key Hkey Hrel%partial_match_related. revert key Hkey Hrel.
      apply (proj1 (Forall_forall
                      (fun key =>
                         partial_match "Nonexistent County" key <> true) _)).
      apply (bool_decide_unpack _). vm_compute. exact I.
Defined.

(** C6 fails as stated.  With "Fayette" and "FAYETTE" both stored, the
    spellings "Fayette" and "FAYETTE" reach different layers: an exact match
    comes first.  And on the fixture the name "fay", no spelling of which is
    a stored key and which neither contains a stored key nor is contained in
    one, is found all the same: containment is tested on lowercased
    strings. *)
Lemma county_lookup_not_as_specified :
  let two := set_countyLayers
               [("Fayette", Fixture.fayette); ("FAYETTE", Fixture.jefferson)]
               (Fixture.loaded Fixture.db) in
  let s := Fixture.loaded Fixture.db in
  (mapView <$> zoomToCounty "Fayette" two = Some (FitBounds Fixture.fayette)
   /\ mapView <$> zoomToCounty "FAYETTE" two
      = Some (FitBounds Fixture.jefferson)
   /\ Fixture.fayette <> Fixture.jefferson)
  /\ ((countyLayers s).*1 = ["Fayette"; "Jefferson"]
      /\ (forall name, name ∈ spellings "fay" ->
                       layer_at name (countyLayers s) = None)
      /\ (forall key, key ∈ ["Fayette"; "Jefferson"] ->
                      includes key "fay" = false
                      /\ includes "fay" key = false)
      /\ mapView <$> zoomToCounty "fay" s = Some (FitBounds Fixture.fayette)
      /\ mapView s <> FitBounds Fixture.fayette).
Proof.
  cbv zeta. split_and!; try (vm_compute; reflexivity); try discriminate.
  - intros name Hname. revert name Hname.
    apply Forall_forall, (bool_decide_unpack _). vm_compute. exact I.
  - intros key Hkey. revert key Hkey.
    apply Forall_forall, (bool_decide_unpack _). vm_compute. exact I.
Qed.

(** ** Award status under the project-type filter *)

Lemma joined_rows_status db t :
  Forall (fun bc => status_case t bc = "Awarded") (joined_where_category db t).
Proof.
  apply Forall_forall. intros bc Hbc.
  apply list_elem_of_filter in Hbc as [Hcat _].
  unfold status_case. by rewrite Hcat.
Qed.

(** What the by-project-type pie query yields on any snapshot: every row
    that matches the category is counted as awarded, none as current. *)
Lemma awarded_byProjectType_all db t :
  awarded_byProjectType db t
  = (num (Z.of_nat (List.length (joined_where_category db t))), num 0).
Proof.
  unfold awarded_byProjectType, awarded_by_projectType_rows, count_rows.
  rewrite (filter_all (fun bc => String.eqb (status_case t bc) "Awarded")).
  2: { eapply Forall_impl; [apply joined_rows_status|].
       cbn. by intros bc ->. }
  rewrite (filter_none (fun bc => String.eqb (status_case t bc) "Current")).
  2: { eapply Forall_impl; [apply joined_rows_status|].
       cbn. by intros bc ->. }
  destruct (joined_where_category db t) as [|bc rows]; [reflexivity|].
  cbn [List.length]. rewrite Nat2Z.inj_succ.
  destruct (Z.ltb_spec 0 (Z.succ (Z.of_nat (List.length rows)))); [|lia].
  cbn. unfold or, truthy.
  destruct (Z.eqb_spec (Z.succ (Z.of_nat (List.length rows))) 0); [lia|].
  reflexivity.
Qed.

Lemma projectType_counts_all_awarded db t s :
  database s = Some db ->
  projectCounts (loadFilteredProjectsAwardedDataByProjectType t s)
  = {| awarded := num (Z.of_nat (List.length (joined_where_category db t)));
       current := num 0 |}.
Proof.
  intros Hdb. unfold loadFilteredProjectsAwardedDataByProjectType, with_database.
  rewrite Hdb, awarded_byProjectType_all. reflexivity.
Qed.

(** C2 on the fixture.  Under the project-type filter "bridge" two projects
    match, one awarded and one not; the pie query reports 2 awarded and 0
    current. *)
Theorem projectType_pie_counts_every_match_as_awarded :
  let db := Fixture.db in
  let matching := fst <$> joined_where_category db "bridge" in
  count_rows (fun p => sql_awarded (AWARDED p)) matching = 1
  /\ count_rows (fun p => sql_not_awarded (AWARDED p)) matching = 1
  /\ projectCounts
       (loadFilteredProjectsAwardedDataByProjectType "bridge"
          (Fixture.loaded db))
     = {| awarded := num 2; current := num 0 |}.
Proof.
  cbv zeta. split_and!.
  - vm_compute. reflexivity.
  - vm_compute. reflexivity.
  - rewrite (projectType_counts_all_awarded Fixture.db) by reflexivity.
    vm_compute. reflexivity.
Qed.

(** ** Refreshing twice *)

Lemma show_filtered_rows_idem rows t :
  show_filtered_rows rows (show_filtered_rows rows t)
  = show_filtered_rows rows t.
Proof.
  unfold show_filtered_rows. destruct rows as [|row0 rows]; [done|]. cbn.
  repeat case_match; try reflexivity; congruence.
Qed.

Lemma loadFilteredProjectsAwardedDataByProjectType_counts t s :
  loadFilteredProjectsAwardedDataByProjectType t s
  = with_database
      (fun db =>
         show_counts
           (Some {| awarded := (awarded_byProjectType db t).1;
                    current := (awarded_byProjectType db t).2 |})) s.
Proof.
  unfold loadFilteredProjectsAwardedDataByProjectType, with_database.
  destruct (database s) as [db|]; [|reflexivity].
  by destruct (awarded_byProjectType db t).
Qed.

Lemma with_database_3 (A Y T : Database -> Dashboard -> Dashboard) s :
  (forall db s, frame (A db s) = frame s) ->
  (forall db s, frame (Y db s) = frame s) ->
  with_database T (with_database Y (with_database A s))
  = match database s with
    | Some db => T db (Y db (A db s))
    | None => s
    end.
Proof.
  intros HA HY. unfold with_database.
  destruct (database s) as [db|] eqn:Hdb; [|by rewrite !Hdb].
  rewrite (database_of_frame _ _ (HA db s)), Hdb.
  by rewrite (database_of_frame _ _ (HY db _)),
    (database_of_frame _ _ (HA db s)), Hdb.
Qed.

Lemma frame_show_counts c s : frame (show_counts c s) = frame s.
Proof. by destruct c. Qed.

Lemma frame_show_years y s : frame (show_years y s) = frame s.
Proof. by destruct y. Qed.

Lemma frame_show_rows r s : frame (show_rows r s) = frame s.
Proof. by destruct r. Qed.

(** Showing the same query results twice is showing them once. *)
Lemma show_idem (counts : option Counts) (years : option YearData)
    (rows : option (list Row)) (s : Dashboard) :
  show_rows rows (show_years years (show_counts counts
    (show_rows rows (show_years years (show_counts counts s)))))
  = show_rows rows (show_years years (show_counts counts s)).
Proof.
  destruct s, counts as [c|], years as [m|], rows as [r|];
    unfold show_rows, show_years, show_counts, load_filtered_rows,
      createProjectYearsChart;
    try generalize (years_chart m); intros;
    cbn [set_table set_chart set_counts highwayProjectsTable default
           from_option id];
    by rewrite ?show_filtered_rows_idem.
Qed.

Lemma load_by_filtered_shape driver s :
  driver <> Unfiltered ->
  exists counts years rows,
    forall s', database s' = database s ->
      load_by driver s'
      = match database s with
        | Some _ => show_rows rows (show_years years (show_counts counts s'))
        | None => s'
        end.
Proof.
  intros Hdrv.
  destruct driver as [t|d|c|]; [| | |done]; cbn [load_by];
    unfold load_byProjectType, load_byDistrict, load_byCounty.
  - destruct (database s) as [db|] eqn:Hdb.
    + exists (Some {| awarded := (awarded_byProjectType db t).1;
                      current := (awarded_byProjectType db t).2 |}),
        (Some (years_byProjectType db t)),
        (Some (rows_byProjectType db t)).
      intros s' Hs'.
      rewrite loadFilteredProjectsAwardedDataByProjectType_counts.
      unfold loadFilteredProjectCountByYearByProjectType,
        loadFilteredBasicProjectInfoByProjectType.
      rewrite with_database_3, Hs'; auto using frame_show_counts,
        frame_show_years.
    + exists None, None, None. intros s' Hs'.
      rewrite loadFilteredProjectsAwardedDataByProjectType_counts.
      unfold loadFilteredProjectCountByYearByProjectType,
        loadFilteredBasicProjectInfoByProjectType.
      rewrite with_database_3, Hs'; auto using frame_show_counts,
        frame_show_years.
  - unfold loadFilteredProjectsAwardedData,
      loadFilteredProjectCountByYear, loadFilteredBasicProjectInfo.
    destruct (database s) as [db|] eqn:Hdb.
    + exists (awarded_byDistrict db d), (years_byDistrict db d),
        (table_rows_byDistrict db d).
      intros s' Hs'.
      rewrite with_database_3, Hs'; auto using frame_show_counts,
        frame_show_years.
    + exists None, None, None. intros s' Hs'.
      rewrite with_database_3, Hs'; auto using frame_show_counts,
        frame_show_years.
  - unfold loadFilteredProjectsAwardedDataByCounty,
      loadFilteredProjectCountByYearByCounty,
      loadFilteredBasicProjectInfoByCounty.
    destruct (database s) as [db|] eqn:Hdb.
    + exists (Some (awarded_byCounty db c)), (Some (years_byCounty db c)),
        (Some (rows_byCounty db c)).
      intros s' Hs'.
      rewrite with_database_3, Hs'; auto using frame_show_counts,
        frame_show_years.
    + exists None, None, None. intros s' Hs'.
      rewrite with_database_3, Hs'; auto using frame_show_counts,
        frame_show_years.
Qed.

Lemma load_by_filtered_idem driver s :
  driver <> Unfiltered ->
  load_by driver (load_by driver s) = load_by driver s.
Proof.
  intros Hdrv.
  destruct (load_by_filtered_shape driver s Hdrv)
    as (counts & years & rows & Hshape).
  pose proof (Hshape s eq_refl) as Hs.
  assert (database (load_by driver s) = database s) as Hdb.
  { destruct driver; cbn [load_by];
      apply database_of_frame;
      auto using frame_load_byProjectType, frame_load_byDistrict,
        frame_load_byCounty, frame_load_all. }
  rewrite (Hshape _ Hdb). rewrite Hs.
  destruct (database s); [apply show_idem | reflexivity].
Qed.

Lemma database_show s counts years :
  database (show_counts counts (show_years years s)) = database s.
Proof. by destruct counts, years. Qed.

Lemma database_show_years s years :
  database (show_years years s) = database s.
Proof. by destruct years. Qed.

Lemma database_show_counts s counts :
  database (show_counts counts s) = database s.
Proof. by destruct counts. Qed.

Lemma table_show s counts years :
  highwayProjectsTable (show_counts counts (show_years years s))
  = highwayProjectsTable s.
Proof. by destruct counts, years. Qed.

Lemma loadBasicProjectInfo_pass_shape db s :
  database s = Some db ->
  loadBasicProjectInfo_pass s
  = match rows_unfiltered db with
    | [] => (s, false)
    | row0 :: rows =>
        let s' := show_counts (awarded_all db) (show_years (years_all db) s) in
        match highwayProjectsTable s with
        | Some _ => (set_table (Some (unfiltered_table row0 rows)) s', false)
        | None => (set_table (Some initialTable) s', true)
        end
    end.
Proof.
  intros Hdb. unfold loadBasicProjectInfo_pass. rewrite Hdb.
  destruct (rows_unfiltered db) as [|row0 rows]; [done|].
  assert (loadProjectsAwardedData (loadProjectCountByYear s)
          = show_counts (awarded_all db) (show_years (years_all db) s)) as ->.
  { unfold loadProjectsAwardedData, loadProjectCountByYear, with_database.
    rewrite Hdb. by rewrite database_show_years, Hdb. }
  cbv zeta. by rewrite table_show.
Qed.

Lemma loadBasicProjectInfo_shape db s :
  database s = Some db ->
  loadBasicProjectInfo s
  = match rows_unfiltered db with
    | [] => s
    | row0 :: rows =>
        set_table (Some (unfiltered_table row0 rows))
          (show_counts (awarded_all db) (show_years (years_all db) s))
    end.
Proof.
  intros Hdb. unfold loadBasicProjectInfo.
  rewrite (loadBasicProjectInfo_pass_shape db s Hdb).
  destruct (rows_unfiltered db) as [|row0 rows] eqn:Hrows; [done|].
  cbv zeta. destruct (highwayProjectsTable s) eqn:Ht; [done|].
  rewrite (loadBasicProjectInfo_pass_shape db).
  2: { cbn. by rewrite database_show. }
  rewrite Hrows. cbv zeta.
  destruct s, (awarded_all db), (years_all db);
    unfold show_counts, show_years, createProjectYearsChart; reflexivity.
Qed.

Lemma load_all_shape db s :
  database s = Some db ->
  load_all s
  = match rows_unfiltered db with
    | [] => show_years (years_all db) (show_counts (awarded_all db) s)
    | row0 :: rows =>
        set_table (Some (unfiltered_table row0 rows))
          (show_years (years_all db) (show_counts (awarded_all db) s))
    end.
Proof.
  intros Hdb. unfold load_all.
  assert (loadProjectCountByYear (loadProjectsAwardedData s)
          = show_years (years_all db) (show_counts (awarded_all db) s)) as ->.
  { unfold loadProjectsAwardedData, loadProjectCountByYear, with_database.
    rewrite Hdb.
    by rewrite database_show_counts, Hdb. }
  rewrite (loadBasicProjectInfo_shape db).
  2: { by destruct (awarded_all db), (years_all db). }
  destruct (rows_unfiltered db); [done|].
  destruct s, (awarded_all db), (years_all db);
    unfold show_counts, show_years, createProjectYearsChart; reflexivity.
Qed.

Lemma load_all_idem s : load_all (load_all s) = load_all s.
Proof.
  destruct (database s) as [db|] eqn:Hdb.
  - assert (database (load_all s) = Some db) as Hdb'.
    { by rewrite (database_of_frame _ _ (frame_load_all s)). }
    rewrite (load_all_shape db (load_all s) Hdb').
    rewrite (load_all_shape db s Hdb).
    destruct (rows_unfiltered db), s, (awarded_all db), (years_all db);
      unfold show_counts, show_years, createProjectYearsChart; reflexivity.
  - assert (load_all s = s) as Hid.
    { unfold load_all, loadBasicProjectInfo, loadBasicProjectInfo_pass.
      unfold_loaders. by rewrite !Hdb. }
    by rewrite !Hid.
Qed.

(** C9.  With the filter variables unchanged, a second refresh right after
    the first changes nothing: the pie counts, the years chart and the table
    are the same, and so is the rest of the state, the database included. *)
Theorem refresh_idempotent (s : Dashboard) :
  updateChartsAndTable (updateChartsAndTable s) = updateChartsAndTable s
  /\ database (updateChartsAndTable s) = database s.
Proof.
  split.
  - pose proof (frame_updateChartsAndTable s) as Hfr.
    rewrite (updateChartsAndTable_driver (updateChartsAndTable s)).
    assert (driving_filter
              (currentDistrictFilter (updateChartsAndTable s))
              (currentCountyFilter (updateChartsAndTable s))
              (currentProjectTypeFilter (updateChartsAndTable s))
            = driving_filter (currentDistrictFilter s) (currentCountyFilter s)
                (currentProjectTypeFilter s)) as ->.
    { unfold frame in Hfr. congruence. }
    rewrite (updateChartsAndTable_driver s).
    destruct (decide
                (driving_filter (currentDistrictFilter s)
                   (currentCountyFilter s) (currentProjectTypeFilter s)
                 = Unfiltered)) as [->|Hne].
    + apply load_all_idem.
    + by apply load_by_filtered_idem.
  - apply database_of_frame, frame_updateChartsAndTable.
Qed.

(** ** The pie query, path by path *)

Lemma or_num_0 n : or (num n) (num 0) = num n.
Proof. unfold or, truthy. destruct (Z.eqb_spec n 0); by subst. Qed.

Lemma count_rows_nonneg {A} (P : A -> bool) l : 0 <= count_rows P l.
Proof. unfold count_rows. lia. Qed.


Lemma select_where_None view key param :
  select_where view key param = None <-> no_column view key.
Proof.
  unfold select_where, no_column. destruct view as [v|]; cbn.
  - destruct (sql_column key v) eqn:Hc; cbn.
    + split; [done|]. intros [|(v' & [= <-] & ?)]; congruence.
    + split; [|done]. intros _. right. by exists v.
  - split; [by left | done].
Qed.

Lemma select_order_by_None view order :
  select_order_by view order = None <-> no_column view order.
Proof.
  unfold select_order_by, no_column. destruct view as [v|]; cbn.
  - destruct (sql_column order v) eqn:Hc; cbn.
    + split; [done|]. intros [|(v' & [= <-] & ?)]; congruence.
    + split; [|done]. intros _. right. by exists v.
  - split; [by left | done].
Qed.

Lemma select_where_order_by_None view key param order :
  select_where_order_by view key param order = None
  <-> no_column view key \/ no_column view order.
Proof.
  unfold select_where_order_by, no_column. destruct view as [v|]; cbn.
  - destruct (sql_column key v) eqn:Hc; cbn.
    + destruct (sql_column order v) eqn:Ho; cbn.
      * split; [done|].
        intros [[|(v' & [= <-] & ?)]|[|(v' & [= <-] & ?)]]; congruence.
      * split; [|done]. intros _. right. right. by exists v.
    + split; [|done]. intros _. left. right. by exists v.
  - split; [by left; left | done].
Qed.

Lemma awarded_byCounty_fallback db c :
  no_column (ProjectsAwarded_ByCounty db) "COUNTY" ->
  awarded_byCounty db c
  = count_by_award_status
      (filter (fun p => sql_text_eq (COUNTY p) c = true)
         (Basic_Project_Info db)).
Proof.
  intros Hview%(select_where_None _ _ c).
  unfold awarded_byCounty, count_by_award_status.
  rewrite Hview. by rewrite !or_num_0.
Qed.





(** ** GROUP BY *)

Lemma year_lt_irrefl k : year_lt k k = false.
Proof. destruct k; cbn; [apply Z.ltb_irrefl | done]. Qed.

Lemma year_lt_trans a b c :
  year_lt a b = true -> year_lt b c = true -> year_lt a c = true.
Proof. destruct a, b, c; cbn; try done. rewrite !Z.ltb_lt. lia. Qed.

Lemma year_lt_connex a b : a <> b -> year_lt a b = false -> year_lt b a = true.
Proof.
  destruct a, b; cbn; try done.
  rewrite Z.ltb_ge, Z.ltb_lt. intros Hne Hle.
  destruct (decide (z = z0)); [congruence | lia].
Qed.

Lemma occurrences_cons y k keys :
  occurrences y (k :: keys)
  = occurrences y keys + (if decide (k = y) then 1 else 0).
Proof.
  unfold occurrences, count_rows. rewrite filter_cons.
  destruct (decide (k = y)) as [->|Hne].
  - rewrite decide_True by (by apply bool_decide_eq_true).
    cbn [List.length]. lia.
  - rewrite decide_False; [lia|].
    rewrite bool_decide_eq_true. done.
Qed.

Lemma occurrences_nonneg y keys : 0 <= occurrences y keys.
Proof. apply count_rows_nonneg. Qed.

Lemma key_lt_not_elem k n (groups : list (option Z * Z)) :
  Forall (key_lt (k, n)) groups -> forall m, (k, m) ∉ groups.
Proof.
  intros Hall m Hin. rewrite Forall_forall in Hall.
  specialize (Hall _ Hin). unfold key_lt in Hall. cbn in Hall.
  by rewrite year_lt_irrefl in Hall.
Qed.

Lemma key_lt_not_key k n (groups : list (option Z * Z)) :
  Forall (key_lt (k, n)) groups -> k ∉ groups.*1.
Proof.
  intros Hall Hin. apply list_elem_of_fmap in Hin as ([k' m] & -> & Hin).
  by apply (key_lt_not_elem _ _ _ Hall m).
Qed.

(** What [bump] does to a key-ordered list of groups. *)
Lemma bump_spec k groups :
  StronglySorted key_lt groups ->
  StronglySorted key_lt (bump k groups)
  /\ forall y n,
       (y, n) ∈ bump k groups
       <-> (y <> k /\ (y, n) ∈ groups)
           \/ (y = k /\ ((k, n - 1) ∈ groups
                         \/ (n = 1 /\ k ∉ groups.*1))).
Proof.
  induction groups as [|[k' n'] rest IH]; intros Hsorted.
  - split; [repeat constructor|].
    intros y n. cbn. rewrite list_elem_of_singleton.
    split.
    + intros [= -> ->]. right. split; [done|]. right. split; [done|].
      cbn. apply not_elem_of_nil.
    + intros [[_ Hin]|[-> [Hin|[-> _]]]]; [| |done].
      * by apply elem_of_nil in Hin.
      * by apply elem_of_nil in Hin.
  - apply StronglySorted_inv in Hsorted as [Hrest Hall].
    specialize (IH Hrest) as [IHsorted IHelem].
    cbn [bump]. case_bool_decide as Hk; [subst k'|].
    + split.
      * constructor; [done|]. eapply Forall_impl; [exact Hall|]. done.
      * intros y n. rewrite !elem_of_cons.
        pose proof (key_lt_not_elem _ _ _ Hall) as Hnot.
        split.
        -- intros [[= -> ->]|Hin].
           ++ right. split; [done|]. left. left. f_equal. lia.
           ++ left. split; [|by right]. intros ->. by apply (Hnot n).
        -- intros [[Hne [[= -> ->]|Hin]]|[-> [[[= Hn]|Hin]|[_ Hnk]]]];
             try done.
           ++ by right.
           ++ left. f_equal. lia.
           ++ by apply Hnot in Hin.
           ++ exfalso. apply Hnk. cbn. left.
    + destruct (year_lt k k') eqn:Hlt.
      * assert (Forall (key_lt (k, 1)) ((k', n') :: rest)) as Hall'.
        { constructor; [exact Hlt|].
          eapply Forall_impl; [exact Hall|].
          intros g Hg. unfold key_lt in *. cbn in *.
          by eapply year_lt_trans. }
        split; [constructor; [by constructor|done]|].
        intros y n. rewrite (elem_of_cons _ (y, n) (k, 1)).
        pose proof (key_lt_not_elem _ _ _ Hall') as Hnot.
        pose proof (key_lt_not_key _ _ _ Hall') as Hnotk.
        split.
        -- intros [[= -> ->]|Hin].
           ++ right. split; [done|]. by right.
           ++ left. split; [|done]. intros ->. by apply (Hnot n).
        -- intros [[Hne Hin]|[-> [Hin|[-> _]]]].
           ++ by right.
           ++ by apply Hnot in Hin.
           ++ by left.
      * assert (year_lt k' k = true) as Hgt
          by (apply year_lt_connex; [congruence | done]).
        split.
        -- constructor; [done|]. apply Forall_forall. intros [y n] Hin.
           apply IHelem in Hin as [[_ Hin]|[-> _]].
           ++ rewrite Forall_forall in Hall. by apply Hall.
           ++ exact Hgt.
        -- intros y n. rewrite elem_of_cons, IHelem.
           rewrite (elem_of_cons _ (y, n) (k', n')).
           rewrite (elem_of_cons _ (k, n - 1) (k', n')).
           cbn [fmap list_fmap fst]. rewrite (elem_of_cons _ k k').
           split.
           ++ intros [[= -> ->]|[[Hne Hin]|[-> [Hin|[-> Hnk]]]]].
              ** left. split; [congruence | by left].
              ** left. split; [done | by right].
              ** right. split; [done|]. left. by right.
              ** right. split; [done|]. right. split; [done|].
                 intros [->|Hin]; [congruence | done].
           ++ intros [[Hne [[= -> ->]|Hin]]|[-> [[[= ? ?]|Hin]|[-> Hnk]]]].
              ** by left.
              ** right. left. done.
              ** congruence.
              ** right. right. split; [done|]. by left.
              ** right. right. split; [done|]. right. split; [done|].
                 intros Hin. apply Hnk. by right.
Qed.

(** The rows of [GROUP BY key]: one per key that occurs, with its number
    of occurrences, in increasing key order. *)
Lemma group_count_spec keys :
  StronglySorted key_lt (group_count keys)
  /\ forall y n,
       (y, n) ∈ group_count keys <-> n = occurrences y keys /\ 0 < n.
Proof.
  induction keys as [|k keys [IHsorted IHelem]].
  - split; [constructor|]. intros y n. cbn. rewrite elem_of_nil.
    unfold occurrences, count_rows. cbn. lia.
  - change (group_count (k :: keys)) with (bump k (group_count keys)).
    destruct (bump_spec k (group_count keys) IHsorted) as [Hsorted Helem].
    split; [done|]. intros y n.
    rewrite Helem, occurrences_cons, !IHelem.
    pose proof (occurrences_nonneg y keys) as Hy.
    pose proof (occurrences_nonneg k keys) as Hk.
    assert (k ∉ (group_count keys).*1 <-> occurrences k keys = 0) as ->.
    { split.
      - intros Hnk. destruct (decide (occurrences k keys = 0)); [done|].
        exfalso. apply Hnk. apply list_elem_of_fmap.
        exists (k, occurrences k keys). split; [done|].
        apply IHelem. lia.
      - intros H0 Hin. apply list_elem_of_fmap in Hin as ([k' m] & -> & Hin).
        apply IHelem in Hin. cbn in *. lia. }
    destruct (decide (k = y)) as [->|Hne].
    + split.
      * intros [[Hne _]|[_ [[Hn Hpos]|[-> H0]]]]; [done | lia | lia].
      * intros [-> Hpos]. right. split; [done|].
        destruct (decide (occurrences y keys = 0)); [right; lia | left; lia].
    + split.
      * intros [[_ [-> Hpos]]|[-> _]]; [lia | done].
      * intros [-> Hpos]. left. split; [congruence | lia].
Qed.

Lemma group_count_NoDup keys : NoDup (group_count keys).*1.
Proof.
  destruct (group_count_spec keys) as [Hsorted _].
  induction Hsorted as [|g groups _ IH Hall]; [constructor|].
  cbn. constructor; [|done].
  destruct g as [k n]. by apply (key_lt_not_key k n).
Qed.

(** ** From rows to [yearData] *)

Lemma record_year_entry year count (m : YearData) :
  record_year year count m
  = match year_entry year count with
    | Some (k, v) => <[k := v]> m
    | None => m
    end.
Proof. unfold record_year, year_entry. by case_match. Qed.

Lemma fold_record_year (yr cnt : Row -> value) rows (m : YearData) :
  foldl (fun yearData row => record_year (yr row) (cnt row) yearData) m rows
  = foldl (fun yearData '(k, v) => <[k := v]> yearData) m
      (omap (fun row => year_entry (yr row) (cnt row)) rows).
Proof.
  revert m. induction rows as [|row rows IH]; intros m; [done|].
  cbn [foldl]. rewrite IH, record_year_entry. cbn [omap list_omap].
  destruct (year_entry (yr row) (cnt row)) as [[k v]|]; done.
Qed.

Lemma fold_insert_lookup (entries : list (string * value)) (m : YearData) k v :
  NoDup entries.*1 ->
  (foldl (fun yearData '(k, v) => <[k := v]> yearData) m entries) !! k
  = Some v
  <-> ((k, v) ∈ entries) \/ ((k ∉ entries.*1) /\ (m !! k = Some v)).
Proof.
  revert m. induction entries as [|[k0 v0] entries IH]; intros m Hnd.
  - cbn. rewrite elem_of_nil. split; [intros; right; split; [|done] | tauto].
    apply not_elem_of_nil.
  - cbn in Hnd. apply NoDup_cons in Hnd as [Hk0 Hnd].
    cbn [foldl]. rewrite (IH _ Hnd). cbn [fmap list_fmap fst].
    rewrite !elem_of_cons, lookup_insert_Some.
    split.
    + intros [Hin|[Hnk [[<- <-]|[Hne Hm]]]].
      * left. by right.
      * left. by left.
      * right. split; [|done]. intros [->|?]; done.
    + intros [[[= -> ->]|Hin]|[Hnk Hm]].
      * right. split; [done|]. by left.
      * by left.
      * right. split; [intros ?; apply Hnk; by right|].
        right. split; [|done]. intros ->. apply Hnk. by left.
Qed.

Lemma group_entry_keys_NoDup (groups : list (option Z * Z)) :
  NoDup groups.*1 -> NoDup (omap group_entry groups).*1.
Proof.
  induction groups as [|[y n] groups IH]; intros Hnd; [constructor|].
  cbn in Hnd. apply NoDup_cons in Hnd as [Hy Hnd].
  cbn [omap list_omap]. destruct (group_entry (y, n)) as [[k v]|] eqn:He;
    [|by apply IH].
  cbn. constructor; [|by apply IH].
  intros Hin. apply list_elem_of_fmap in Hin as ([k' v'] & Hk & Hin).
  cbn in Hk. subst k'.
  apply list_elem_of_omap in Hin as ([y' n'] & Hin & He').
  unfold group_entry in He, He'. cbn in He, He'.
  destruct y as [z|], y' as [z'|]; try done.
  repeat case_match; simplify_eq.
  apply Hy. apply list_elem_of_fmap. by exists (Some z', n').
Qed.

(** The [yearData] built from the rows of a [GROUP BY] over [keys], taken
    in any order, counts the years of [keys]. *)
Lemma counts_years_of_groups (entry : Row -> option (string * value))
    (format : option Z * Z -> Row) rows keys :
  (forall g, entry (format g) = group_entry g) ->
  rows ≡ₚ format <$> group_count keys ->
  counts_years
    (foldl (fun yearData '(k, v) => <[k := v]> yearData) ∅ (omap entry rows))
    keys.
Proof.
  intros Hentry Hperm.
  assert (omap entry rows ≡ₚ omap group_entry (group_count keys)) as Hp.
  { rewrite Hperm. clear Hperm.
    induction (group_count keys) as [|g groups IH]; [done|].
    cbn. rewrite Hentry. destruct (group_entry g); by rewrite IH. }
  assert (NoDup (omap entry rows).*1) as Hnd.
  { rewrite Hp. apply group_entry_keys_NoDup, group_count_NoDup. }
  intros k v. rewrite (fold_insert_lookup _ _ _ _ Hnd), lookup_empty.
  rewrite Hp, list_elem_of_omap.
  destruct (group_count_spec keys) as [_ Hgroups].
  split.
  - intros [([y n] & Hin & He)|[_ ?]]; [|done].
    apply Hgroups in Hin as [Hn Hpos].
    unfold group_entry in He. cbn in He. destruct y as [z|]; [|done].
    destruct (Z.eqb_spec z 0); [done|]. destruct (Z.eqb_spec n 0); [done|].
    cbn in He. injection He as <- <-. exists z. by rewrite <-Hn.
  - intros (z & Hz & -> & -> & Hpos). left.
    exists (Some z, occurrences (Some z) keys). split.
    + by apply Hgroups.
    + unfold group_entry. cbn.
      destruct (Z.eqb_spec z 0); [done|].
      destruct (Z.eqb_spec (occurrences (Some z) keys) 0); [lia | done].
Qed.

Lemma counts_years_unique m1 m2 keys :
  counts_years m1 keys -> counts_years m2 keys -> m1 = m2.
Proof.
  intros H1 H2. apply map_eq. intros k. apply option_eq. intros v.
  by rewrite (H1 k v), (H2 k v).
Qed.

Lemma counts_years_keys m keys1 keys2 :
  (forall z, z <> 0 ->
     occurrences (Some z) keys1 = occurrences (Some z) keys2) ->
  counts_years m keys1 -> counts_years m keys2.
Proof.
  intros Hocc H k v. rewrite (H k v).
  split; intros (z & Hz & -> & -> & Hpos); exists z;
    by rewrite ?Hocc in * by done.
Qed.

Lemma occurrences_reverse y keys :
  occurrences y (reverse keys) = occurrences y keys.
Proof.
  unfold occurrences, count_rows. by rewrite filter_reverse, length_reverse.
Qed.

(** Dropping the projects before 2024 and those without a year changes no
    count, when every selected project that has a year has one from 2024
    on. *)
Lemma occurrences_from_2024 (sel : Project -> bool) base z :
  (forall p y, p ∈ base -> sel p = true -> RSY_YEAR p = Some y -> 2024 <= y) ->
  occurrences (Some z)
    (RSY_YEAR <$> filter (fun p => sel p = true) base)
  = occurrences (Some z)
      (RSY_YEAR <$>
         filter (fun p => sel p && sql_year_ge_2024 (RSY_YEAR p) = true) base).
Proof.
  induction base as [|p base IH]; intros H; [done|].
  rewrite !filter_cons.
  assert (IH' := IH (fun p' y Hin => H p' y (list_elem_of_further _ _ _ Hin))).
  destruct (sel p) eqn:Hsel; cbn [andb].
  - rewrite decide_True by done.
    destruct (RSY_YEAR p) as [y|] eqn:Hy; cbn [sql_year_ge_2024].
    + assert (2024 <= y) as Hge by (eapply H; [left | done | done]).
      destruct (Z.leb_spec 2024 y); [|lia].
      rewrite decide_True by done. cbn [fmap list_fmap].
      by rewrite !occurrences_cons, IH', Hy.
    + rewrite decide_False by done. cbn [fmap list_fmap].
      rewrite occurrences_cons, IH', Hy. rewrite decide_False by done. lia.
  - rewrite !decide_False by done. exact IH'.
Qed.

Lemma incr_count (m : YearData) k n :
  0 <= n ->
  (m !! k = Some (num n) /\ 0 < n) \/ (m !! k = None /\ n = 0) ->
  incr (default undefined (m !! k)) = num (n + 1).
Proof.
  intros Hn [[-> Hpos]|[-> ->]]; cbn; unfold incr, or, truthy.
  - destruct (Z.eqb_spec n 0); [lia | done].
  - done.
Qed.

(** One turn of the counting loop of the unfiltered fallback. *)
Lemma count_year_step (m : YearData) keys p :
  RSY_YEAR p <> Some 0 ->
  counts_years m keys -> counts_years (count_year m p) (RSY_YEAR p :: keys).
Proof.
  intros Hnz Hm. unfold count_year.
  destruct (RSY_YEAR p) as [y|] eqn:Hy; cbn [of_int parseInt].
  - assert (y <> 0) as Hy0 by congruence.
    pose proof (occurrences_nonneg (Some y) keys) as Hocc.
    assert (incr (default undefined (m !! pretty y))
            = num (occurrences (Some y) keys + 1)) as ->.
    { apply incr_count; [done|].
      destruct (decide (occurrences (Some y) keys = 0)) as [H0|Hne].
      - right. split; [|done]. apply eq_None_not_Some. intros [v Hv].
        apply Hm in Hv as (z & _ & Hz & _ & Hpos).
        apply (inj pretty) in Hz. subst z. lia.
      - left. split; [|lia]. apply Hm. exists y. split_and!; try done. lia. }
    intros k v. rewrite lookup_insert_Some. split.
    + intros [[<- <-]|[Hne Hk]].
      * exists y. rewrite occurrences_cons, decide_True by done.
        split_and!; try done. lia.
      * apply Hm in Hk as (z & Hz & -> & -> & Hpos). exists z.
        rewrite occurrences_cons, decide_False by congruence.
        split_and!; try done; [f_equal; lia | lia].
    + intros (z & Hz & -> & -> & Hpos). rewrite occurrences_cons in *.
      destruct (decide (Some y = Some z)) as [[= ->]|Hne].
      * by left.
      * right. split; [intros Heq; apply (inj pretty) in Heq; congruence|].
        apply Hm. exists z. split_and!; try done; [f_equal; lia | lia].
  - intros k v. rewrite (Hm k v).
    split; intros (z & Hz & -> & -> & Hpos); exists z;
      rewrite occurrences_cons, decide_False in * by done;
      (split_and!; try done; [f_equal; lia | lia]).
Qed.

Lemma count_year_loop ps (m : YearData) keys :
  Forall (fun p => RSY_YEAR p <> Some 0) ps ->
  counts_years m keys ->
  counts_years (foldl count_year m ps) (reverse (RSY_YEAR <$> ps) ++ keys).
Proof.
  intros Hall. revert m keys.
  induction Hall as [|p ps Hp _ IH]; intros m keys Hm; [done|].
  cbn [foldl fmap list_fmap]. rewrite reverse_cons, <-app_assoc. cbn [app].
  apply IH. by apply count_year_step.
Qed.

Lemma counts_years_empty : counts_years ∅ [].
Proof.
  intros k v. rewrite lookup_empty. split; [done|].
  intros (z & _ & _ & _ & Hpos). unfold occurrences, count_rows in Hpos.
  cbn in Hpos. lia.
Qed.

Lemma occurrences_app y keys1 keys2 :
  occurrences y (keys1 ++ keys2) = occurrences y keys1 + occurrences y keys2.
Proof.
  unfold occurrences, count_rows. rewrite filter_app, length_app. lia.
Qed.

(** The counting loop of the unfiltered fallback counts the years from 2024
    on. *)
Lemma fallback_yearData_counts db :
  counts_years (fallback_yearData db)
    (RSY_YEAR <$>
       filter (fun p => sql_year_ge_2024 (RSY_YEAR p) = true)
         (Basic_Project_Info db)).
Proof.
  unfold fallback_yearData.
  set (ps := filter _ (Basic_Project_Info db)).
  assert (Forall (fun p => RSY_YEAR p <> Some 0) ps) as Hall.
  { apply Forall_forall. intros p Hp.
    apply list_elem_of_filter in Hp as [Hge _]. intros Hy.
    rewrite Hy in Hge. done. }
  pose proof (count_year_loop ps ∅ [] Hall counts_years_empty) as H.
  eapply counts_years_keys; [|exact H].
  intros z _. by rewrite app_nil_r, occurrences_reverse.
Qed.

Ltac group_entry_cases :=
  intros [[z|] n];
  unfold year_entry, group_entry, year_row, view_year_row, or, truthy; cbn;
  [| reflexivity];
  destruct (Z.eqb_spec z 0), (Z.eqb_spec n 0); subst; cbn;
  repeat case_bool_decide; try done;
  repeat match goal with
    | |- context [Z.eqb ?a 0] => destruct (Z.eqb_spec a 0); try lia
    end;
  cbn; repeat case_bool_decide; done.

Lemma entry_unfiltered_year_row g :
  year_entry
    (or (prop "YEAR" (year_row g)) (prop "year" (year_row g)))
    (or (prop "record_count" (year_row g))
        (or (prop "RECORD_COUNT" (year_row g)) (prop "count" (year_row g))))
  = group_entry g.
Proof. revert g. group_entry_cases. Qed.

Lemma entry_byDistrict_year_row g :
  year_entry
    (or (prop "RSY_YEAR" (year_row g))
        (or (prop "YEAR" (year_row g)) (prop "year" (year_row g))))
    (or (prop "total_projects" (year_row g))
        (or (prop "record_count" (year_row g))
            (or (prop "RECORD_COUNT" (year_row g))
                (or (prop "count" (year_row g)) (prop "Count" (year_row g))))))
  = group_entry g.
Proof. revert g. group_entry_cases. Qed.

Lemma entry_byCounty_year_row g :
  year_entry
    (or (prop "RSY_YEAR" (year_row g))
        (or (prop "YEAR" (year_row g)) (prop "year" (year_row g))))
    (or (prop "total_projects" (year_row g))
        (or (prop "record_count" (year_row g))
            (or (prop "RECORD_COUNT" (year_row g)) (prop "count" (year_row g)))))
  = group_entry g.
Proof. revert g. group_entry_cases. Qed.

Lemma entry_byDistrict_view_row k g :
  let row := view_year_row "DISTRICT" k g in
  year_entry
    (or (prop "RSY_YEAR" row) (or (prop "YEAR" row) (prop "year" row)))
    (or (prop "total_projects" row)
        (or (prop "record_count" row)
            (or (prop "RECORD_COUNT" row)
                (or (prop "count" row) (prop "Count" row)))))
  = group_entry g.
Proof. revert g. group_entry_cases. Qed.

Lemma entry_byCounty_view_row k g :
  let row := view_year_row "COUNTY" k g in
  year_entry
    (or (prop "RSY_YEAR" row) (or (prop "YEAR" row) (prop "year" row)))
    (or (prop "total_projects" row)
        (or (prop "record_count" row)
            (or (prop "RECORD_COUNT" row) (prop "count" row))))
  = group_entry g.
Proof. revert g. group_entry_cases. Qed.

Lemma year_count_rows_format selected :
  year_count_rows selected = year_row <$> group_count (RSY_YEAR <$> selected).
Proof.
  unfold year_count_rows. apply list_fmap_ext. by intros ? [y n].
Qed.

(** The row objects of the year views as specified. *)
Lemma view_ProjectCount_Year_rows base :
  view_rows (view_ProjectCount_Year base) = year_count_rows base.
Proof.
  unfold view_rows, view_ProjectCount_Year, year_count_rows.
  cbn [view_columns view_tuples]. rewrite <- list_fmap_compose.
  apply list_fmap_ext. by intros ? [y n].
Qed.

Lemma fmap_of_bind {A B C} (f : B -> C) (g : A -> list B) (l : list A) :
  f <$> (l ≫= g) = l ≫= (fun x => f <$> g x).
Proof.
  induction l as [|x l IH]; [done|].
  by rewrite !bind_cons, fmap_app, IH.
Qed.

Lemma view_ProjectYears_By_format column key base :
  view_rows (view_ProjectYears_By column key base)
  = k ← remove_dups (key <$> base);
    view_year_row column k
      <$> group_count (RSY_YEAR <$> filter (fun p => key p = k) base).
Proof.
  unfold view_rows, view_ProjectYears_By. cbn [view_columns view_tuples].
  rewrite fmap_of_bind. apply list_bind_ext; [|done].
  intros k. rewrite <- list_fmap_compose.
  apply list_fmap_ext. by intros ? [y n].
Qed.

(** The statements over the year views as specified find their columns. *)
Lemma select_ProjectCount_Year base :
  select_order_by (Some (view_ProjectCount_Year base)) "YEAR"
  = Some (sql_order_by "YEAR" (year_count_rows base)).
Proof. by rewrite <- view_ProjectCount_Year_rows. Qed.

Lemma select_ProjectYears_By column key base param :
  column = "DISTRICT" \/ column = "COUNTY" ->
  select_where_order_by (Some (view_ProjectYears_By column key base))
    column param "RSY_YEAR"
  = Some (sql_order_by "RSY_YEAR"
            (filter (fun r => sql_value_eq (prop column r) param = true)
               (view_rows (view_ProjectYears_By column key base)))).
Proof. by intros [->| ->]. Qed.

Lemma select_block {A B} `{EqDecision A} (l : list A) (a : A)
    (block : A -> list B) :
  NoDup l ->
  (x ← l; if decide (x = a) then block x else [])
  = if decide (a ∈ l) then block a else [].
Proof.
  induction 1 as [|x l Hx Hnd IH]; [done|].
  rewrite bind_cons, IH. destruct (decide (x = a)) as [->|Hne].
  - rewrite (decide_False (P := a ∈ l)) by done.
    rewrite (decide_True (P := a ∈ a :: l)) by left.
    by rewrite app_nil_r.
  - cbn [app]. destruct (decide (a ∈ l)) as [Hin|Hnin].
    + by rewrite (decide_True (P := a ∈ x :: l)) by (by right).
    + rewrite (decide_False (P := a ∈ x :: l)); [done|].
      rewrite elem_of_cons. intros [->|?]; done.
Qed.

Lemma filter_bind {A B} (P : B -> Prop) `{forall x, Decision (P x)}
    (l : list A) (f : A -> list B) :
  filter P (l ≫= f) = l ≫= (fun x => filter P (f x)).
Proof.
  induction l as [|x l IH]; [done|].
  by rewrite !bind_cons, filter_app, IH.
Qed.

Lemma prop_view_year_row column k g :
  prop column (view_year_row column k g) = of_text k.
Proof. unfold view_year_row. cbn [prop]. by rewrite String.eqb_refl. Qed.

(** The rows of a by-key year view that [WHERE column = ?] keeps: the
    year groups of the projects with that key. *)
Lemma view_rows_for column key base param :
  filter (fun r => sql_value_eq (prop column r) param = true)
    (view_rows (view_ProjectYears_By column key base))
  = view_year_row column (Some param)
      <$> group_count
            (RSY_YEAR <$> filter (fun p => key p = Some param) base).
Proof.
  rewrite view_ProjectYears_By_format, filter_bind.
  set (block k := view_year_row column k
         <$> group_count (RSY_YEAR <$> filter (fun p => key p = k) base)).
  transitivity (k ← remove_dups (key <$> base);
                if decide (k = Some param) then block k else []).
  - apply list_bind_ext; [|done]. intros k.
    destruct (decide (k = Some param)) as [->|Hne].
    + apply filter_all with
        (Q := fun r => sql_value_eq (prop column r) param).
      apply Forall_forall. intros r Hr.
      apply list_elem_of_fmap in Hr as (g & -> & _).
      rewrite prop_view_year_row. cbn. apply String.eqb_refl.
    + apply filter_none with
        (Q := fun r => sql_value_eq (prop column r) param).
      apply Forall_forall. intros r Hr.
      apply list_elem_of_fmap in Hr as (g & -> & _).
      rewrite prop_view_year_row.
      destruct k as [k|]; cbn; [|done].
      apply String.eqb_neq. congruence.
  - rewrite select_block by apply NoDup_remove_dups.
    destruct (decide (Some param ∈ remove_dups (key <$> base))) as [|Hnin];
      [done|].
    rewrite elem_of_remove_dups in Hnin.
    assert (filter (fun p => key p = Some param) base = []) as ->; [|done].
    destruct (filter _ base) as [|p l] eqn:E; [done|].
    assert (p ∈ filter (fun p => key p = Some param) base) as Hp
      by (rewrite E; left).
    apply list_elem_of_filter in Hp as [Hk Hin].
    exfalso. apply Hnin. apply list_elem_of_fmap. by exists p.
Qed.

(** ** The two paths of the counts-by-year query *)

Lemma sql_text_eq_iff c param : sql_text_eq c param = true <-> c = Some param.
Proof.
  destruct c as [c|]; cbn; [|done].
  rewrite String.eqb_eq. split; congruence.
Qed.

(** With the by-key view as specified, the rows of the view for a key and
    the rows the fallback aggregates for it convert to the same
    [yearData], provided no project with that key has a year before
    2024. *)
Lemma by_key_yearData (entry : Row -> option (string * value))
    column key base param :
  (forall k g, entry (view_year_row column k g) = group_entry g) ->
  (forall g, entry (year_row g) = group_entry g) ->
  (forall p y, p ∈ base -> key p = Some param -> RSY_YEAR p = Some y ->
               2024 <= y) ->
  foldl (fun yearData '(k, v) => <[k := v]> yearData) (∅ : YearData)
    (omap entry
       (sql_order_by "RSY_YEAR"
          (filter (fun r => sql_value_eq (prop column r) param = true)
             (view_rows (view_ProjectYears_By column key base)))))
  = foldl (fun yearData '(k, v) => <[k := v]> yearData) ∅
      (omap entry
         (year_count_rows
            (filter
               (fun p => sql_text_eq (key p) param
                         && sql_year_ge_2024 (RSY_YEAR p) = true)
               base))).
Proof.
  intros Hview Hrow H.
  set (sel p := sql_text_eq (key p) param).
  eapply counts_years_unique.
  - apply (counts_years_keys _
             (RSY_YEAR <$> filter (fun p => sel p = true) base)).
    { intros z _. apply occurrences_from_2024.
      intros p y Hin Hsel. apply (H p y Hin). by apply sql_text_eq_iff. }
    apply (counts_years_of_groups entry (view_year_row column (Some param)));
      [apply Hview|].
    unfold sql_order_by. rewrite merge_sort_Permutation, view_rows_for.
    assert (filter (fun p => key p = Some param) base
            = filter (fun p => sel p = true) base) as ->; [|done].
    apply list_filter_iff. intros p. unfold sel.
    by rewrite sql_text_eq_iff.
  - apply (counts_years_of_groups entry year_row); [apply Hrow|].
    by rewrite year_count_rows_format.
Qed.

Lemma yearData_byDistrict_agree db fd :
  (forall p y, p ∈ Basic_Project_Info db -> DISTRICT p = Some fd ->
               RSY_YEAR p = Some y -> 2024 <= y) ->
  yearData_byDistrict (year_rows_byDistrict (with_views db) fd)
  = yearData_byDistrict (year_rows_byDistrict (without_views db) fd).
Proof.
  intros H. unfold yearData_byDistrict. rewrite !fold_record_year.
  unfold year_rows_byDistrict, with_views, without_views.
  cbn [ProjectYears_ByDistrict with_year_views Basic_Project_Info].
  unfold view_ProjectYears_ByDistrict.
  rewrite select_ProjectYears_By by (by left).
  change (select_where_order_by None "DISTRICT" fd "RSY_YEAR")
    with (@None (list Row)).
  apply (by_key_yearData _ "DISTRICT" DISTRICT); [| |exact H].
  - intros k g. apply (entry_byDistrict_view_row k g).
  - apply entry_byDistrict_year_row.
Qed.

Lemma yearData_byCounty_agree db c :
  (forall p y, p ∈ Basic_Project_Info db -> COUNTY p = Some c ->
               RSY_YEAR p = Some y -> 2024 <= y) ->
  yearData_byCounty (year_rows_byCounty (with_views db) c)
  = yearData_byCounty (year_rows_byCounty (without_views db) c).
Proof.
  intros H. unfold yearData_byCounty. rewrite !fold_record_year.
  unfold year_rows_byCounty, with_views, without_views.
  cbn [ProjectYears_ByCounty with_year_views Basic_Project_Info].
  unfold view_ProjectYears_ByCounty.
  rewrite select_ProjectYears_By by (by right).
  change (select_where_order_by None "COUNTY" c "RSY_YEAR")
    with (@None (list Row)).
  apply (by_key_yearData _ "COUNTY" COUNTY); [| |exact H].
  - intros k g. apply (entry_byCounty_view_row k g).
  - apply entry_byCounty_year_row.
Qed.

Lemma years_all_agree db :
  (forall p y, p ∈ Basic_Project_Info db -> RSY_YEAR p = Some y -> 2024 <= y) ->
  years_all (with_views db) = years_all (without_views db).
Proof.
  intros H. unfold years_all, with_views, without_views.
  cbn [ProjectCount_Year with_year_views].
  set (base := Basic_Project_Info db).
  rewrite select_ProjectCount_Year.
  change (select_order_by None "YEAR") with (@None (list Row)).
  assert (yearData_unfiltered
            (sql_order_by "YEAR" (year_count_rows base))
          = fallback_yearData (with_year_views db None None None)) as Heq.
  { eapply counts_years_unique.
    - unfold yearData_unfiltered. rewrite fold_record_year.
      apply (counts_years_of_groups _ year_row _ (RSY_YEAR <$> base));
        [apply entry_unfiltered_year_row|].
      unfold sql_order_by.
      by rewrite merge_sort_Permutation, year_count_rows_format.
    - eapply counts_years_keys; [|apply fallback_yearData_counts].
      intros z _. cbn. fold base.
      pose proof (occurrences_from_2024 (fun _ => true) base z
                    (fun p y Hin _ => H p y Hin)) as E.
      symmetry. etransitivity; [|exact E].
      f_equal. f_equal. clear. induction base as [|p base IH]; [done|].
      rewrite filter_cons, decide_True by done. by rewrite <-IH. }
  rewrite <-Heq.
  destruct (sql_order_by "YEAR" (year_count_rows base)) eqn:Hrows;
    [|done].
  by cbn.
Qed.

Lemma years_chart_sorted (m : YearData) : Sorted String.le (years_chart m).*1.
Proof.
  unfold years_chart.
  assert (forall l : list string,
            ((fun year => (year, default undefined (m !! year))) <$> l).*1 = l)
    as Hfst.
  { induction l as [|y l IH]; [done|]. cbn. by rewrite IH. }
  rewrite Hfst. apply (Sorted_merge_sort String.le).
Qed.

Lemma chart_sorted_show_years years s :
  chart_sorted s -> chart_sorted (show_years years s).
Proof.
  intros H. destruct years as [m|]; [|exact H].
  apply years_chart_sorted.
Qed.

Lemma chart_show_years_database years db1 db2 s :
  projectYearsChart (show_years years (set_database db1 s))
  = projectYearsChart (show_years years (set_database db2 s)).
Proof. by destruct years. Qed.

Lemma loader_with_database load db s :
  with_database load (set_database (Some db) s)
  = load db (set_database (Some db) s).
Proof. reflexivity. Qed.

Lemma String_ltb_le s1 s2 : String.ltb s1 s2 = true -> String.le s1 s2.
Proof.
  unfold String.le, String.leb, String.ltb.
  by destruct (String.compare s1 s2).
Qed.

Lemma pretty_four_digits_step z :
  1000 <= z < 9999 -> String.le (pretty z) (pretty (z + 1)).
Proof.
  intros Hz. apply String_ltb_le.
  assert (forallb (fun z => String.ltb (pretty z) (pretty (z + 1)))
            (seqZ 1000 8999) = true) as Hall
    by (vm_compute; reflexivity).
  rewrite forallb_forall in Hall. apply Hall.
  apply list_elem_of_In, elem_of_seqZ. lia.
Qed.

Lemma pretty_four_digits_mono a b :
  1000 <= a -> a <= b -> b <= 9999 -> String.le (pretty a) (pretty b).
Proof.
  intros Ha Hab Hb.
  assert (forall n : nat,
            a + Z.of_nat n <= 9999 ->
            String.le (pretty a) (pretty (a + Z.of_nat n))) as H.
  { induction n as [|n IH]; intros Hn.
    - rewrite Z.add_0_r. reflexivity.
    - etransitivity; [apply IH; lia|].
      replace (a + Z.of_nat (S n)) with (a + Z.of_nat n + 1) by lia.
      apply pretty_four_digits_step. lia. }
  specialize (H (Z.to_nat (b - a))).
  replace (a + Z.of_nat (Z.to_nat (b - a))) with b in H by lia.
  apply H. lia.
Qed.

(** For four-digit years the string order of the labels is the order of
    the years. *)
Lemma pretty_four_digits_le a b :
  1000 <= a <= 9999 -> 1000 <= b <= 9999 ->
  String.le (pretty a) (pretty b) <-> a <= b.
Proof.
  intros Ha Hb. split.
  - intros Hle. destruct (Z.le_gt_cases a b) as [|Hgt]; [done|].
    assert (String.le (pretty b) (pretty a)) as Hge
      by (apply pretty_four_digits_mono; lia).
    assert (pretty a = pretty b) as Heq by (by apply (anti_symm String.le)).
    apply (inj pretty) in Heq. lia.
  - intros Hab. apply pretty_four_digits_mono; lia.
Qed.

(** C5, as the script has it, against the views as specified.  For the
    unfiltered, the by-district and the by-county query, the chart drawn
    from the pre-aggregated view and the chart drawn by the fallback over
    the base table are the same when no project the filter selects has a
    plan year before 2024 (the fallback statements keep [RSY_YEAR >= 2024]
    only).  Every chart the year loaders draw has its labels in increasing
    string order, which for four-digit years is the order of the years. *)
Theorem year_series_paths_agree_from_2024 (db : Database) (s : Dashboard) :
  let base := Basic_Project_Info db in
  let sv := set_database (Some (with_views db)) s in
  let sf := set_database (Some (without_views db)) s in
  ((forall p y, p ∈ base -> RSY_YEAR p = Some y -> 2024 <= y) ->
   projectYearsChart (loadProjectCountByYear sv)
   = projectYearsChart (loadProjectCountByYear sf))
  /\ (forall d,
        (forall fd p y,
           formattedDistrict d = Some fd -> p ∈ base ->
           DISTRICT p = Some fd -> RSY_YEAR p = Some y -> 2024 <= y) ->
        projectYearsChart (loadFilteredProjectCountByYear d sv)
        = projectYearsChart (loadFilteredProjectCountByYear d sf))
  /\ (forall c,
        (forall p y,
           p ∈ base -> COUNTY p = Some c -> RSY_YEAR p = Some y ->
           2024 <= y) ->
        projectYearsChart (loadFilteredProjectCountByYearByCounty c sv)
        = projectYearsChart (loadFilteredProjectCountByYearByCounty c sf))
  /\ (chart_sorted s ->
      forall s', s' = sv \/ s' = sf ->
        chart_sorted (loadProjectCountByYear s')
        /\ (forall d, chart_sorted (loadFilteredProjectCountByYear d s'))
        /\ (forall c, chart_sorted (loadFilteredProjectCountByYearByCounty c s'))
        /\ (forall t,
              chart_sorted (loadFilteredProjectCountByYearByProjectType t s')))
  /\ (forall a b,
        1000 <= a <= 9999 -> 1000 <= b <= 9999 ->
        String.le (pretty a) (pretty b) <-> a <= b).
Proof.
  cbv zeta. split_and!.
  - intros H. unfold loadProjectCountByYear.
    rewrite !loader_with_database, (years_all_agree db H).
    apply chart_show_years_database.
  - intros d H. unfold loadFilteredProjectCountByYear.
    rewrite !loader_with_database. unfold years_byDistrict.
    destruct (formattedDistrict d) as [fd|] eqn:Hfd; [|reflexivity].
    cbn [fmap option_fmap option_map].
    rewrite (yearData_byDistrict_agree db fd (fun p y => H fd p y eq_refl)).
    apply chart_show_years_database.
  - intros c H. unfold loadFilteredProjectCountByYearByCounty.
    rewrite !loader_with_database. unfold years_byCounty.
    rewrite (yearData_byCounty_agree db c H).
    apply chart_show_years_database.
  - intros Hs s' Hs'.
    assert (chart_sorted s') as Hsorted by (by destruct Hs' as [->| ->]).
    assert (forall load : Database -> option YearData,
              chart_sorted (with_database (fun db => show_years (load db)) s'))
      as Hload.
    { intros load. unfold with_database.
      destruct (database s'); [|done]. by apply chart_sorted_show_years. }
    split_and!; intros; apply Hload.
  - apply pretty_four_digits_le.
Qed.

(** C5 on a snapshot whose projects are all from 2024 on: under the
    district filter 7, the view and the fallback draw the same chart. *)
Lemma year_series_paths_agree_from_2024_witness :
  let s := Fixture.loaded Fixture.recent_db in
  projectYearsChart
    (loadFilteredProjectCountByYear (num 7)
       (set_database (Some (with_views Fixture.recent_db)) s))
  = projectYearsChart
      (loadFilteredProjectCountByYear (num 7)
         (set_database (Some (without_views Fixture.recent_db)) s)).
Proof.
  intros s.
  pose proof (year_series_paths_agree_from_2024 Fixture.recent_db s) as H.
  cbv zeta in H. destruct H as (_ & Hdistrict & _).
  apply Hdistrict. intros fd p y _ Hin _ Hy.
  unfold Fixture.recent_db, Fixture.recent_projects in Hin.
  cbn [Basic_Project_Info] in Hin.
  rewrite !elem_of_cons, elem_of_nil in Hin.
  destruct Hin as [->|[->|[->|[]]]]; cbn in Hy; injection Hy as <-; lia.
Defined.

(** C5 fails as stated, on the fixture, which has a project of 2023 in
    District 07: with the views as specified, the chart drawn from the view
    shows 2023 and the chart drawn by the fallback does not, by district and
    unfiltered alike. *)
Lemma year_series_paths_differ :
  let sv := Fixture.loaded (with_views Fixture.db) in
  let sf := Fixture.loaded (without_views Fixture.db) in
  projectYearsChart (loadFilteredProjectCountByYear (num 7) sv)
  = [("2023", num 1); ("2025", num 1)]
  /\ projectYearsChart (loadFilteredProjectCountByYear (num 7) sf)
     = [("2025", num 1)]
  /\ projectYearsChart (loadProjectCountByYear sv)
     = [("2023", num 1); ("2025", num 1); ("2026", num 1)]
  /\ projectYearsChart (loadProjectCountByYear sf)
     = [("2025", num 1); ("2026", num 1)].
Proof. cbv zeta. split_and!; vm_compute; reflexivity. Qed.

(** ** The county menu *)

Lemma truthy_str s : truthy (str s) = negb (String.eqb s "").
Proof. reflexivity. Qed.

Lemma county_rows_elem db c :
  c ∈ county_rows db
  <-> c <> "" /\ exists p, p ∈ Basic_Project_Info db /\ COUNTY p = Some c.
Proof.
  unfold county_rows.
  rewrite merge_sort_Permutation, elem_of_remove_dups, list_elem_of_filter,
    list_elem_of_omap.
  rewrite negb_true_iff, String.eqb_neq. done.
Qed.

Lemma counties_rows db : counties db = county_rows db.
Proof.
  unfold counties. apply filter_all, Forall_forall.
  intros c [Hc _]%county_rows_elem.
  rewrite truthy_str, andb_diag.
  by apply negb_true_iff, String.eqb_neq.
Qed.

(** X1.  The county menu lists, in increasing order and each once, exactly
    the non-empty county names that occur in [Basic_Project_Info]. *)
Theorem county_menu_lists_the_counties_of_the_data (db : Database) :
  Sorted String.le (counties db)
  /\ NoDup (counties db)
  /\ forall c,
       c ∈ counties db
       <-> c <> "" /\ exists p, p ∈ Basic_Project_Info db /\ COUNTY p = Some c.
Proof.
  rewrite counties_rows. split_and!.
  - apply (Sorted_merge_sort String.le).
  - unfold county_rows. rewrite merge_sort_Permutation. apply NoDup_remove_dups.
  - apply county_rows_elem.
Qed.

(** X2.  The search box of the county menu.  An empty term lists every
    county; whatever is typed, the counties listed are among those of the
    menu, in the same order, and are those whose name contains the term,
    letter case aside; a county's own name, in any letter case, keeps it
    listed. *)
Theorem county_search_is_case_blind_containment (listed : list string)
    (term : string) :
  searchCounties "" listed = listed
  /\ searchCounties term listed `sublist_of` listed
  /\ searchCounties (toUpperCase term) listed = searchCounties term listed
  /\ searchCounties (toLowerCase term) listed = searchCounties term listed
  /\ (forall c,
        c ∈ searchCounties term listed
        <-> c ∈ listed
            /\ exists pre post,
                 toLowerCase c = pre +:+ toLowerCase term +:+ post)
  /\ (forall c,
        c ∈ listed ->
        c ∈ searchCounties c listed
        /\ c ∈ searchCounties (toUpperCase c) listed
        /\ c ∈ searchCounties (toLowerCase c) listed).
Proof.
  unfold searchCounties. split_and!.
  - apply filter_all, Forall_forall. intros c _. apply includes_empty.
  - apply sublist_filter.
  - by rewrite toLowerCase_toUpperCase.
  - by rewrite toLowerCase_idem.
  - intros c. by rewrite list_elem_of_filter, includes_spec, (comm and).
  - intros c Hc. rewrite !list_elem_of_filter.
    rewrite toLowerCase_toUpperCase, toLowerCase_idem.
    auto using includes_refl.
Qed.

(** X2 on the two counties of the fixture. *)
Lemma county_search_is_case_blind_containment_witness :
  searchCounties "FAY" ["Fayette"; "Jefferson"] = ["Fayette"]
  /\ "Jefferson" ∈ searchCounties "JEFFERSON" ["Fayette"; "Jefferson"].
Proof.
  split; [vm_compute; reflexivity|].
  apply (proj2 (proj2 (proj2 (proj2 (proj2
           (county_search_is_case_blind_containment
              ["Fayette"; "Jefferson"] "")))))).
  right. left.
Defined.

(** ** Handlers as a preparation followed by a load *)

Lemma dashboard_ext s1 s2 :
  frame s1 = frame s2 -> outputs s1 = outputs s2 -> s1 = s2.
Proof.
  destruct s1, s2. unfold frame, outputs. cbn.
  intros [= -> -> -> -> -> -> -> -> -> ->] [= -> -> ->]. reflexivity.
Qed.

Lemma frame_step_compose P Q :
  frame_step P -> frame_step Q -> frame_step (fun s => Q (P s)).
Proof.
  intros [HP1 HP2] [HQ1 HQ2]. split.
  - intros s1 s2 H. apply HQ1, HP1, H.
  - intros s. by rewrite HQ2, HP2.
Qed.

Ltac frame_step_by_cases :=
  split;
  [ intros [] []; unfold frame; cbn;
    intros [= -> -> -> -> -> -> -> -> -> ->]; reflexivity
  | intros []; reflexivity ].

Lemma frame_step_set_district v : frame_step (set_district v).
Proof. frame_step_by_cases. Qed.

Lemma frame_step_set_county c : frame_step (set_county c).
Proof. frame_step_by_cases. Qed.

Lemma frame_step_set_projectType t : frame_step (set_projectType t).
Proof. frame_step_by_cases. Qed.

Lemma frame_step_updatePanelTitles : frame_step updatePanelTitles.
Proof. frame_step_by_cases. Qed.

Lemma frame_step_zoomToCounty c :
  frame_step (fun s => default s (zoomToCounty c s)).
Proof.
  split.
  - intros [] []; unfold frame, zoomToCounty, fitBounds; cbn.
    intros [= -> -> -> -> -> -> -> -> -> ->]. by repeat case_match.
  - intros []. unfold zoomToCounty, fitBounds. by repeat case_match.
Qed.

Lemma frame_step_resetMapView : frame_step resetMapView.
Proof.
  split.
  - intros [] []; unfold frame, resetMapView; cbn.
    intros [= -> -> -> -> -> -> -> -> -> ->]. by case_match.
  - intros []. unfold resetMapView. by case_match.
Qed.

(** After a preparation that is idempotent on the frame and a load that
    leaves the frame alone, preparing again changes nothing. *)
Lemma prepare_again P L s :
  frame_step P ->
  (forall s, frame (P (P s)) = frame (P s)) ->
  (forall s, frame (L s) = frame s) ->
  P (L (P s)) = L (P s).
Proof.
  intros [HP1 HP2] HPP HL. apply dashboard_ext.
  - rewrite (HP1 _ (P s)) by apply HL. by rewrite HPP, HL.
  - apply HP2.
Qed.

Lemma handler_idem P L s :
  frame_step P ->
  (forall s, frame (P (P s)) = frame (P s)) ->
  (forall s, frame (L s) = frame s) ->
  (forall s, L (L s) = L s) ->
  L (P (L (P s))) = L (P s).
Proof. intros HP HPP HL HLL. by rewrite (prepare_again P L s), HLL. Qed.

(** ** What a filtered load shows *)

Lemma load_byCounty_shape db c s :
  database s = Some db ->
  load_byCounty c s
  = load_filtered_rows (rows_byCounty db c)
      (createProjectYearsChart (years_byCounty db c)
         (set_counts (awarded_byCounty db c) s)).
Proof.
  intros Hdb. unfold load_byCounty, loadFilteredProjectsAwardedDataByCounty,
    loadFilteredProjectCountByYearByCounty,
    loadFilteredBasicProjectInfoByCounty.
  rewrite with_database_3, Hdb; auto using frame_show_counts, frame_show_years.
Qed.

Lemma load_byDistrict_shape db d s :
  database s = Some db ->
  load_byDistrict d s
  = show_rows (table_rows_byDistrict db d)
      (show_years (years_byDistrict db d)
         (show_counts (awarded_byDistrict db d) s)).
Proof.
  intros Hdb. unfold load_byDistrict, loadFilteredProjectsAwardedData,
    loadFilteredProjectCountByYear, loadFilteredBasicProjectInfo.
  rewrite with_database_3, Hdb; auto using frame_show_counts, frame_show_years.
Qed.

Lemma load_byProjectType_shape db t s :
  database s = Some db ->
  load_byProjectType t s
  = load_filtered_rows (rows_byProjectType db t)
      (createProjectYearsChart (years_byProjectType db t)
         (set_counts {| awarded := (awarded_byProjectType db t).1;
                        current := (awarded_byProjectType db t).2 |} s)).
Proof.
  intros Hdb. unfold load_byProjectType.
  rewrite loadFilteredProjectsAwardedDataByProjectType_counts.
  unfold loadFilteredProjectCountByYearByProjectType,
    loadFilteredBasicProjectInfoByProjectType.
  rewrite with_database_3, Hdb; auto using frame_show_counts, frame_show_years.
Qed.

Lemma data_show_filtered_rows rows t : data (show_filtered_rows rows t) = rows.
Proof. by destruct rows. Qed.

Lemma table_load_filtered_rows rows s :
  highwayProjectsTable (load_filtered_rows rows s)
  = Some (show_filtered_rows rows (default initialTable (highwayProjectsTable s))).
Proof. by destruct s. Qed.

Lemma database_updatePanelTitles s : database (updatePanelTitles s) = database s.
Proof. reflexivity. Qed.

Lemma database_zoomToCounty c s s' :
  zoomToCounty c s = Some s' -> database s' = database s.
Proof. by intros ->%zoomToCounty_Some. Qed.

Lemma outputs_zoomToCounty c s s' :
  zoomToCounty c s = Some s' -> outputs s' = outputs s.
Proof. by intros ->%zoomToCounty_Some. Qed.

(** [zoomToCounty] throws exactly when the lookup under the four spellings
    stops at an inherited member. *)
Lemma zoomToCounty_None c s :
  zoomToCounty c s = None <-> foundLayer c (countyLayers s) = inherited.
Proof.
  unfold zoomToCounty.
  destruct (foundLayer c (countyLayers s)) eqn:Hfound; cbn; [done|done|].
  split; [|done].
  destruct (partialMatches c (countyLayers s)) as [|key rest] eqn:Hpm; [done|].
  destruct (layer_at_elem key (countyLayers s)) as [layer Hlayer].
  { assert (key ∈ partialMatches c (countyLayers s)) as Hkey
      by (rewrite Hpm; left).
    by apply list_elem_of_filter in Hkey as [_ Hkey]. }
  by rewrite (member_at_stored _ _ _ Hlayer).
Qed.

Lemma zoomToCounty_layer c s :
  foundLayer c (countyLayers s) <> inherited ->
  zoomToCounty c s
  = Some match county_layer_for c (countyLayers s) with
         | Some layer => set_mapView (FitBounds layer) s
         | None => s
         end.
Proof.
  intros Hfound. unfold zoomToCounty, county_layer_for.
  destruct (foundLayer c (countyLayers s)) eqn:Hl; [done|done|].
  destruct (partialMatches c (countyLayers s)) as [|key rest] eqn:Hpm; [done|].
  destruct (layer_at_elem key (countyLayers s)) as [layer Hlayer].
  { assert (key ∈ partialMatches c (countyLayers s)) as Hkey
      by (rewrite Hpm; left).
    by apply list_elem_of_filter in Hkey as [_ Hkey]. }
  cbn. by rewrite (member_at_stored _ _ _ Hlayer), Hlayer.
Qed.

Lemma zoomToCounty_returns c s :
  foundLayer c (countyLayers s) <> inherited -> is_Some (zoomToCounty c s).
Proof.
  intros Hfound. destruct (zoomToCounty c s) eqn:Hz; [eauto|].
  by apply zoomToCounty_None in Hz.
Qed.

Lemma applyCountyFilter_returns c s :
  foundLayer c (countyLayers s) <> inherited ->
  applyCountyFilter c s = load_byCounty c (prepare_county c s).
Proof.
  intros Hfound. unfold applyCountyFilter, prepare_county. cbv zeta.
  destruct (zoomToCounty_returns c (updatePanelTitles (set_county (Some c) s)))
    as [s2 ->]; done.
Qed.

Lemma applyCountyFilter_stops c s :
  foundLayer c (countyLayers s) = inherited ->
  applyCountyFilter c s = updatePanelTitles (set_county (Some c) s)
  /\ prepare_county c s = updatePanelTitles (set_county (Some c) s).
Proof.
  intros Hfound. unfold applyCountyFilter, prepare_county. cbv zeta.
  by rewrite (proj2 (zoomToCounty_None c
                       (updatePanelTitles (set_county (Some c) s))) Hfound).
Qed.

Lemma database_prepare_county c s : database (prepare_county c s) = database s.
Proof.
  unfold prepare_county. cbv zeta.
  destruct (zoomToCounty c _) as [s2|] eqn:Hz; [|done].
  exact (database_zoomToCounty _ _ _ Hz).
Qed.

Lemma outputs_prepare_county c s : outputs (prepare_county c s) = outputs s.
Proof.
  unfold prepare_county. cbv zeta.
  destruct (zoomToCounty c _) as [s2|] eqn:Hz; [|done].
  exact (outputs_zoomToCounty _ _ _ Hz).
Qed.

Lemma database_resetMapView s : database (resetMapView s) = database s.
Proof. unfold resetMapView. by case_match. Qed.

Lemma database_zoomToDistrict d s s' :
  zoomToDistrict d s = Some s' -> database s' = database s.
Proof. by intros ->%zoomToDistrict_Some. Qed.

Lemma outputs_zoomToDistrict d s s' :
  zoomToDistrict d s = Some s' -> outputs s' = outputs s.
Proof. by intros ->%zoomToDistrict_Some. Qed.

(** [zoomToDistrict] throws exactly when [districtNumber] has no [toString]
    or the lookup stops at an inherited member. *)
Lemma zoomToDistrict_None d s :
  zoomToDistrict d s = None
  <-> toString_method d = None
      \/ exists k, toString_method d = Some k
                   /\ foundDistrict d k (districtLayers s) = inherited.
Proof.
  unfold zoomToDistrict.
  destruct (toString_method d) as [k|]; cbn; [|by split; [left|]].
  destruct (foundDistrict d k (districtLayers s)) eqn:Hfound; cbn.
  - split; [done|]. intros [?|(k' & ? & ?)]; congruence.
  - split; [right; eauto | done].
  - split; [done|]. intros [?|(k' & ? & ?)]; congruence.
Qed.

Lemma zoomToDistrict_returns d k s :
  toString_method d = Some k ->
  foundDistrict d k (districtLayers s) <> inherited ->
  is_Some (zoomToDistrict d s).
Proof.
  intros Hk Hfound. destruct (zoomToDistrict d s) eqn:Hz; [eauto|].
  apply zoomToDistrict_None in Hz as [Hz|(k' & Hk' & Hz)]; congruence.
Qed.

Lemma applyCountyFilter_shape db c s :
  database s = Some db ->
  foundLayer c (countyLayers s) <> inherited ->
  applyCountyFilter c s
  = load_filtered_rows (rows_byCounty db c)
      (createProjectYearsChart (years_byCounty db c)
         (set_counts (awarded_byCounty db c) (prepare_county c s))).
Proof.
  intros Hdb Hfound. rewrite (applyCountyFilter_returns c s Hfound).
  apply load_byCounty_shape. by rewrite database_prepare_county.
Qed.

Lemma rows_byCounty_all db c r :
  r ∈ rows_byCounty db c -> prop "COUNTY" r = str c.
Proof.
  unfold rows_byCounty. intros Hr%elem_of_take.
  destruct Hr as (i & Hr & _).
  apply list_elem_of_lookup_2 in Hr.
  apply list_elem_of_fmap in Hr as (p & -> & Hp).
  apply list_elem_of_filter in Hp as [Hc _].
  unfold sql_text_eq in Hc. destruct (COUNTY p) as [c'|] eqn:Hp; [|done].
  apply String.eqb_eq in Hc as ->.
  unfold getAsObject. cbn. by rewrite Hp.
Qed.

Lemma take_nonempty {A} (n : nat) (l : list A) :
  (0 < n)%nat -> l <> [] -> take n l <> [].
Proof. destruct n, l; done || lia. Qed.

Lemma county_rows_nonempty db c :
  c ∈ counties db -> rows_byCounty db c <> [].
Proof.
  rewrite counties_rows. intros (_ & p & Hp & Hc)%county_rows_elem.
  unfold rows_byCounty. apply take_nonempty; [lia|].
  intros Hnil%fmap_nil_inv.
  assert (p ∈ filter (fun p => sql_text_eq (COUNTY p) c = true)
                (Basic_Project_Info db)) as Hin.
  { apply list_elem_of_filter. split; [|done].
    unfold sql_text_eq. rewrite Hc. apply String.eqb_refl. }
  rewrite Hnil in Hin. by apply elem_of_nil in Hin.
Qed.

Lemma table_applyCountyFilter db c s :
  database s = Some db ->
  foundLayer c (countyLayers s) <> inherited ->
  exists t,
    highwayProjectsTable (applyCountyFilter c s) = Some t
    /\ data t = rows_byCounty db c.
Proof.
  intros Hdb Hfound. rewrite (applyCountyFilter_shape db c s Hdb Hfound).
  rewrite table_load_filtered_rows. eexists. split; [reflexivity|].
  apply data_show_filtered_rows.
Qed.

(** X3.  Every county the menu offers has projects: once it is selected on
    a loaded snapshot, and the lookup of its name in the county index does
    not stop at a member inherited from [Object.prototype], the table holds
    the rows of that county, and at least one.  Where the lookup does stop
    at an inherited member, [zoomToCounty] throws and the table is left as
    it was. *)
Theorem menu_county_never_shows_an_empty_table (db : Database) (s : Dashboard)
    (c : string) :
  database s = Some db ->
  c ∈ counties db ->
  (foundLayer c (countyLayers s) <> inherited ->
   exists t,
     highwayProjectsTable (applyCountyFilter c s) = Some t
     /\ data t <> []
     /\ forall r, r ∈ data t -> prop "COUNTY" r = str c)
  /\ (foundLayer c (countyLayers s) = inherited ->
      outputs (applyCountyFilter c s) = outputs s).
Proof.
  intros Hdb Hc. split.
  - intros Hfound.
    destruct (table_applyCountyFilter db c s Hdb Hfound) as (t & Ht & Hdata).
    exists t. rewrite Hdata. split_and!; [done| |].
    + by apply county_rows_nonempty.
    + apply rows_byCounty_all.
  - intros Hfound. by rewrite (proj1 (applyCountyFilter_stops c s Hfound)).
Qed.

(** X3 on the fixture: Fayette is on the menu. *)
Lemma menu_county_never_shows_an_empty_table_witness :
  exists t,
    highwayProjectsTable
      (applyCountyFilter "Fayette" (Fixture.loaded Fixture.db)) = Some t
    /\ data t <> []
    /\ forall r, r ∈ data t -> prop "COUNTY" r = str "Fayette".
Proof.
  apply (menu_county_never_shows_an_empty_table Fixture.db);
    [reflexivity| |discriminate].
  assert (counties Fixture.db = ["Fayette"; "Jefferson"]) as ->
    by (vm_compute; reflexivity).
  left.
Defined.

Lemma rows_byDistrict_all db fd r :
  r ∈ rows_byDistrict db fd -> prop "DISTRICT" r = str fd.
Proof.
  unfold rows_byDistrict. intros Hr%elem_of_take.
  destruct Hr as (i & Hr & _).
  apply list_elem_of_lookup_2 in Hr.
  apply list_elem_of_fmap in Hr as (p & -> & Hp).
  apply list_elem_of_filter in Hp as [Hc _].
  unfold sql_text_eq in Hc. destruct (DISTRICT p) as [d'|] eqn:Hp; [|done].
  apply String.eqb_eq in Hc as ->.
  unfold getAsObject. cbn. by rewrite Hp.
Qed.

Lemma joined_where_category_elem db t bc :
  bc ∈ joined_where_category db t ->
  exists c,
    bc.2 = Some c /\ bc.1 ∈ Basic_Project_Info db /\ c ∈ crosswalk db
    /\ TYPE_WORK bc.1 = raw_project_type c /\ TYPE_WORK bc.1 <> None
    /\ dropdown_category c = Some t.
Proof.
  unfold joined_where_category, left_join_crosswalk.
  intros [Hcat Hbc]%list_elem_of_filter.
  apply list_elem_of_bind in Hbc as (b & Hbc & Hb).
  unfold category_is in Hcat. destruct bc as [b' [c|]]; [|done].
  cbn in Hcat. exists c.
  assert (b' = b
          /\ c ∈ filter (fun c => join_on b c = true) (crosswalk db))
    as [-> Hc].
  { destruct (filter _ (crosswalk db)) as [|c0 cs] eqn:Hf.
    - apply list_elem_of_singleton in Hbc. congruence.
    - apply list_elem_of_fmap in Hbc as (c' & [= -> ->] & Hc'). done. }
  apply list_elem_of_filter in Hc as [Hjoin Hc].
  unfold join_on in Hjoin.
  destruct (TYPE_WORK b) as [w|] eqn:Hw; [|done].
  destruct (raw_project_type c) as [raw|] eqn:Hraw; [|done].
  apply String.eqb_eq in Hjoin as ->.
  unfold sql_text_eq in Hcat.
  destruct (dropdown_category c) as [cat|]; [|done].
  apply String.eqb_eq in Hcat as ->.
  cbn. rewrite Hw. done.
Qed.

Lemma active_text_Some t : t <> "" -> active_text (Some t) = Some t.
Proof.
  intros Ht. unfold active_text. rewrite truthy_str.
  by apply String.eqb_neq in Ht as ->.
Qed.

Lemma formattedDistrict_Some d fd :
  formattedDistrict d = Some fd -> exists k, toString_method d = Some k.
Proof.
  unfold formattedDistrict. destruct (toString_method d); [eauto|done].
Qed.

Lemma table_applyDistrictFilter db d k s :
  database s = Some db ->
  toString_method d = Some k ->
  foundDistrict d k (districtLayers s) <> inherited ->
  exists t,
    highwayProjectsTable (applyDistrictFilter d s) = Some t
    /\ data t = rows_byDistrict db ("District " +:+ padStart2 k).
Proof.
  intros Hdb Hk Hfound. unfold applyDistrictFilter.
  assert (formattedDistrict d = Some ("District " +:+ padStart2 k)) as Hfd.
  { unfold formattedDistrict. by rewrite Hk. }
  destruct (zoomToDistrict_returns d k
              (updatePanelTitles (set_district d s)) Hk Hfound)
    as [s2 Hz].
  rewrite Hz.
  rewrite (load_byDistrict_shape db).
  2: { by rewrite (database_zoomToDistrict _ _ _ Hz). }
  unfold table_rows_byDistrict. rewrite Hfd. cbn [fmap option_fmap option_map show_rows].
  rewrite table_load_filtered_rows. eexists. split; [reflexivity|].
  apply data_show_filtered_rows.
Qed.

Lemma table_applyProjectTypeFilter db t s :
  database s = Some db ->
  t <> "" ->
  exists tb,
    highwayProjectsTable (applyProjectTypeFilter t s) = Some tb
    /\ data tb = rows_byProjectType db t.
Proof.
  intros Hdb Ht. unfold applyProjectTypeFilter, updateChartsAndTable.
  cbn [currentProjectTypeFilter updatePanelTitles set_titles set_projectType].
  rewrite (active_text_Some t Ht).
  rewrite (load_byProjectType_shape db) by done.
  rewrite table_load_filtered_rows. eexists. split; [reflexivity|].
  apply data_show_filtered_rows.
Qed.

(** X4.  On a loaded snapshot every row the table shows after a selection
    satisfies the filter selected, where the lookup of the selection in the
    layer index does not stop at a member inherited from [Object.prototype]
    (there the zoom throws before the table is filled): the rows are of the
    county; of the district, whose [DISTRICT] is "District " followed by the
    number padded to two characters; or of a work type that some crosswalk
    row maps to the chosen category. *)
Theorem filtered_table_rows_satisfy_the_filter (db : Database)
    (s : Dashboard) :
  database s = Some db ->
  (forall countyName,
     foundLayer countyName (countyLayers s) <> inherited ->
     exists t,
       highwayProjectsTable (applyCountyFilter countyName s) = Some t
       /\ forall r, r ∈ data t -> prop "COUNTY" r = str countyName)
  /\ (forall districtNumber k, toString_method districtNumber = Some k ->
      foundDistrict districtNumber k (districtLayers s) <> inherited ->
      exists t,
        highwayProjectsTable (applyDistrictFilter districtNumber s) = Some t
        /\ forall r, r ∈ data t ->
             prop "DISTRICT" r = str ("District " +:+ padStart2 k))
  /\ (forall projectType, projectType <> "" ->
      exists t,
        highwayProjectsTable (applyProjectTypeFilter projectType s) = Some t
        /\ forall r, r ∈ data t ->
             exists p c,
               r = getAsObject p /\ p ∈ Basic_Project_Info db
               /\ c ∈ crosswalk db
               /\ TYPE_WORK p = raw_project_type c /\ TYPE_WORK p <> None
               /\ dropdown_category c = Some projectType).
Proof.
  intros Hdb. split_and!.
  - intros c Hfound.
    destruct (table_applyCountyFilter db c s Hdb Hfound) as (t & Ht & Hd).
    exists t. rewrite Hd. split; [done|]. apply rows_byCounty_all.
  - intros d k Hk Hfound.
    destruct (table_applyDistrictFilter db d k s Hdb Hk Hfound)
      as (t & Ht & Hd).
    exists t. rewrite Hd. split; [done|]. apply rows_byDistrict_all.
  - intros t Ht.
    destruct (table_applyProjectTypeFilter db t s Hdb Ht) as (tb & Htb & Hd).
    exists tb. rewrite Hd. split; [done|].
    intros r Hr. unfold rows_byProjectType in Hr.
    apply elem_of_take in Hr as (i & Hr & _).
    apply list_elem_of_lookup_2 in Hr.
    apply list_elem_of_fmap in Hr as (bc & -> & Hbc).
    apply joined_where_category_elem in Hbc as (c & _ & ? & ? & ? & ? & ?).
    by exists bc.1, c.
Qed.

(** X4 on the fixture, for district "7" as the menu passes it and for
    Fayette. *)
Lemma filtered_table_rows_satisfy_the_filter_witness :
  (exists t,
     highwayProjectsTable
       (applyDistrictFilter (str "7") (Fixture.loaded Fixture.db)) = Some t
     /\ forall r, r ∈ data t -> prop "DISTRICT" r = str "District 07")
  /\ (exists t,
        highwayProjectsTable
          (applyCountyFilter "Fayette" (Fixture.loaded Fixture.db)) = Some t
        /\ forall r, r ∈ data t -> prop "COUNTY" r = str "Fayette").
Proof.
  pose proof (filtered_table_rows_satisfy_the_filter Fixture.db
                (Fixture.loaded Fixture.db) eq_refl) as (Hc & Hd & _).
  split.
  - apply (Hd (str "7") "7" eq_refl). discriminate.
  - apply (Hc "Fayette"). discriminate.
Defined.

Lemma count_rows_complement {A} (P Q : A -> bool) (l : list A) :
  (forall x, Q x = negb (P x)) ->
  count_rows P l + count_rows Q l = Z.of_nat (List.length l).
Proof.
  intros HQ. unfold count_rows.
  induction l as [|x l IH]; [done|].
  rewrite !filter_cons, HQ. cbn [List.length].
  destruct (P x); cbn [negb];
    rewrite (decide_True (P := true = true)) by done;
    rewrite (decide_False (P := false = true)) by done;
    cbn [List.length]; lia.
Qed.

Lemma sql_not_awarded_negb a : sql_not_awarded a = negb (sql_awarded a).
Proof. destruct a as [s|]; cbn; [|done]. by rewrite negb_involutive. Qed.

Lemma counts_applyCountyFilter db c s :
  database s = Some db ->
  foundLayer c (countyLayers s) <> inherited ->
  projectCounts (applyCountyFilter c s) = awarded_byCounty db c.
Proof.
  intros Hdb Hfound. rewrite (applyCountyFilter_shape db c s Hdb Hfound).
  unfold load_filtered_rows, createProjectYearsChart.
  by destruct (prepare_county c s).
Qed.

(** X5.  Where the database has no [ProjectsAwarded_ByCounty] view, or the
    view has no [COUNTY] column, and the lookup of the county in the county
    index does not stop at a member inherited from [Object.prototype], the
    two slices of the pie drawn for a county add up to the number of
    projects of that county, and the table shows as many rows, up to
    1000. *)
Theorem county_pie_total_is_the_number_of_county_projects (db : Database)
    (s : Dashboard) (countyName : string) :
  database s = Some db ->
  no_column (ProjectsAwarded_ByCounty db) "COUNTY" ->
  foundLayer countyName (countyLayers s) <> inherited ->
  exists a c t,
    projectCounts (applyCountyFilter countyName s)
    = {| awarded := num a; current := num c |}
    /\ 0 <= a /\ 0 <= c
    /\ a + c = projects_in_county db countyName
    /\ highwayProjectsTable (applyCountyFilter countyName s) = Some t
    /\ Z.of_nat (List.length (data t))
       = Z.min 1000 (projects_in_county db countyName).
Proof.
  intros Hdb Hview Hfound.
  destruct (table_applyCountyFilter db countyName s Hdb Hfound)
    as (t & Ht & Hd).
  eexists _, _, t.
  rewrite (counts_applyCountyFilter db countyName s Hdb Hfound).
  rewrite (awarded_byCounty_fallback db countyName Hview).
  unfold count_by_award_status.
  split_and!; [reflexivity | apply count_rows_nonneg | apply count_rows_nonneg
              | | done |].
  - rewrite (count_rows_complement _ _ _ (fun p => sql_not_awarded_negb (AWARDED p))).
    reflexivity.
  - rewrite Hd. unfold rows_byCounty, projects_in_county, count_rows.
    rewrite length_take, length_fmap. lia.
Qed.

(** X5 on the fixture, which has no view, for Fayette. *)
Lemma county_pie_total_is_the_number_of_county_projects_witness :
  exists a c t,
    projectCounts (applyCountyFilter "Fayette" (Fixture.loaded Fixture.db))
    = {| awarded := num a; current := num c |}
    /\ 0 <= a /\ 0 <= c
    /\ a + c = projects_in_county Fixture.db "Fayette"
    /\ highwayProjectsTable
         (applyCountyFilter "Fayette" (Fixture.loaded Fixture.db)) = Some t
    /\ Z.of_nat (List.length (data t))
       = Z.min 1000 (projects_in_county Fixture.db "Fayette").
Proof.
  apply (county_pie_total_is_the_number_of_county_projects Fixture.db
           (Fixture.loaded Fixture.db) "Fayette" eq_refl (or_introl eq_refl)).
  discriminate.
Defined.

(** ** Repeating and combining selections *)

Lemma frame_step_prepare_county c : frame_step (prepare_county c).
Proof.
  apply (frame_step_compose
           (fun s => updatePanelTitles (set_county (Some c) s))
           (fun s => default s (zoomToCounty c s)));
    [|apply frame_step_zoomToCounty].
  apply (frame_step_compose (set_county (Some c)) updatePanelTitles);
    auto using frame_step_set_county, frame_step_updatePanelTitles.
Qed.

Lemma prepare_county_twice c s :
  frame (prepare_county c (prepare_county c s)) = frame (prepare_county c s).
Proof.
  set (U := fun s => updatePanelTitles (set_county (Some c) s)).
  set (Z := fun s => default s (zoomToCounty c s)).
  assert (forall s, Z s = set_mapView (mapView (Z s)) s) as HZ.
  { intros s0. unfold Z. destruct (zoomToCounty c s0) as [s2|] eqn:Hz.
    - exact (zoomToCounty_Some _ _ _ Hz).
    - by destruct s0. }
  assert (forall v s, U (set_mapView v s) = set_mapView v (U s)) as HUv
    by (by intros v []).
  assert (forall s, U (U s) = U s) as HUU.
  { by intros [d c0 t pc ch tb db dl cl apl mv [pt|] [tt|]]. }
  assert (forall s, Z (Z s) = Z s) as HZZ.
  { assert (forall v s, countyLayers (set_mapView v s) = countyLayers s)
      as Hcl by (by intros v []).
    assert (forall v w s, set_mapView v (set_mapView w s) = set_mapView v s)
      as Hvw by (by intros v w []).
    intros s0. unfold Z, zoomToCounty, fitBounds.
    destruct (foundLayer c (countyLayers s0)) as [layer| |] eqn:Hl;
      cbn [from_option]; unfold id.
    - by rewrite Hcl, Hl, Hvw.
    - by rewrite Hl.
    - destruct (partialMatches c (countyLayers s0)) as [|key rest] eqn:Hpm;
        cbn [from_option]; unfold id.
      + by rewrite Hl, Hpm.
      + destruct (member_at key (countyLayers s0)) eqn:Hkey;
          cbn [from_option]; unfold id;
          rewrite ?Hcl, ?Hl, ?Hpm, ?Hkey; cbn [from_option]; unfold id;
          by rewrite ?Hvw. }
  change (frame (Z (U (Z (U s)))) = frame (Z (U s))).
  by rewrite (HZ (U s)), HUv, HUU, <- (HZ (U s)), HZZ.
Qed.

Lemma countyLayers_of_frame s1 s2 :
  frame s1 = frame s2 -> countyLayers s1 = countyLayers s2.
Proof. unfold frame. congruence. Qed.

Lemma countyLayers_prepare_county c s :
  countyLayers (prepare_county c s) = countyLayers s.
Proof.
  unfold prepare_county. cbv zeta.
  destruct (zoomToCounty c _) as [s2|] eqn:Hz; [|done].
  cbn [from_option]. unfold id. by rewrite (zoomToCounty_Some _ _ _ Hz).
Qed.

Lemma applyCountyFilter_idem c s :
  applyCountyFilter c (applyCountyFilter c s) = applyCountyFilter c s.
Proof.
  assert (foundLayer c (countyLayers s) = inherited
          \/ foundLayer c (countyLayers s) <> inherited) as [Hfound|Hfound]
    by (destruct (foundLayer c (countyLayers s)); auto).
  - destruct (applyCountyFilter_stops c s Hfound) as [-> _].
    destruct (applyCountyFilter_stops c
                (updatePanelTitles (set_county (Some c) s)) Hfound) as [-> _].
    by destruct s as [d c0 t pc ch tb db dl cl apl mv [pt|] [tt|]].
  - assert (countyLayers (load_byCounty c (prepare_county c s))
            = countyLayers s) as Hlayers.
    { rewrite <- (countyLayers_prepare_county c s).
      apply countyLayers_of_frame, frame_load_byCounty. }
    rewrite (applyCountyFilter_returns c s Hfound).
    rewrite applyCountyFilter_returns by (by rewrite Hlayers).
    apply (handler_idem (prepare_county c) (load_byCounty c)).
    + apply frame_step_prepare_county.
    + apply prepare_county_twice.
    + apply frame_load_byCounty.
    + intros s'. by apply (load_by_filtered_idem (ByCounty c)).
Qed.

(** X6.  A click on a county button applies the county filter once,
    however many click listeners the searches before it have left on the
    menu: applying the same county again changes nothing. *)
Theorem county_click_applies_the_filter_once (listed : list string)
    (menu : CountyMenu) (countyName : string) (s : Dashboard) :
  countyName ∈ county_buttons (displayCountyOptions listed menu) ->
  click_county (displayCountyOptions listed menu) countyName s
  = applyCountyFilter countyName s.
Proof.
  intros Hc. unfold click_county.
  destruct listed as [|c0 listed]; [by apply elem_of_nil in Hc|].
  cbn [displayCountyOptions click_listeners].
  induction (click_listeners menu) as [|n IH]; [reflexivity|].
  rewrite Nat.iter_succ, IH. apply applyCountyFilter_idem.
Qed.

(** X6 on the fixture: after two searches the menu has three listeners,
    and a click on "Fayette" still applies the filter once. *)
Lemma county_click_applies_the_filter_once_witness :
  let db := Fixture.db in
  let menu := county_search_input db "fay"
                (county_search_input db "fa" (loadCountyOptions db)) in
  click_listeners menu = 3%nat
  /\ click_county menu "Fayette" (Fixture.loaded db)
     = applyCountyFilter "Fayette" (Fixture.loaded db).
Proof.
  cbv zeta. split; [vm_compute; reflexivity|].
  apply (county_click_applies_the_filter_once
           (searchCounties "fay" (counties Fixture.db))).
  assert (searchCounties "fay" (counties Fixture.db) = ["Fayette"]) as ->
    by (vm_compute; reflexivity).
  left.
Defined.

Lemma frame_step_prepare_clearAll :
  frame_step
    (fun s =>
       resetMapView
         (updatePanelTitles
            (set_projectType None (set_county None (set_district null s))))).
Proof.
  apply (frame_step_compose _ resetMapView); [|apply frame_step_resetMapView].
  apply (frame_step_compose _ updatePanelTitles);
    [|apply frame_step_updatePanelTitles].
  apply (frame_step_compose _ (set_projectType None));
    [|apply frame_step_set_projectType].
  apply (frame_step_compose (set_district null) (set_county None));
    auto using frame_step_set_district, frame_step_set_county.
Qed.

(** X7.  Clear All twice is Clear All once: the whole state is the same. *)
Theorem clearAllFilters_twice (s : Dashboard) :
  clearAllFilters (clearAllFilters s) = clearAllFilters s.
Proof.
  unfold clearAllFilters.
  apply (handler_idem
           (fun s =>
              resetMapView
                (updatePanelTitles
                   (set_projectType None
                      (set_county None (set_district null s)))))
           load_all).
  - apply frame_step_prepare_clearAll.
  - intros [d c t pc ch tb db dl cl [apl|] mv [pt|] [tt|]]; reflexivity.
  - apply frame_load_all.
  - apply load_all_idem.
Qed.

(** ** Titles *)

Lemma if_truthy_title (text suffix : string) :
  (if truthy (str suffix) then innerHTML (text +:+ suffix)
   else textContent text)
  = title_with text suffix.
Proof. by destruct suffix. Qed.

Lemma updatePanelTitles_spells s :
  titles_spell_filters s (updatePanelTitles s).
Proof.
  unfold titles_spell_filters, updatePanelTitles.
  cbn [projectsPanelTitle tableDataTitle set_titles].
  rewrite !if_truthy_title. split.
  - by destruct (projectsPanelTitle s).
  - by destruct (tableDataTitle s).
Qed.

Lemma suffixes_of_frame s1 s2 :
  frame s1 = frame s2 ->
  districtSuffix s1 = districtSuffix s2
  /\ countySuffix s1 = countySuffix s2
  /\ projectTypeSuffix s1 = projectTypeSuffix s2.
Proof.
  destruct s1, s2. unfold frame. cbn.
  intros [= -> -> -> -> -> -> -> -> -> ->]. done.
Qed.

Lemma titles_of_frame s1 s2 : frame s1 = frame s2 -> titles s1 = titles s2.
Proof. unfold frame, titles. congruence. Qed.

(** A state whose frame is that of [y], where [y] differs from
    [updatePanelTitles x] in the map view at most. *)
Lemma titles_spell_after x y s' s :
  frame s' = frame y ->
  (filters y, database y, titles y)
  = (filters (updatePanelTitles x), database (updatePanelTitles x),
     titles (updatePanelTitles x)) ->
  titles x = titles s ->
  titles_spell_filters s s'.
Proof.
  intros Hs' Hy Hx.
  pose proof (updatePanelTitles_spells x) as [Hp Ht].
  assert (districtSuffix s' = districtSuffix (updatePanelTitles x)
          /\ countySuffix s' = countySuffix (updatePanelTitles x)
          /\ projectTypeSuffix s' = projectTypeSuffix (updatePanelTitles x))
    as (Hd & Hc & Hpt).
  { destruct s', y, x. unfold frame, filters, titles in *. cbn in *.
    simplify_eq. done. }
  assert (titles s' = titles (updatePanelTitles x)) as Htt.
  { rewrite (titles_of_frame _ _ Hs'). congruence. }
  unfold titles_spell_filters. unfold titles in *.
  rewrite Hd, Hc, Hpt.
  injection Htt as -> ->. injection Hx as <- <-. done.
Qed.

Lemma zoomToCounty_keeps c s s' :
  zoomToCounty c s = Some s' ->
  (filters s', database s', titles s') = (filters s, database s, titles s).
Proof. by intros ->%zoomToCounty_Some. Qed.

Lemma zoomToDistrict_keeps d s s' :
  zoomToDistrict d s = Some s' ->
  (filters s', database s', titles s') = (filters s, database s, titles s).
Proof. by intros ->%zoomToDistrict_Some. Qed.

Lemma resetMapView_keeps s :
  (filters (resetMapView s), database (resetMapView s),
   titles (resetMapView s))
  = (filters s, database s, titles s).
Proof. unfold resetMapView. by case_match. Qed.

(** X8.  After every operation of the filter controls the two titles spell
    out the filters then in force: "Projects" followed by the district and
    the county, and "Highway Projects Data" followed by the district, the
    county and the project type.  What follows the fixed words is assigned
    as markup ([innerHTML]); a title with nothing to follow is assigned as
    text. *)
Theorem titles_spell_the_filters_in_force (a : Action) (s : Dashboard) :
  titles_spell_filters s (perform a s).
Proof.
  destruct a as [c|d|t| | | |]; cbn [perform].
  - unfold applyCountyFilter. cbv zeta.
    destruct (zoomToCounty c _) as [s2|] eqn:Hz.
    + eapply (titles_spell_after (set_county (Some c) s));
        [apply frame_load_byCounty
        | apply (zoomToCounty_keeps _ _ _ Hz) | reflexivity].
    + by eapply (titles_spell_after (set_county (Some c) s)).
  - unfold applyDistrictFilter.
    destruct (zoomToDistrict d _) as [s2|] eqn:Hz.
    + eapply (titles_spell_after (set_district d s));
        [apply frame_load_byDistrict
        | apply (zoomToDistrict_keeps _ _ _ Hz) | reflexivity].
    + by eapply (titles_spell_after (set_district d s)).
  - unfold applyProjectTypeFilter.
    eapply (titles_spell_after (set_projectType (Some t) s));
      [apply frame_updateChartsAndTable | reflexivity | reflexivity].
  - unfold clearCountyFilter.
    eapply (titles_spell_after (set_county None s));
      [|apply resetMapView_keeps | reflexivity].
    case_match; [apply frame_load_byDistrict | apply frame_load_all].
  - unfold clearDistrictFilter.
    eapply (titles_spell_after (set_district null s));
      [|apply resetMapView_keeps | reflexivity].
    case_match; [apply frame_load_byCounty | apply frame_load_all].
  - unfold clearProjectTypeFilter.
    eapply (titles_spell_after (set_projectType None s));
      [apply frame_updateChartsAndTable | reflexivity | reflexivity].
  - unfold clearAllFilters.
    eapply (titles_spell_after
              (set_projectType None (set_county None (set_district null s))));
      [apply frame_load_all | apply resetMapView_keeps | reflexivity].
Qed.

(** ** Without a database *)

Lemma load_by_no_database driver s :
  database s = None -> load_by driver s = s.
Proof.
  intros Hdb.
  destruct driver; cbn [load_by];
    unfold load_byProjectType, load_byDistrict, load_byCounty, load_all,
      loadBasicProjectInfo, loadBasicProjectInfo_pass;
    unfold_loaders; by rewrite !Hdb.
Qed.

Lemma load_byCounty_no_database c s :
  database s = None -> load_byCounty c s = s.
Proof. apply (load_by_no_database (ByCounty c)). Qed.

Lemma load_byDistrict_no_database d s :
  database s = None -> load_byDistrict d s = s.
Proof. apply (load_by_no_database (ByDistrict d)). Qed.

Lemma load_all_no_database s : database s = None -> load_all s = s.
Proof. apply (load_by_no_database Unfiltered). Qed.

Lemma updateChartsAndTable_no_database s :
  database s = None -> updateChartsAndTable s = s.
Proof.
  intros Hdb. rewrite updateChartsAndTable_driver.
  by apply load_by_no_database.
Qed.

(** X9.  While no database is loaded, no operation of the filter controls
    touches the pie counts, the years chart or the table, and none loads a
    database. *)
Theorem without_a_database_nothing_is_drawn (a : Action) (s : Dashboard) :
  database s = None ->
  outputs (perform a s) = outputs s /\ database (perform a s) = None.
Proof.
  intros Hdb.
  destruct a as [c|d|t| | | |]; cbn [perform].
  - unfold applyCountyFilter. cbv zeta.
    destruct (zoomToCounty c _) as [s2|] eqn:Hz; [|done].
    rewrite load_byCounty_no_database.
    2: { by rewrite (database_zoomToCounty _ _ _ Hz). }
    by rewrite (database_zoomToCounty _ _ _ Hz),
      (outputs_zoomToCounty _ _ _ Hz).
  - unfold applyDistrictFilter.
    destruct (zoomToDistrict d _) as [s2|] eqn:Hz; [|done].
    rewrite load_byDistrict_no_database.
    2: { by rewrite (database_zoomToDistrict _ _ _ Hz). }
    by rewrite (database_zoomToDistrict _ _ _ Hz),
      (outputs_zoomToDistrict _ _ _ Hz).
  - unfold applyProjectTypeFilter.
    by rewrite updateChartsAndTable_no_database.
  - unfold clearCountyFilter.
    set (s1 := resetMapView _).
    assert (database s1 = None /\ outputs s1 = outputs s) as [Hdb1 Hout1].
    { unfold s1. rewrite database_resetMapView.
      by rewrite (proj2 frame_step_resetMapView). }
    case_match.
    + by rewrite load_byDistrict_no_database.
    + by rewrite load_all_no_database.
  - unfold clearDistrictFilter.
    set (s1 := resetMapView _).
    assert (database s1 = None /\ outputs s1 = outputs s) as [Hdb1 Hout1].
    { unfold s1. rewrite database_resetMapView.
      by rewrite (proj2 frame_step_resetMapView). }
    case_match.
    + by rewrite load_byCounty_no_database.
    + by rewrite load_all_no_database.
  - unfold clearProjectTypeFilter.
    by rewrite updateChartsAndTable_no_database.
  - unfold clearAllFilters.
    set (s1 := resetMapView _).
    assert (database s1 = None /\ outputs s1 = outputs s) as [Hdb1 Hout1].
    { unfold s1. rewrite database_resetMapView.
      by rewrite (proj2 frame_step_resetMapView). }
    by rewrite load_all_no_database.
Qed.

(** X9 on the loaded fixture with its database taken away. *)
Lemma without_a_database_nothing_is_drawn_witness :
  let s := set_database None (Fixture.loaded Fixture.db) in
  outputs (perform (SelectCounty "Fayette") s) = outputs s
  /\ database (perform (SelectCounty "Fayette") s) = None.
Proof.
  exact (without_a_database_nothing_is_drawn (SelectCounty "Fayette")
           (set_database None (Fixture.loaded Fixture.db)) eq_refl).
Defined.

(** ** What Clear All and the single clears reload *)

Lemma clearAllFilters_shape db s :
  database s = Some db ->
  exists s0,
    outputs s0 = outputs s
    /\ clearAllFilters s
       = match rows_unfiltered db with
         | [] => show_years (years_all db) (show_counts (awarded_all db) s0)
         | row0 :: rows =>
             set_table (Some (unfiltered_table row0 rows))
               (show_years (years_all db) (show_counts (awarded_all db) s0))
         end.
Proof.
  intros Hdb. unfold clearAllFilters. set (s0 := resetMapView _).
  exists s0. split.
  - unfold s0. by rewrite (proj2 frame_step_resetMapView).
  - apply load_all_shape. unfold s0. by rewrite database_resetMapView.
Qed.

Lemma years_all_nothing db :
  (exists view column,
     ProjectCount_Year db = Some view
     /\ sql_column "YEAR" view = Some column /\ view_tuples view = [])
  \/ (no_column (ProjectCount_Year db) "YEAR"
      /\ forall p, p ∈ Basic_Project_Info db ->
                   sql_year_ge_2024 (RSY_YEAR p) = false) ->
  years_all db = None.
Proof.
  unfold years_all. intros [(view & column & Hview & Hc & Hnil)|[Hno Hold]].
  - unfold select_order_by, view_rows. rewrite Hview. cbn.
    rewrite Hc, Hnil. reflexivity.
  - rewrite (proj2 (select_order_by_None _ _) Hno).
    unfold fallback_yearData. rewrite filter_none; [reflexivity|].
    by apply Forall_forall.
Qed.

Lemma rows_unfiltered_nil db :
  Basic_Project_Info db = [] -> rows_unfiltered db = [].
Proof. unfold rows_unfiltered. by intros ->. Qed.

(** X10.  Clear All redraws only what its queries return something for.
    The years chart of the filter just cleared stays on screen when the
    [ProjectCount_Year] view has a [YEAR] column and no row, or when the
    view is missing or has no [YEAR] column while no project is planned for
    2024 or later; the pie counts stay when the [ProjectsAwarded] view has
    no row; the table stays when [Basic_Project_Info] is empty. *)
Theorem clear_all_keeps_what_it_cannot_redraw (db : Database)
    (s : Dashboard) :
  database s = Some db ->
  ((exists view column,
      ProjectCount_Year db = Some view
      /\ sql_column "YEAR" view = Some column /\ view_tuples view = [])
   \/ ((ProjectCount_Year db = None
        \/ exists view, ProjectCount_Year db = Some view
                        /\ sql_column "YEAR" view = None)
       /\ forall p, p ∈ Basic_Project_Info db ->
                    sql_year_ge_2024 (RSY_YEAR p) = false) ->
   projectYearsChart (clearAllFilters s) = projectYearsChart s)
  /\ ((exists view, ProjectsAwarded db = Some view /\ view_tuples view = []) ->
      projectCounts (clearAllFilters s) = projectCounts s)
  /\ (Basic_Project_Info db = [] ->
      highwayProjectsTable (clearAllFilters s) = highwayProjectsTable s).
Proof.
  intros Hdb.
  destruct (clearAllFilters_shape db s Hdb) as (s0 & Hout & ->).
  unfold outputs in Hout. injection Hout as Hc Hy Ht.
  split_and!.
  - intros Hnone%years_all_nothing. rewrite Hnone.
    by destruct (rows_unfiltered db), (awarded_all db).
  - intros (view & Hview & Hnil).
    assert (awarded_all db = None) as ->.
    { unfold awarded_all, view_rows. rewrite Hview. cbn. by rewrite Hnil. }
    by destruct (rows_unfiltered db), (years_all db).
  - intros Hnil%rows_unfiltered_nil. rewrite Hnil.
    by destruct (years_all db), (awarded_all db).
Qed.

(** X10 on a snapshot with one project, planned for 2023, a by-county year
    view, and a [ProjectCount_Year] view that has no [YEAR] column: the bar
    drawn for Fayette is still there after Clear All. *)
Lemma clear_all_keeps_what_it_cannot_redraw_witness :
  let db :=
    {| Basic_Project_Info :=
         [Fixture.project "District 07" "Fayette" 2023 "BRIDGE REHAB" None];
       crosswalk := [];
       ProjectsAwarded := None;
       ProjectsAwarded_ByDistrict := None;
       ProjectsAwarded_ByCounty := None;
       ProjectCount_Year :=
         Some {| view_columns := ["RSY_YEAR"; "record_count"];
                 view_tuples := [[num 2023; num 1]] |};
       ProjectYears_ByDistrict := None;
       ProjectYears_ByCounty :=
         Some {| view_columns := ["County"; "RSY_YEAR"; "total_projects"];
                 view_tuples := [[str "Fayette"; num 2023; num 1]] |} |} in
  let s := applyCountyFilter "Fayette" (Fixture.loaded db) in
  projectYearsChart s = [("2023", num 1)]
  /\ filters (clearAllFilters s) = (null, None, None)
  /\ projectYearsChart (clearAllFilters s) = [("2023", num 1)].
Proof.
  intros db s.
  assert (projectYearsChart s = [("2023", num 1)]) as Hs
    by (vm_compute; reflexivity).
  assert (database s = Some db) as Hdb by (vm_compute; reflexivity).
  split_and!; [exact Hs| |].
  - unfold clearAllFilters.
    rewrite (filters_of_frame _ _ (frame_load_all _)), filters_resetMapView.
    reflexivity.
  - rewrite <-Hs.
    apply (proj1 (clear_all_keeps_what_it_cannot_redraw db s Hdb)).
    right. split; [right; eexists; split; reflexivity|].
    intros p Hp. apply list_elem_of_singleton in Hp as ->. reflexivity.
Defined.

Lemma rows_unfiltered_nonempty db :
  Basic_Project_Info db <> [] -> rows_unfiltered db <> [].
Proof.
  intros Hne. unfold rows_unfiltered. apply take_nonempty; [lia|].
  by intros Hnil%fmap_nil_inv.
Qed.

Lemma table_load_all db s :
  database s = Some db ->
  Basic_Project_Info db <> [] ->
  exists t,
    highwayProjectsTable (load_all s) = Some t
    /\ data t = rows_unfiltered db.
Proof.
  intros Hdb Hne%rows_unfiltered_nonempty.
  rewrite (load_all_shape db s Hdb).
  destruct (rows_unfiltered db) as [|row0 rows]; [done|].
  exists (unfiltered_table row0 rows). split; [|reflexivity].
  by destruct (years_all db), (awarded_all db).
Qed.

(** X11.  Clearing the county filter and clearing the district filter do
    not look at the project type filter.  On a loaded snapshot with
    projects, with no district (no county) left, the table is given the
    unfiltered rows, whatever project type filter is set, and that filter
    stays set. *)
Theorem single_clear_ignores_the_project_type (db : Database)
    (s : Dashboard) :
  database s = Some db ->
  Basic_Project_Info db <> [] ->
  (truthy (currentDistrictFilter s) = false ->
   exists t,
     highwayProjectsTable (clearCountyFilter s) = Some t
     /\ data t = rows_unfiltered db
     /\ currentProjectTypeFilter (clearCountyFilter s)
        = currentProjectTypeFilter s)
  /\ (active_text (currentCountyFilter s) = None ->
      exists t,
        highwayProjectsTable (clearDistrictFilter s) = Some t
        /\ data t = rows_unfiltered db
        /\ currentProjectTypeFilter (clearDistrictFilter s)
           = currentProjectTypeFilter s).
Proof.
  intros Hdb Hne. split.
  - intros Hd. unfold clearCountyFilter.
    set (s1 := resetMapView _).
    assert (currentDistrictFilter s1 = currentDistrictFilter s
            /\ currentProjectTypeFilter s1 = currentProjectTypeFilter s
            /\ database s1 = Some db) as (Hd1 & Ht1 & Hdb1).
    { unfold s1. rewrite database_resetMapView.
      pose proof (filters_resetMapView
                    (updatePanelTitles (set_county None s))) as Hf.
      unfold filters in Hf. cbn in Hf. by injection Hf as -> _ ->. }
    rewrite Hd1, Hd.
    destruct (table_load_all db s1 Hdb1 Hne) as (t & Ht & Hdata).
    exists t. split_and!; [done..|].
    pose proof (frame_load_all s1) as Hf. unfold frame in Hf. congruence.
  - intros Hc. unfold clearDistrictFilter.
    set (s1 := resetMapView _).
    assert (currentCountyFilter s1 = currentCountyFilter s
            /\ currentProjectTypeFilter s1 = currentProjectTypeFilter s
            /\ database s1 = Some db) as (Hc1 & Ht1 & Hdb1).
    { unfold s1. rewrite database_resetMapView.
      pose proof (filters_resetMapView
                    (updatePanelTitles (set_district null s))) as Hf.
      unfold filters in Hf. cbn in Hf. by injection Hf as _ -> ->. }
    rewrite Hc1, Hc.
    destruct (table_load_all db s1 Hdb1 Hne) as (t & Ht & Hdata).
    exists t. split_and!; [done..|].
    pose proof (frame_load_all s1) as Hf. unfold frame in Hf. congruence.
Qed.

(** X11 on the fixture with county "Fayette" and project type "bridge"
    set: once the county is cleared the table lists all three projects,
    though the project type filter, which selects two of them, is still
    set. *)
Lemma single_clear_ignores_the_project_type_witness :
  let db := Fixture.db in
  let s := with_filters null (Some "Fayette") (Some "bridge")
             (Fixture.loaded db) in
  List.length (rows_byProjectType db "bridge") = 2%nat
  /\ exists t,
       highwayProjectsTable (clearCountyFilter s) = Some t
       /\ List.length (data t) = 3%nat
       /\ currentProjectTypeFilter (clearCountyFilter s) = Some "bridge".
Proof.
  intros db s. split; [vm_compute; reflexivity|].
  destruct (proj1 (single_clear_ignores_the_project_type db s eq_refl
                     ltac:(discriminate)) eq_refl)
    as (t & Ht & Hdata & Hpt).
  exists t. split_and!; [exact Ht | | exact Hpt].
  rewrite Hdata. vm_compute. reflexivity.
Defined.

Lemma frame_applyCountyFilter c s :
  frame (applyCountyFilter c s) = frame (prepare_county c s).
Proof.
  unfold applyCountyFilter, prepare_county. cbv zeta.
  destruct (zoomToCounty c _); [apply frame_load_byCounty | done].
Qed.

Lemma mapView_applyCountyFilter c s :
  mapView (applyCountyFilter c s)
  = match county_layer_for c (countyLayers s) with
    | Some layer => FitBounds layer
    | None => mapView s
    end
  /\ countyLayers (applyCountyFilter c s) = countyLayers s
  /\ database (applyCountyFilter c s) = database s.
Proof.
  pose proof (frame_applyCountyFilter c s) as Hf.
  assert (mapView (prepare_county c s)
          = match county_layer_for c (countyLayers s) with
            | Some layer => FitBounds layer
            | None => mapView s
            end
          /\ countyLayers (prepare_county c s) = countyLayers s
          /\ database (prepare_county c s) = database s) as Hp.
  { split_and!;
      [|apply countyLayers_prepare_county | apply database_prepare_county].
    destruct (foundLayer c (countyLayers s)) eqn:Hl.
    1,3: unfold prepare_county; cbv zeta;
         rewrite zoomToCounty_layer
           by (cbn [countyLayers updatePanelTitles set_titles set_county];
               by rewrite Hl);
         cbn [countyLayers updatePanelTitles set_titles set_county
              from_option]; unfold id;
         by destruct (county_layer_for c (countyLayers s)).
    rewrite (proj2 (applyCountyFilter_stops c s Hl)).
    unfold county_layer_for. by rewrite Hl. }
  unfold frame in Hf. destruct Hp as (Hm & Hcl & Hdb).
  split_and!; congruence.
Qed.

Lemma chart_applyCountyFilter db c s :
  database s = Some db ->
  foundLayer c (countyLayers s) <> inherited ->
  projectYearsChart (applyCountyFilter c s) = years_chart (years_byCounty db c).
Proof.
  intros Hdb Hfound. rewrite (applyCountyFilter_shape db c s Hdb Hfound).
  unfold load_filtered_rows, createProjectYearsChart.
  by destruct (prepare_county c s).
Qed.

Lemma suffixes_of_filters s1 s2 :
  filters s1 = filters s2 -> database s1 = database s2 ->
  districtSuffix s1 = districtSuffix s2
  /\ countySuffix s1 = countySuffix s2
  /\ projectTypeSuffix s1 = projectTypeSuffix s2.
Proof.
  destruct s1, s2. unfold filters. cbn. intros [= -> -> ->] ->. done.
Qed.

Lemma fmap_const_fmap {A B C} (f : A -> B) (v : C) (o : option A) :
  (fun _ => v) <$> (f <$> o) = (fun _ => v) <$> o.
Proof. by destruct o. Qed.

(** X12.  Selecting a county after another shows what selecting it
    directly would: the same filters, titles, pie counts, years chart and
    table rows.  The map follows only when the county has a boundary layer;
    otherwise it stays where the first selection left it.  This is for a
    second county whose lookup in the county index does not stop at a member
    inherited from [Object.prototype]; the first county may be any. *)
Theorem last_county_selected_wins (db : Database) (s : Dashboard)
    (c1 c2 : string) :
  database s = Some db ->
  foundLayer c2 (countyLayers s) <> inherited ->
  let s12 := applyCountyFilter c2 (applyCountyFilter c1 s) in
  let s2 := applyCountyFilter c2 s in
  filters s12 = filters s2
  /\ titles s12 = titles s2
  /\ projectCounts s12 = projectCounts s2
  /\ projectYearsChart s12 = projectYearsChart s2
  /\ data <$> highwayProjectsTable s12 = data <$> highwayProjectsTable s2
  /\ mapView s12
     = match county_layer_for c2 (countyLayers s) with
       | Some layer => FitBounds layer
       | None => mapView (applyCountyFilter c1 s)
       end.
Proof.
  intros Hdb Hfound. cbv zeta.
  set (s1 := applyCountyFilter c1 s).
  destruct (mapView_applyCountyFilter c1 s) as (_ & Hcl & Hdb1).
  fold s1 in Hcl, Hdb1. rewrite Hdb in Hdb1.
  assert (foundLayer c2 (countyLayers s1) <> inherited) as Hfound1
    by (by rewrite Hcl).
  assert (filters (applyCountyFilter c2 s1) = filters (applyCountyFilter c2 s))
    as Hfilters.
  { rewrite !filters_applyCountyFilter.
    pose proof (filters_applyCountyFilter c1 s) as H1. fold s1 in H1.
    unfold filters in H1. congruence. }
  split_and!.
  - exact Hfilters.
  - assert (forall c s, titles_spell_filters s (applyCountyFilter c s))
      as Hspell.
    { intros c s0. unfold applyCountyFilter. cbv zeta.
      destruct (zoomToCounty c _) as [s2|] eqn:Hz.
      - eapply (titles_spell_after (set_county (Some c) s0));
          [apply frame_load_byCounty
          | apply (zoomToCounty_keeps _ _ _ Hz) | reflexivity].
      - by eapply (titles_spell_after (set_county (Some c) s0)). }
    destruct (Hspell c2 s1) as [Hp1 Ht1].
    destruct (Hspell c2 s) as [Hp2 Ht2].
    destruct (Hspell c1 s) as [Hp Ht]. fold s1 in Hp, Ht.
    destruct (suffixes_of_filters (applyCountyFilter c2 s1)
                (applyCountyFilter c2 s) Hfilters) as (Hd & Hc & Hpt).
    { destruct (mapView_applyCountyFilter c2 s1) as (_ & _ & ->).
      destruct (mapView_applyCountyFilter c2 s) as (_ & _ & ->).
      congruence. }
    unfold titles. rewrite Hp1, Ht1, Hp2, Ht2, Hp, Ht, Hd, Hc, Hpt.
    by rewrite !fmap_const_fmap.
  - by rewrite (counts_applyCountyFilter db c2 s1),
      (counts_applyCountyFilter db c2 s).
  - by rewrite (chart_applyCountyFilter db c2 s1),
      (chart_applyCountyFilter db c2 s).
  - destruct (table_applyCountyFilter db c2 s1 Hdb1 Hfound1)
      as (t1 & -> & Hd1).
    destruct (table_applyCountyFilter db c2 s Hdb Hfound) as (t2 & -> & Hd2).
    cbn. congruence.
  - destruct (mapView_applyCountyFilter c2 s1) as (-> & _ & _).
    by rewrite Hcl.
Qed.

(** X12 on the fixture: "Fayette" and then "Madison", a county without a
    boundary layer and without projects.  The table is empty, the title
    names Madison, and the map still shows Fayette. *)
Lemma last_county_selected_wins_witness :
  let s := Fixture.loaded Fixture.db in
  let s12 := applyCountyFilter "Madison" (applyCountyFilter "Fayette" s) in
  titles s12 = titles (applyCountyFilter "Madison" s)
  /\ projectsPanelTitle s12 = Some (innerHTML "Projects in Madison County")
  /\ mapView s12 = FitBounds Fixture.fayette.
Proof.
  intros s s12.
  pose proof (last_county_selected_wins Fixture.db s "Fayette" "Madison"
                eq_refl ltac:(discriminate)) as H.
  cbv zeta in H. destruct H as (_ & Ht & _ & _ & _ & Hm).
  split_and!; [exact Ht | vm_compute; reflexivity |].
  unfold s12. rewrite Hm. vm_compute. reflexivity.
Defined.

(** ** The project type menu *)

#[local] Instance category_le_trans : Transitive category_le.
Proof.
  intros [[x|] ?] [[y|] ?] [[z|] ?]; unfold category_le; cbn; try done.
  apply (transitivity (R := String.le)).
Qed.

#[local] Instance category_le_total : Total category_le.
Proof.
  intros [[x|] ?] [[y|] ?]; unfold category_le; cbn; auto.
  apply (total String.le).
Qed.

Lemma projectType_rows_elem db row :
  row ∈ projectType_rows db
  <-> exists c, c ∈ crosswalk db
                /\ row = (dropdown_category c, dropdown_display_name c).
Proof.
  unfold projectType_rows.
  rewrite merge_sort_Permutation, elem_of_remove_dups, list_elem_of_fmap.
  split; intros (c & ? & ?); by exists c.
Qed.

Lemma projectTypeOption_Some row o :
  projectTypeOption row = Some o
  <-> row.1 = Some (category o) /\ category o <> ""
      /\ display o = toString (or (of_text row.2) (str (category o))).
Proof.
  unfold projectTypeOption. destruct row as [[c|] dn]; cbn.
  - rewrite andb_diag.
    destruct (String.eqb_spec c "") as [->|Hc]; cbn.
    + split; [done|]. by intros ([= <-] & ? & _).
    + split.
      * by intros [= <-].
      * intros ([= ->] & _ & Hd). destruct o. cbn in *. by rewrite Hd.
  - split; [done|]. by intros ([=] & _).
Qed.

Lemma display_nonempty dn c :
  c <> "" -> toString (or (of_text dn) (str c)) <> "".
Proof.
  intros Hc. unfold or. destruct dn as [n|]; cbn.
  - destruct (String.eqb_spec n ""); cbn; done.
  - done.
Qed.

Lemma StronglySorted_omap {A B} (R : relation A) (R' : relation B)
    (f : A -> option B) l :
  (forall x y a b, R x y -> f x = Some a -> f y = Some b -> R' a b) ->
  StronglySorted R l -> StronglySorted R' (omap f l).
Proof.
  intros HR. induction 1 as [|x l Hl IH Hx]; cbn; [constructor|].
  destruct (f x) as [a|] eqn:Hfx; [|exact IH].
  constructor; [exact IH|].
  apply Forall_forall. intros b Hb.
  apply list_elem_of_omap in Hb as (y & Hy & Hfy).
  rewrite Forall_forall in Hx. eauto.
Qed.

(** X13.  The project type menu.  Every entry has a non-empty category and
    a non-empty label; it comes from a crosswalk row of that category, whose
    display name is the label unless it is NULL or empty, when the category
    is.  Every non-empty category of the crosswalk has an entry, and the
    entries are in increasing order of category. *)
Theorem project_type_menu_lists_the_crosswalk_categories (db : Database) :
  (forall o, o ∈ projectTypes db ->
     category o <> "" /\ display o <> ""
     /\ exists c, c ∈ crosswalk db
                  /\ dropdown_category c = Some (category o)
                  /\ display o
                     = match dropdown_display_name c with
                       | Some name => if String.eqb name "" then category o
                                      else name
                       | None => category o
                       end)
  /\ (forall c cat, c ∈ crosswalk db -> dropdown_category c = Some cat ->
      cat <> "" -> exists o, o ∈ projectTypes db /\ category o = cat)
  /\ Sorted String.le (category <$> projectTypes db).
Proof.
  unfold projectTypes. split_and!.
  - intros o Ho. apply list_elem_of_omap in Ho as (row & Hrow & Ho).
    apply projectTypeOption_Some in Ho as (Hcat & Hne & Hdisp).
    apply projectType_rows_elem in Hrow as (c & Hc & ->). cbn in *.
    split_and!; [done| |].
    + rewrite Hdisp. by apply display_nonempty.
    + exists c. split_and!; [done..|].
      rewrite Hdisp. unfold or.
      destruct (dropdown_display_name c) as [name|]; cbn; [|done].
      by destruct (String.eqb name "").
  - intros c cat Hc Hcat Hne.
    exists {| category := cat;
              display := toString (or (of_text (dropdown_display_name c))
                                     (str cat)) |}.
    split; [|done]. apply list_elem_of_omap.
    exists (dropdown_category c, dropdown_display_name c). split.
    + apply projectType_rows_elem. by exists c.
    + apply projectTypeOption_Some. by rewrite Hcat.
  - rewrite list_fmap_omap. apply StronglySorted_Sorted.
    apply (StronglySorted_omap category_le).
    + intros [c1 d1] [c2 d2] a b Hle Ha Hb.
      destruct (projectTypeOption (c1, d1)) as [o1|] eqn:Ho1; [|done].
      destruct (projectTypeOption (c2, d2)) as [o2|] eqn:Ho2; [|done].
      apply projectTypeOption_Some in Ho1 as (Hc1 & _).
      apply projectTypeOption_Some in Ho2 as (Hc2 & _).
      cbn in *. simplify_eq. exact Hle.
    + apply Sorted_StronglySorted; [apply _|].
      apply (Sorted_merge_sort category_le).
Qed.

(** X13 on the crosswalk of the fixture. *)
Lemma project_type_menu_lists_the_crosswalk_categories_witness :
  exists o, o ∈ projectTypes Fixture.db /\ category o = "pavement".
Proof.
  apply (proj1 (proj2 (project_type_menu_lists_the_crosswalk_categories
                         Fixture.db))
           {| raw_project_type := Some "PAVEMENT REHAB";
              dropdown_category := Some "pavement";
              dropdown_display_name := Some "Pavement" |});
    [|reflexivity|discriminate].
  right. right. left.
Defined.

Lemma projectTypeSuffix_set s t :
  currentProjectTypeFilter s = Some t -> t <> "" ->
  projectTypeSuffix s = " (" +:+ getProjectTypeDisplayName s t +:+ ")".
Proof.
  intros Hf Ht. unfold projectTypeSuffix. rewrite Hf, truthy_str.
  by apply String.eqb_neq in Ht as ->.
Qed.

Lemma display_name_in_menu db s t :
  database s = Some db ->
  (exists o, o ∈ projectTypes db /\ category o = t) ->
  exists o, o ∈ projectTypes db /\ category o = t
            /\ getProjectTypeDisplayName s t = display o.
Proof.
  intros Hdb (o0 & Ho0 & <-).
  apply list_elem_of_omap in Ho0 as (row & Hrow & Ho0).
  apply projectTypeOption_Some in Ho0 as (Hcat & Hne & _).
  apply projectType_rows_elem in Hrow as (c0 & Hc0 & ->). cbn in Hcat.
  unfold getProjectTypeDisplayName. rewrite Hdb, truthy_str.
  apply String.eqb_neq in Hne as Hneb. rewrite Hneb. cbn [negb].
  destruct (filter _ (crosswalk db)) as [|c cs] eqn:Hf.
  - exfalso.
    assert (c0 ∈ filter
              (fun c => sql_text_eq (dropdown_category c) (category o0) = true)
              (crosswalk db)) as Hin.
    { apply list_elem_of_filter. split; [|done].
      unfold sql_text_eq. rewrite Hcat. apply String.eqb_refl. }
    rewrite Hf in Hin. by apply elem_of_nil in Hin.
  - assert (c ∈ c :: cs) as Hc by left. rewrite <-Hf in Hc.
    apply list_elem_of_filter in Hc as [Hcc Hc].
    unfold sql_text_eq in Hcc.
    destruct (dropdown_category c) as [cat|] eqn:Hcatc; [|done].
    apply String.eqb_eq in Hcc as ->.
    exists {| category := category o0;
              display := toString (or (of_text (dropdown_display_name c))
                                     (str (category o0))) |}.
    split_and!; [|done..].
    apply list_elem_of_omap.
    exists (dropdown_category c, dropdown_display_name c). split.
    + apply projectType_rows_elem. by exists c.
    + apply projectTypeOption_Some. by rewrite Hcatc.
Qed.

Lemma String_app_nonempty a b : b <> "" -> a +:+ b <> "".
Proof. by destruct a. Qed.

Lemma title_with_nonempty text suffix :
  suffix <> "" -> title_with text suffix = innerHTML (text +:+ suffix).
Proof. by destruct suffix. Qed.

(** X14.  Once an entry of the project type menu is selected, the table
    title is given as markup: "Highway Projects Data", the district and the
    county in force and, in brackets, the display string of one of the
    menu's entries for that category.  The title of the Projects panel does
    not mention the project type. *)
Theorem selected_project_type_is_titled_by_a_menu_label (db : Database)
    (s : Dashboard) (o : ProjectTypeOption) :
  database s = Some db ->
  o ∈ projectTypes db ->
  let s' := applyProjectTypeFilter (category o) s in
  exists o',
    o' ∈ projectTypes db /\ category o' = category o
    /\ tableDataTitle s'
       = (fun _ =>
            innerHTML ("Highway Projects Data" +:+ districtSuffix s
                       +:+ countySuffix s +:+ " (" +:+ display o' +:+ ")"))
           <$> tableDataTitle s
    /\ projectsPanelTitle s'
       = (fun _ =>
            title_with "Projects" (districtSuffix s +:+ countySuffix s))
           <$> projectsPanelTitle s.
Proof.
  intros Hdb Ho. cbv zeta.
  set (t := category o). set (s' := applyProjectTypeFilter t s).
  assert (t <> "") as Ht.
  { apply list_elem_of_omap in Ho as (row & _ & Ho).
    by apply projectTypeOption_Some in Ho as (_ & ? & _). }
  assert (frame s' = frame (updatePanelTitles (set_projectType (Some t) s)))
    as Hfr by apply frame_updateChartsAndTable.
  assert (titles_spell_filters s s') as [Hp Htt].
  { by eapply (titles_spell_after (set_projectType (Some t) s)). }
  assert (filters s' = (currentDistrictFilter s, currentCountyFilter s, Some t)
          /\ database s' = Some db) as [Hfilters Hdb'].
  { unfold frame in Hfr. unfold filters.
    cbn [currentDistrictFilter currentCountyFilter currentProjectTypeFilter
           database updatePanelTitles set_titles set_projectType] in Hfr.
    injection Hfr as -> -> -> _ _ _ _ _ _ ->. done. }
  destruct (display_name_in_menu db s' t Hdb') as (o' & Ho' & Hcat & Hname);
    [by exists o|].
  exists o'. split_and!; [done..| |].
  - rewrite Htt.
    assert (districtSuffix s' = districtSuffix s
            /\ countySuffix s' = countySuffix s) as [-> ->].
    { unfold districtSuffix, countySuffix. unfold filters in Hfilters.
      by injection Hfilters as -> -> _. }
    rewrite (projectTypeSuffix_set s' t), Hname; [| |done].
    + rewrite title_with_nonempty; [done|].
      by do 2 apply String_app_nonempty.
    + unfold filters in Hfilters. by injection Hfilters as _ _ ->.
  - rewrite Hp.
    assert (districtSuffix s' = districtSuffix s
            /\ countySuffix s' = countySuffix s) as [-> ->]; [|done].
    unfold districtSuffix, countySuffix. unfold filters in Hfilters.
    by injection Hfilters as -> -> _.
Qed.

(** X14 on the fixture with district 7 set, for the menu entry "bridge". *)
Lemma selected_project_type_is_titled_by_a_menu_label_witness :
  let db := Fixture.db in
  let s := with_filters (num 7) None None (Fixture.loaded db) in
  let o := {| category := "bridge"; display := "Bridge Projects" |} in
  exists o',
    o' ∈ projectTypes db /\ category o' = "bridge"
    /\ tableDataTitle (applyProjectTypeFilter "bridge" s)
       = Some (innerHTML ("Highway Projects Data in District 7 ("
                          +:+ display o' +:+ ")")).
Proof.
  intros db s o.
  assert (o ∈ projectTypes db) as Ho.
  { assert (projectTypes db
            = [o; {| category := "pavement"; display := "Pavement" |}]) as ->
      by (vm_compute; reflexivity).
    left. }
  destruct (selected_project_type_is_titled_by_a_menu_label db s o eq_refl Ho)
    as (o' & Ho' & Hcat & Ht & _).
  exists o'. split_and!; [exact Ho' | exact Hcat | exact Ht].
Defined.

(** ** Project lines and the project type filter *)

Lemma joined_where_category_intro db t p c :
  p ∈ Basic_Project_Info db -> c ∈ crosswalk db ->
  join_on p c = true -> dropdown_category c = Some t ->
  p ∈ (joined_where_category db t).*1.
Proof.
  intros Hp Hc Hjoin Hcat.
  apply list_elem_of_fmap. exists (p, Some c). split; [done|].
  unfold joined_where_category. apply list_elem_of_filter. split.
  - unfold category_is, sql_text_eq. cbn. rewrite Hcat. apply String.eqb_refl.
  - unfold left_join_crosswalk. apply list_elem_of_bind. exists p.
    split; [|done].
    assert (c ∈ filter (fun c => join_on p c = true) (crosswalk db)) as Hin
      by (by apply list_elem_of_filter).
    destruct (filter _ (crosswalk db)) as [|c0 cs];
      [by apply elem_of_nil in Hin|].
    apply list_elem_of_fmap. by exists c.
Qed.

Lemma checkProjectTypeMatch_true db s props raw t :
  database s = Some db ->
  rawProjectType props = str raw ->
  checkProjectTypeMatch s props t = true
  <-> raw <> ""
      /\ exists c cs,
           filter (fun c => sql_text_eq (raw_project_type c) raw = true)
             (crosswalk db) = c :: cs
           /\ dropdown_category c = Some t.
Proof.
  intros Hdb Hraw. unfold checkProjectTypeMatch.
  rewrite Hdb, Hraw, truthy_str. cbn [toString].
  destruct (String.eqb_spec raw "") as [->|Hne]; cbn [negb].
  - split; [done | by intros [? _]].
  - destruct (filter _ (crosswalk db)) as [|c cs].
    + split; [done|]. by intros (_ & ? & ? & ? & _).
    + rewrite bool_decide_eq_true. split.
      * intros Hc. split; [done|]. by exists c, cs.
      * by intros (_ & c' & cs' & [= <- <-] & ?).
Qed.

(** X15.  A project line is kept at full opacity by the project type filter
    only if the crosswalk maps its work type to the selected category, and
    then the by-project-type statements select every project of that work
    type.  Where the crosswalk gives the work type a single category, the
    converse holds: the lines of the projects selected are the lines kept at
    full opacity. *)
Theorem highlighted_lines_are_of_selected_projects (db : Database)
    (s : Dashboard) (props : Row) (raw t : string) :
  database s = Some db ->
  rawProjectType props = str raw ->
  (checkProjectTypeMatch s props t = true ->
   forall p, p ∈ Basic_Project_Info db -> TYPE_WORK p = Some raw ->
             p ∈ (joined_where_category db t).*1)
  /\ (raw <> "" ->
      (forall c1 c2, c1 ∈ crosswalk db -> c2 ∈ crosswalk db ->
         raw_project_type c1 = Some raw -> raw_project_type c2 = Some raw ->
         dropdown_category c1 = dropdown_category c2) ->
      forall p, TYPE_WORK p = Some raw ->
                p ∈ (joined_where_category db t).*1 ->
                checkProjectTypeMatch s props t = true).
Proof.
  intros Hdb Hraw. split.
  - intros (Hne & c & cs & Hf & Hcat)%(checkProjectTypeMatch_true db _ _ raw);
      [|done..].
    intros p Hp Hw.
    assert (c ∈ c :: cs) as Hc by left. rewrite <-Hf in Hc.
    apply list_elem_of_filter in Hc as [Hrawc Hc].
    apply (joined_where_category_intro db t p c); [done..| |done].
    unfold join_on. rewrite Hw. unfold sql_text_eq in Hrawc.
    destruct (raw_project_type c) as [r|]; [|done].
    apply String.eqb_eq in Hrawc as ->. apply String.eqb_refl.
  - intros Hne Huniq p Hw Hp.
    apply list_elem_of_fmap in Hp as (bc & -> & Hbc).
    apply joined_where_category_elem in Hbc
      as (c & _ & _ & Hc & Htw & _ & Hcat).
    rewrite Hw in Htw.
    apply (checkProjectTypeMatch_true db _ _ raw); [done..|].
    split; [done|].
    assert (c ∈ filter (fun c => sql_text_eq (raw_project_type c) raw = true)
                (crosswalk db)) as Hin.
    { apply list_elem_of_filter. split; [|done].
      unfold sql_text_eq. rewrite <-Htw. apply String.eqb_refl. }
    destruct (filter _ (crosswalk db)) as [|c0 cs] eqn:Hf;
      [by apply elem_of_nil in Hin|].
    exists c0, cs. split; [done|].
    assert (c0 ∈ c0 :: cs) as Hc0 by left. rewrite <-Hf in Hc0.
    apply list_elem_of_filter in Hc0 as [Hraw0 Hc0].
    rewrite (Huniq c0 c); [done..| |done].
    unfold sql_text_eq in Hraw0.
    destruct (raw_project_type c0) as [r|]; [|done].
    by apply String.eqb_eq in Hraw0 as ->.
Qed.

(** X15 on the fixture: a line of work type "BRIDGE REHAB" under the
    filter "bridge". *)
Lemma highlighted_lines_are_of_selected_projects_witness :
  let db := Fixture.db in
  let props := [("TYPE_WORK", str "BRIDGE REHAB")] in
  checkProjectTypeMatch (Fixture.loaded db) props "bridge" = true
  /\ Fixture.project "District 07" "Fayette" 2023 "BRIDGE REHAB" (Some "Yes")
     ∈ (joined_where_category db "bridge").*1.
Proof.
  intros db props.
  assert (checkProjectTypeMatch (Fixture.loaded db) props "bridge" = true)
    as Hm by reflexivity.
  split; [exact Hm|].
  apply (proj1 (highlighted_lines_are_of_selected_projects db
                  (Fixture.loaded db) props "BRIDGE REHAB" "bridge"
                  eq_refl eq_refl) Hm);
    [|reflexivity].
  right. left.
Defined.

Lemma restyle_line_twice s s' t t' line :
  restyle_line s t (restyle_line s' t' line) = restyle_line s t line.
Proof. unfold restyle_line. by destruct line as [[props|] st]. Qed.

Lemma reset_restyle_line s t line :
  reset_line (restyle_line s t line) = reset_line line.
Proof. unfold restyle_line. by destruct line as [[props|] st]. Qed.

Lemma fmap_fmap_layer (f g h : ProjectLine -> ProjectLine)
    (layer : option (list ProjectLine)) :
  (forall line, f (g line) = h line) ->
  fmap (M := list) f <$> (fmap (M := list) g <$> layer)
  = fmap (M := list) h <$> layer.
Proof.
  intros Hfg. destruct layer as [lines|]; [|done]. cbn. f_equal.
  rewrite <-list_fmap_compose. apply list_fmap_ext. intros _ line _. apply Hfg.
Qed.

(** X16.  The opacity of the project lines keeps no memory of earlier
    project type selections: restyling for a type after another, whatever
    the state was then, is restyling for it directly, and clearing after any
    restyling is clearing.  After a clear every line is at full opacity;
    after a restyling a line with properties is at full opacity when
    [checkProjectTypeMatch] accepts it and dimmed otherwise, and a line
    without properties is as it was. *)
Theorem line_opacity_follows_the_last_selection (s s' : Dashboard)
    (t t' : string) (layers : ProjectLayers) :
  restyle_layers s t (restyle_layers s' t' layers) = restyle_layers s t layers
  /\ reset_layers (restyle_layers s t layers) = reset_layers layers
  /\ (forall line, style (reset_line line) = full_opacity)
  /\ (forall line props,
        properties line = Some props ->
        style (restyle_line s t line)
        = if checkProjectTypeMatch s props t then full_opacity else dimmed)
  /\ (forall line, properties line = None -> restyle_line s t line = line).
Proof.
  split_and!.
  - unfold restyle_layers. cbn.
    by rewrite !(fmap_fmap_layer _ _ _ _ (restyle_line_twice s s' t t')).
  - unfold reset_layers, restyle_layers. cbn.
    by rewrite !(fmap_fmap_layer _ _ _ _ (reset_restyle_line s t)).
  - done.
  - intros line props Hp. unfold restyle_line. by rewrite Hp.
  - intros line Hp. unfold restyle_line. by rewrite Hp.
Qed.

(** X16 on a line of the fixture's work type "BRIDGE REHAB". *)
Lemma line_opacity_follows_the_last_selection_witness :
  let s := Fixture.loaded Fixture.db in
  let line := {| properties := Some [("TYPE_WORK", str "BRIDGE REHAB")];
                 style := as_loaded |} in
  style (restyle_line s "pavement" line) = dimmed
  /\ style (restyle_line s "bridge" (restyle_line s "pavement" line))
     = full_opacity.
Proof.
  intros s line.
  destruct (line_opacity_follows_the_last_selection s s "pavement" "bridge"
              {| currentProjectsLayer := None; awardedProjectsLayer := None |})
    as (_ & _ & _ & Hstyle & _).
  split; [exact (Hstyle line _ eq_refl)|].
  destruct (line_opacity_follows_the_last_selection s s "bridge" "pavement"
              {| currentProjectsLayer := None; awardedProjectsLayer := None |})
    as (_ & _ & _ & Hstyle' & _).
  exact (Hstyle' (restyle_line s "pavement" line) _ eq_refl).
Defined.

(** ** Building the layer indexes *)

Lemma layer_at_own_assign k key v (obj : list (string * Layer)) :
  key ∈ obj.*1 ->
  layer_at k (own_assign key v obj)
  = if String.eqb key k then Some v else layer_at k obj.
Proof.
  induction obj as [|[k0 w] obj IH]; cbn; [by rewrite elem_of_nil|].
  rewrite elem_of_cons. intros Hin.
  destruct (String.eqb_spec k0 key) as [->|Hne]; cbn.
  - by destruct (String.eqb key k).
  - destruct Hin as [->|Hin]; [done|]. rewrite (IH Hin).
    destruct (String.eqb_spec k0 k) as [->|]; [|done].
    destruct (String.eqb_spec key k) as [->|]; done.
Qed.

Lemma layer_at_own_create k key v (obj : list (string * Layer)) :
  key ∉ obj.*1 ->
  layer_at k (own_create key v obj)
  = if String.eqb key k then Some v else layer_at k obj.
Proof.
  induction obj as [|[k0 w] obj IH]; cbn; [done|].
  rewrite not_elem_of_cons. intros [Hne Hnin].
  destruct (key_before key k0); cbn; [done|].
  rewrite (IH Hnin).
  destruct (String.eqb_spec k0 k) as [->|]; [|done].
  destruct (String.eqb_spec key k) as [->|]; done.
Qed.

Lemma layer_at_own_set k key v (obj : list (string * Layer)) :
  layer_at k (own_set key v obj)
  = if String.eqb key k then Some v else layer_at k obj.
Proof.
  unfold own_set. case_bool_decide.
  - by apply layer_at_own_assign.
  - by apply layer_at_own_create.
Qed.

Lemma keys_own_assign {A} key (v : A) obj :
  (own_assign key v obj).*1 = obj.*1.
Proof.
  induction obj as [|[k0 w] obj IH]; cbn; [done|].
  destruct (String.eqb k0 key); cbn; [done|]. by rewrite IH.
Qed.

Lemma keys_own_create {A} key (v : A) obj :
  (own_create key v obj).*1 ≡ₚ key :: obj.*1.
Proof.
  induction obj as [|[k0 w] obj IH]; cbn; [done|].
  destruct (key_before key k0); cbn; [done|].
  rewrite IH. apply Permutation_swap.
Qed.

Lemma keys_own_set {A} key (v : A) obj k :
  k ∈ (own_set key v obj).*1 <-> k = key \/ k ∈ obj.*1.
Proof.
  unfold own_set. case_bool_decide as Hin.
  - rewrite keys_own_assign. split; [by right|]. by intros [->|].
  - rewrite keys_own_create, elem_of_cons. done.
Qed.

Lemma NoDup_own_set {A} key (v : A) obj :
  NoDup obj.*1 -> NoDup (own_set key v obj).*1.
Proof.
  intros Hnd. unfold own_set. case_bool_decide as Hin.
  - by rewrite keys_own_assign.
  - rewrite keys_own_create. by constructor.
Qed.

Lemma group_features_snoc key_of fs f :
  group_features key_of (fs ++ [f])
  = groups ← group_features key_of fs;
    props ← f;
    match key_of props with
    | Some key => push_feature key props groups
    | None => Some groups
    end.
Proof. unfold group_features. by rewrite foldl_app. Qed.

Lemma group_features_Some key_of fs groups :
  group_features key_of fs = Some groups ->
  exists ps,
    fs = Some <$> ps
    /\ NoDup groups.*1
    /\ (forall k, k ∈ groups.*1 -> k ∉ Object_prototype_names)
    /\ forall k,
         layer_at k groups
         = match filter (fun props => key_of props = Some k) ps with
           | [] => None
           | group => Some group
           end.
Proof.
  revert groups. induction fs as [|f fs IH] using rev_ind; intros groups.
  - intros [= <-]. exists []. split_and!; [done|constructor| |done].
    intros k Hk. by apply elem_of_nil in Hk.
  - rewrite group_features_snoc.
    destruct (group_features key_of fs) as [groups0|]; [|done]. cbn.
    destruct (IH groups0 eq_refl) as (ps & -> & Hnd & Hproto & Hat).
    destruct f as [props|]; [|done]. cbn.
    intros Hpush. exists (ps ++ [props]).
    split; [by rewrite fmap_app|].
    destruct (key_of props) as [key|] eqn:Hkey.
    + unfold push_feature in Hpush. case_bool_decide as Hp; [done|].
      injection Hpush as <-. split_and!.
      * by apply NoDup_own_set.
      * intros k [->|Hk]%keys_own_set; auto.
      * intros k. rewrite layer_at_own_set, filter_app, filter_cons, filter_nil.
        destruct (String.eqb_spec key k) as [->|Hne].
        -- rewrite decide_True by done. rewrite Hat.
           by destruct (filter _ ps).
        -- rewrite decide_False by congruence. rewrite app_nil_r. apply Hat.
    + injection Hpush as <-. split_and!; [done..|].
      intros k. rewrite filter_app, filter_cons, filter_nil.
      rewrite decide_False by congruence. rewrite app_nil_r. apply Hat.
Qed.

Lemma group_features_None key_of fs :
  group_features key_of fs = None
  <-> exists f, f ∈ fs
      /\ (f = None
          \/ exists props k, f = Some props /\ key_of props = Some k
                             /\ k ∈ Object_prototype_names).
Proof.
  induction fs as [|f fs IH] using rev_ind.
  - split; [done|]. intros (f & Hf & _). by apply elem_of_nil in Hf.
  - rewrite group_features_snoc. setoid_rewrite elem_of_app.
    setoid_rewrite list_elem_of_singleton.
    destruct (group_features key_of fs) as [groups0|]; cbn.
    + destruct f as [props|]; cbn.
      * destruct (key_of props) as [key|] eqn:Hkey.
        -- unfold push_feature. case_bool_decide as Hp.
           ++ split; [|done]. intros _. exists (Some props).
              split; [by right|]. right. by exists props, key.
           ++ split; [done|]. intros (f & [Hf| ->] & Hbad).
              ** assert (Some groups0 = None) as H; [|done].
                 apply IH. by exists f.
              ** destruct Hbad as [|(props' & k & [= <-] & Hk & Hin)]; [done|].
                 congruence.
        -- split; [done|]. intros (f & [Hf| ->] & Hbad).
           ++ assert (Some groups0 = None) as H; [|done].
              apply IH. by exists f.
           ++ destruct Hbad as [|(props' & k & [= <-] & Hk & Hin)]; [done|].
              congruence.
      * split; [|done]. intros _. exists None. split; [by right | by left].
    + split; [|done]. intros _.
      destruct (proj1 IH eq_refl) as (f0 & Hf0 & Hbad).
      exists f0. split; [by left | done].
Qed.

Lemma layer_at_store_layers k (groups layers : list (string * Layer)) :
  NoDup groups.*1 ->
  layer_at k (store_layers groups layers)
  = match layer_at k groups with
    | Some group => Some group
    | None => layer_at k layers
    end.
Proof.
  unfold store_layers. revert layers.
  induction groups as [|[key g] groups IH]; intros layers Hnd; [done|].
  apply NoDup_cons in Hnd as [Hnin Hnd]. cbn [foldl fst snd] in *.
  rewrite (IH _ Hnd), layer_at_own_set. cbn [layer_at].
  destruct (String.eqb_spec key k) as [->|Hne]; [|done].
  apply layer_at_None in Hnin. by rewrite Hnin.
Qed.

Lemma features_named_Some key_of k ps :
  features_named key_of k (Some <$> ps)
  = filter (fun props => key_of props = Some k) ps.
Proof.
  unfold features_named. induction ps as [|p ps IH]; [done|].
  rewrite filter_cons, <-IH. cbn.
  case_bool_decide; [by rewrite decide_True | by rewrite decide_False].
Qed.

Lemma features_named_elem key_of k features props :
  props ∈ features_named key_of k features
  <-> Some props ∈ features /\ key_of props = Some k.
Proof.
  unfold features_named. rewrite list_elem_of_omap. split.
  - intros ([p|] & Hin & Hp); [|done]. cbn in Hp.
    case_bool_decide; [|done]. by injection Hp as ->.
  - intros [Hin Hk]. exists (Some props). split; [done|]. cbn.
    by rewrite bool_decide_true.
Qed.

(** X17.  Grouping the features of a boundary file.  When the loop runs to
    its end no group is named like a member of [Object.prototype], each name
    has one group, and the group stored under a name holds exactly the
    features of that name, in file order; a name no feature has is not a
    key.  The loop throws exactly when some feature has no properties or is
    named like a member of [Object.prototype]. *)
Theorem grouping_collects_each_name_once (key_of : Row -> option string)
    (features : list (option Row)) :
  (forall groups,
     group_features key_of features = Some groups ->
     NoDup groups.*1
     /\ (forall k, k ∈ groups.*1 -> k ∉ Object_prototype_names)
     /\ forall k,
          layer_at k groups
          = match features_named key_of k features with
            | [] => None
            | group => Some group
            end)
  /\ (group_features key_of features = None
      <-> exists f, f ∈ features
          /\ (f = None
              \/ exists props k, f = Some props /\ key_of props = Some k
                                 /\ k ∈ Object_prototype_names)).
Proof.
  split; [|apply group_features_None].
  intros groups Hg.
  destruct (group_features_Some _ _ _ Hg) as (ps & -> & Hnd & Hproto & Hat).
  split_and!; [done..|].
  intros k. by rewrite features_named_Some.
Qed.

(** X17 on three county features, two of them named Fayette. *)
Lemma grouping_collects_each_name_once_witness :
  let features :=
    [Some [("NAME", str "Fayette"); ("part", num 1)];
     Some [("COUNTY", str "Adair")];
     Some [("NAME", str "Fayette"); ("part", num 2)]] in
  exists groups,
    group_features countyKey features = Some groups
    /\ layer_at "Fayette" groups
       = Some [[("NAME", str "Fayette"); ("part", num 1)];
               [("NAME", str "Fayette"); ("part", num 2)]]
    /\ layer_at "Boone" groups = None.
Proof.
  intros features.
  destruct (group_features countyKey features) as [groups|] eqn:Hg;
    [|by vm_compute in Hg].
  exists groups. split; [reflexivity|].
  destruct (proj1 (grouping_collects_each_name_once countyKey features)
              groups Hg) as (_ & _ & Hat).
  rewrite !Hat. split; reflexivity.
Defined.

Lemma loadGeoJSONLayer_counties file features s :
  includes file "KYTC_Districts" = false ->
  includes file "KY_Counties" = true ->
  loadGeoJSONLayer file features s
  = match group_features countyKey features with
    | Some groups => set_countyLayers (store_layers groups (countyLayers s)) s
    | None => s
    end.
Proof. intros Hd Hc. unfold loadGeoJSONLayer. by rewrite Hd, Hc. Qed.

Lemma loadGeoJSONLayer_districts file features s :
  includes file "KYTC_Districts" = true ->
  includes file "KY_Counties" = false ->
  loadGeoJSONLayer file features s
  = match group_features districtKey features with
    | Some groups =>
        set_districtLayers (store_layers groups (districtLayers s)) s
    | None => s
    end.
Proof.
  intros Hd Hc. unfold loadGeoJSONLayer. rewrite Hd, Hc.
  by destruct (group_features districtKey features).
Qed.

Lemma zoomToCounty_exact c s g :
  layer_at c (countyLayers s) = Some g ->
  zoomToCounty c s = Some (set_mapView (FitBounds g) s).
Proof.
  intros Hg. unfold zoomToCounty, foundLayer.
  by rewrite (member_at_stored _ _ _ Hg).
Qed.

Lemma layer_at_indexed key_of k features groups layers :
  group_features key_of features = Some groups ->
  layer_at k (store_layers groups layers)
  = match features_named key_of k features with
    | [] => layer_at k layers
    | group => Some group
    end.
Proof.
  intros Hg.
  destruct (group_features_Some _ _ _ Hg) as (ps & -> & Hnd & _ & Hat).
  rewrite (layer_at_store_layers _ _ _ Hnd), Hat, features_named_Some.
  by destruct (filter _ ps).
Qed.

(** X18.  Loading the county boundaries and then selecting a county named
    by one of the features sends the map to exactly the features of that
    name; the district index is untouched.  If one feature has no properties
    or is named like a member of [Object.prototype], nothing is indexed. *)
Theorem county_boundaries_are_found_by_name (file : string)
    (features : list (option Row)) (s : Dashboard) :
  includes file "KYTC_Districts" = false ->
  includes file "KY_Counties" = true ->
  let s' := loadGeoJSONLayer file features s in
  districtLayers s' = districtLayers s
  /\ (group_features countyKey features = None -> s' = s)
  /\ (group_features countyKey features <> None ->
      forall props c,
        Some props ∈ features -> countyKey props = Some c ->
        layer_at c (countyLayers s')
        = Some (features_named countyKey c features)
        /\ zoomToCounty c s'
           = Some (set_mapView
                     (FitBounds (features_named countyKey c features)) s')).
Proof.
  intros Hd Hc. cbv zeta.
  rewrite (loadGeoJSONLayer_counties file features s Hd Hc).
  destruct (group_features countyKey features) as [groups|] eqn:Hg.
  - split_and!; [done..|]. intros _ props c Hin Hkey.
    assert (props ∈ features_named countyKey c features) as Hpg
      by (by apply features_named_elem).
    assert (layer_at c (store_layers groups (countyLayers s))
            = Some (features_named countyKey c features)) as Hat.
    { rewrite (layer_at_indexed countyKey c features groups _ Hg).
      destruct (features_named countyKey c features);
        [by apply elem_of_nil in Hpg | done]. }
    split; [exact Hat|]. by apply zoomToCounty_exact.
  - split_and!; done.
Qed.

(** X18 on the same three features. *)
Lemma county_boundaries_are_found_by_name_witness :
  let features :=
    [Some [("NAME", str "Fayette"); ("part", num 1)];
     Some [("COUNTY", str "Adair")];
     Some [("NAME", str "Fayette"); ("part", num 2)]] in
  let s' := loadGeoJSONLayer "data/KY_Counties.geojson" features
              (Fixture.loaded Fixture.db) in
  zoomToCounty "Fayette" s'
  = Some (set_mapView
            (FitBounds [[("NAME", str "Fayette"); ("part", num 1)];
                        [("NAME", str "Fayette"); ("part", num 2)]]) s').
Proof.
  intros features s'.
  exact (proj2 (proj2 (proj2 (county_boundaries_are_found_by_name
                                "data/KY_Counties.geojson" features
                                (Fixture.loaded Fixture.db) eq_refl eq_refl))
                  ltac:(discriminate)
                  [("NAME", str "Fayette"); ("part", num 1)] "Fayette"
                  ltac:(left) eq_refl)).
Defined.

Lemma parseInt_menu_number n :
  1 <= n <= 12 -> parseInt (str (pretty n)) = Some n.
Proof.
  intros Hn.
  assert (forallb (fun n => bool_decide (parseInt (str (pretty n)) = Some n))
            (seqZ 1 12) = true) as Hall by (vm_compute; reflexivity).
  rewrite forallb_forall in Hall.
  specialize (Hall n). apply bool_decide_eq_true_1 in Hall; [done|].
  apply list_elem_of_In, elem_of_seqZ. lia.
Qed.

Lemma menu_number_not_inherited n :
  1 <= n <= 12 -> pretty n ∉ Object_prototype_names.
Proof.
  intros Hn.
  assert (forallb (fun n => bool_decide (pretty n ∉ Object_prototype_names))
            (seqZ 1 12) = true) as Hall by (vm_compute; reflexivity).
  rewrite forallb_forall in Hall.
  specialize (Hall n). apply bool_decide_eq_true_1 in Hall; [done|].
  apply list_elem_of_In, elem_of_seqZ. lia.
Qed.

Lemma districtKey_number props n :
  districtKey props = Some (pretty n)
  <-> prop "DISTNBR" props = num n \/ prop "DISTNBR" props = str (pretty n).
Proof.
  unfold districtKey, toString_method.
  destruct (prop "DISTNBR" props) as [| |z|t]; cbn.
  - split; [done | by intros [|]].
  - split; [done | by intros [|]].
  - split.
    + intros [= Hz]. apply (inj pretty) in Hz as ->. by left.
    + by intros [[= ->]|].
  - split.
    + intros [= ->]. by right.
    + by intros [|[= ->]].
Qed.

(** X19.  Loading the district boundaries and then selecting a district of
    the menu, a number from 1 to 12 written in decimal, sends the map to the
    features whose [DISTNBR] is that number, or that numeral as text; a
    [DISTNBR] written otherwise, such as "07", is not found, and where no
    layer is found the map stays. *)
Theorem district_boundaries_are_found_by_number (file : string)
    (features : list (option Row)) (s : Dashboard) (n : Z) :
  includes file "KYTC_Districts" = true ->
  includes file "KY_Counties" = false ->
  group_features districtKey features <> None ->
  1 <= n <= 12 ->
  let s' := loadGeoJSONLayer file features s in
  let group := features_named districtKey (pretty n) features in
  (forall props,
     props ∈ group
     <-> Some props ∈ features
         /\ (prop "DISTNBR" props = num n
             \/ prop "DISTNBR" props = str (pretty n)))
  /\ (group <> [] ->
      zoomToDistrict (str (pretty n)) s'
      = Some (set_mapView (FitBounds group) s'))
  /\ (group = [] -> layer_at (pretty n) (districtLayers s) = None ->
      zoomToDistrict (str (pretty n)) s' = Some s').
Proof.
  intros Hd Hc Hg Hn. cbv zeta.
  rewrite (loadGeoJSONLayer_districts file features s Hd Hc).
  destruct (group_features districtKey features) as [groups|] eqn:Hgroups;
    [|done].
  assert (forall s0, zoomToDistrict (str (pretty n)) s0
          = Some match layer_at (pretty n) (districtLayers s0) with
                 | Some layer => set_mapView (FitBounds layer) s0
                 | None => s0
                 end) as Hzoom.
  { intros s0. unfold zoomToDistrict, foundDistrict, numKey, member_at.
    rewrite (parseInt_menu_number n Hn).
    cbn [toString_method mbind option_bind].
    change (toString (str (pretty n))) with (pretty n).
    destruct (layer_at (pretty n) (districtLayers s0)); [done|].
    by rewrite (bool_decide_false _ (menu_number_not_inherited n Hn)). }
  split_and!.
  - intros props. by rewrite features_named_elem, districtKey_number.
  - intros Hne. rewrite Hzoom. cbn [districtLayers set_districtLayers].
    rewrite (layer_at_indexed districtKey _ features groups _ Hgroups).
    by destruct (features_named districtKey (pretty n) features).
  - intros Hnil Hold. rewrite Hzoom. cbn [districtLayers set_districtLayers].
    rewrite (layer_at_indexed districtKey _ features groups _ Hgroups).
    by rewrite Hnil, Hold.
Qed.

(** X19 on three district features, numbered 7, "07" and "7". *)
Lemma district_boundaries_are_found_by_number_witness :
  let features :=
    [Some [("DISTNBR", num 7); ("part", num 1)];
     Some [("DISTNBR", str "07")];
     Some [("DISTNBR", str "7"); ("part", num 2)]] in
  let s' := loadGeoJSONLayer "data/KYTC_Districts.geojson" features
              (Fixture.loaded Fixture.db) in
  zoomToDistrict (str "7") s'
  = Some (set_mapView
            (FitBounds [[("DISTNBR", num 7); ("part", num 1)];
                        [("DISTNBR", str "7"); ("part", num 2)]]) s').
Proof.
  intros features s'.
  exact (proj1 (proj2 (district_boundaries_are_found_by_number
                         "data/KYTC_Districts.geojson" features
                         (Fixture.loaded Fixture.db) 7 eq_refl eq_refl
                         ltac:(discriminate) ltac:(lia)))
           ltac:(discriminate)).
Defined.

(** ** Column titles and award badges *)

Lemma includes_underscore_cons c r :
  includes (String c r) "_" = Ascii.eqb c "_" || includes r "_".
Proof.
  cbn [includes String.prefix].
  destruct (Ascii.ascii_dec "_" c) as [<-|Hne]; [by destruct r|].
  destruct (Ascii.eqb_spec c "_"); [congruence|done].
Qed.

Lemma upper_ascii_not_underscore c :
  Ascii.eqb c "_" = false -> Ascii.eqb (upper_ascii c) "_" = false.
Proof. destruct c as [[] [] [] [] [] [] [] []]; vm_compute; congruence. Qed.

Lemma upper_ascii_word c :
  is_word (upper_ascii c) = is_word c
  /\ upper_ascii (upper_ascii c) = upper_ascii c.
Proof. destruct c as [[] [] [] [] [] [] [] []]; vm_compute; done. Qed.

Lemma capitalize_words_no_underscore b s :
  includes s "_" = false -> includes (capitalize_words b s) "_" = false.
Proof.
  revert b. induction s as [|c s IH]; intros b; [done|].
  cbn [capitalize_words]. rewrite !includes_underscore_cons.
  intros [Hc Hs]%orb_false_elim. rewrite (IH _ Hs), orb_false_r.
  destruct (is_word c && negb b); [by apply upper_ascii_not_underscore|done].
Qed.

Lemma underscores_to_spaces_no_underscore s :
  includes (underscores_to_spaces s) "_" = false.
Proof.
  unfold underscores_to_spaces. induction s as [|c s IH]; [done|].
  cbn [map_string]. rewrite includes_underscore_cons, IH, orb_false_r.
  destruct (Ascii.eqb c "_") eqn:Hc; [reflexivity | exact Hc].
Qed.

Lemma underscores_to_spaces_id s :
  includes s "_" = false -> underscores_to_spaces s = s.
Proof.
  unfold underscores_to_spaces. induction s as [|c s IH]; [done|].
  rewrite includes_underscore_cons. intros [Hc Hs]%orb_false_elim.
  cbn [map_string]. by rewrite Hc, (IH Hs).
Qed.

Lemma capitalize_words_idem b s :
  capitalize_words b (capitalize_words b s) = capitalize_words b s.
Proof.
  revert b. induction s as [|c s IH]; intros b; [done|].
  cbn [capitalize_words].
  destruct (upper_ascii_word c) as [Hw Hu].
  destruct (is_word c && negb b) eqn:Hcase.
  - rewrite Hw, Hcase, Hu. by rewrite IH.
  - rewrite Hcase. by rewrite IH.
Qed.

Lemma length_map_string f s :
  String.length (map_string f s) = String.length s.
Proof. induction s as [|c s IH]; [done|]. cbn. by rewrite IH. Qed.

Lemma length_capitalize_words b s :
  String.length (capitalize_words b s) = String.length s.
Proof.
  revert b. induction s as [|c s IH]; intros b; [done|]. cbn. by rewrite IH.
Qed.

(** X20.  [formatColumnName] keeps the length of the column name, leaves no
    underscore in the title, and changes nothing when applied to a title it
    has made. *)
Theorem formatColumnName_titles (colName : string) :
  String.length (formatColumnName colName) = String.length colName
  /\ includes (formatColumnName colName) "_" = false
  /\ formatColumnName (formatColumnName colName) = formatColumnName colName.
Proof.
  unfold formatColumnName. split_and!.
  - unfold underscores_to_spaces.
    by rewrite length_capitalize_words, length_map_string.
  - apply capitalize_words_no_underscore,
      underscores_to_spaces_no_underscore.
  - rewrite underscores_to_spaces_id.
    + apply capitalize_words_idem.
    + apply capitalize_words_no_underscore,
        underscores_to_spaces_no_underscore.
Qed.

(** X21.  The [AWARDED] column is read in two ways that do not agree.  The
    by-county fallback of the pie counts a project as awarded whenever
    [AWARDED] is neither NULL nor empty; the table badges a row "Awarded"
    for "Yes" or "Y", "Current" for "No" or "N", and "Unknown" otherwise.  So
    every row badged "Awarded" is counted as awarded, but so is every row
    badged "Current", and the rows counted as current are all badged
    "Unknown". *)
Theorem award_badge_and_pie_count_disagree (a : option string) :
  (awarded_formatter (of_text a) = BadgeAwarded
   <-> a = Some "Yes" \/ a = Some "Y")
  /\ (awarded_formatter (of_text a) = BadgeCurrent
      <-> a = Some "No" \/ a = Some "N")
  /\ (awarded_formatter (of_text a) = BadgeAwarded -> sql_awarded a = true)
  /\ (awarded_formatter (of_text a) = BadgeCurrent -> sql_awarded a = true)
  /\ (sql_not_awarded a = true -> awarded_formatter (of_text a) = BadgeUnknown).
Proof.
  assert (awarded_formatter (of_text a) = BadgeAwarded
          <-> a = Some "Yes" \/ a = Some "Y") as HA.
  { unfold awarded_formatter. destruct a as [s|]; cbn; [|by split; [|intros [|]]].
    repeat case_bool_decide; simplify_eq; cbn;
      split; try done; try (intros [[=]|[=]]; congruence); auto. }
  assert (awarded_formatter (of_text a) = BadgeCurrent
          <-> a = Some "No" \/ a = Some "N") as HC.
  { unfold awarded_formatter. destruct a as [s|]; cbn; [|by split; [|intros [|]]].
    repeat case_bool_decide; simplify_eq; cbn;
      split; try done; try (intros [[=]|[=]]; congruence); auto. }
  split_and!; [exact HA | exact HC | | |].
  - rewrite HA. by intros [->| ->].
  - rewrite HC. by intros [->| ->].
  - intros Hn. destruct a as [s|]; [|reflexivity].
    cbn in Hn. apply String.eqb_eq in Hn as ->. reflexivity.
Qed.

(** X21 on [AWARDED] = "No" and on NULL. *)
Lemma award_badge_and_pie_count_disagree_witness :
  awarded_formatter (of_text (Some "No")) = BadgeCurrent
  /\ sql_awarded (Some "No") = true
  /\ awarded_formatter (of_text None) = BadgeUnknown.
Proof.
  destruct (award_badge_and_pie_count_disagree (Some "No"))
    as (_ & _ & _ & Hcur & _).
  destruct (award_badge_and_pie_count_disagree None) as (_ & _ & _ & _ & Hunk).
  split_and!; [reflexivity | exact (Hcur eq_refl) | exact (Hunk eq_refl)].
Defined.

(** ** Route information *)

Lemma push_bridge_elem bridges b x :
  x ∈ push_bridge bridges b <-> x ∈ bridges \/ (x = b /\ truthy b = true).
Proof.
  unfold push_bridge. destruct (truthy b) eqn:Ht; cbn.
  - case_bool_decide as Hin; cbn.
    + split; [by left|]. by intros [|[-> _]].
    + rewrite elem_of_app, list_elem_of_singleton.
      split; [intros [?| ->]; auto | intros [?|[-> _]]; auto].
  - split; [by left|]. by intros [|[_ ?]].
Qed.

Lemma push_bridge_NoDup bridges b :
  NoDup bridges -> NoDup (push_bridge bridges b).
Proof.
  intros Hnd. unfold push_bridge.
  destruct (truthy b); cbn; [|done]. case_bool_decide as Hin; cbn; [done|].
  apply NoDup_app. split_and!; [done| |apply NoDup_singleton].
  intros x Hx ->%list_elem_of_singleton. done.
Qed.

Lemma push_bridges_elem ids bridges x :
  x ∈ foldl push_bridge bridges ids
  <-> x ∈ bridges \/ (x ∈ ids /\ truthy x = true).
Proof.
  revert bridges. induction ids as [|b ids IH]; intros bridges; cbn.
  - split; [by left|]. intros [|[Hx _]]; [done|]. by apply elem_of_nil in Hx.
  - rewrite IH, push_bridge_elem, elem_of_cons. split.
    + intros [[?|[-> ?]]|[? ?]]; auto.
    + intros [?|[[->|?] ?]]; auto.
Qed.

Lemma push_bridges_NoDup ids bridges :
  NoDup bridges -> NoDup (foldl push_bridge bridges ids).
Proof.
  revert bridges. induction ids as [|b ids IH]; intros bridges Hnd; [done|].
  cbn. by apply IH, push_bridge_NoDup.
Qed.

Lemma push_bridges_known ids bridges :
  (forall x, x ∈ ids -> truthy x = true -> x ∈ bridges) ->
  foldl push_bridge bridges ids = bridges.
Proof.
  induction ids as [|b ids IH]; intros Hknown; [done|]. cbn.
  assert (push_bridge bridges b = bridges) as ->.
  { unfold push_bridge. destruct (truthy b) eqn:Ht; cbn; [|done].
    rewrite bool_decide_true; [done|]. apply Hknown; [left|done]. }
  apply IH. intros x Hx. apply Hknown. by right.
Qed.

Lemma collect_from_elem rs bridges x :
  x ∈ foldl
        (fun bridges record =>
           match Bridge_Identifier record with
           | Some ids => foldl push_bridge bridges ids
           | None => bridges
           end) bridges rs
  <-> x ∈ bridges
      \/ (truthy x = true
          /\ exists r ids, r ∈ rs /\ Bridge_Identifier r = Some ids /\ x ∈ ids).
Proof.
  revert bridges. induction rs as [|r rs IH]; intros bridges; cbn.
  - split; [by left|]. intros [|(_ & r & ids & Hr & _)]; [done|].
    by apply elem_of_nil in Hr.
  - rewrite IH. destruct (Bridge_Identifier r) as [ids|] eqn:Hr.
    + rewrite push_bridges_elem. split.
      * intros [[|[? ?]]|(? & r' & ids' & ? & ? & ?)]; [by left| |].
        -- right. split; [done|]. exists r, ids. split_and!; [left|done..].
        -- right. split; [done|]. exists r', ids'.
           split_and!; [by right|done..].
      * intros [|(? & r' & ids' & [->|?]%elem_of_cons & ? & ?)]; [by left; left| |].
        -- left. right. by simplify_eq.
        -- right. split; [done|]. by exists r', ids'.
    + split.
      * intros [|(? & r' & ids' & ? & ? & ?)]; [by left|].
        right. split; [done|]. exists r', ids'. split_and!; [by right|done..].
      * intros [|(? & r' & ids' & [->|?]%elem_of_cons & ? & ?)];
          [by left|congruence|].
        right. split; [done|]. by exists r', ids'.
Qed.

Lemma collect_from_NoDup rs bridges :
  NoDup bridges ->
  NoDup (foldl
           (fun bridges record =>
              match Bridge_Identifier record with
              | Some ids => foldl push_bridge bridges ids
              | None => bridges
              end) bridges rs).
Proof.
  revert bridges. induction rs as [|r rs IH]; intros bridges Hnd; [done|].
  cbn. apply IH. destruct (Bridge_Identifier r); [|done].
  by apply push_bridges_NoDup.
Qed.

Lemma collect_from_known rs bridges :
  (forall r ids x, r ∈ rs -> Bridge_Identifier r = Some ids -> x ∈ ids ->
                   truthy x = true -> x ∈ bridges) ->
  foldl
    (fun bridges record =>
       match Bridge_Identifier record with
       | Some ids => foldl push_bridge bridges ids
       | None => bridges
       end) bridges rs
  = bridges.
Proof.
  induction rs as [|r rs IH]; intros Hknown; [done|]. cbn.
  assert (match Bridge_Identifier r with
          | Some ids => foldl push_bridge bridges ids
          | None => bridges
          end = bridges) as ->.
  { destruct (Bridge_Identifier r) as [ids|] eqn:Hr; [|done].
    apply push_bridges_known. intros x Hx. apply (Hknown r ids); [left|done..]. }
  apply IH. intros r' ids x Hr'. apply Hknown. by right.
Qed.

(** X22.  The bridges listed for a route are the truthy identifiers found
    in the [Bridge_Identifier] arrays of the records, each listed once; a
    record whose [Bridge_Identifier] is not an array adds none, and reading
    the same records a second time adds none. *)
Theorem bridges_are_listed_once (Route_Info : list RouteRecord) :
  NoDup (collect_bridges Route_Info)
  /\ (forall bridge,
        bridge ∈ collect_bridges Route_Info
        <-> truthy bridge = true
            /\ exists record ids,
                 record ∈ Route_Info
                 /\ Bridge_Identifier record = Some ids /\ bridge ∈ ids)
  /\ collect_bridges (Route_Info ++ Route_Info) = collect_bridges Route_Info.
Proof.
  unfold collect_bridges. split_and!.
  - apply collect_from_NoDup. constructor.
  - intros x. rewrite collect_from_elem. split; [|by right].
    intros [Hx|]; [by apply elem_of_nil in Hx | done].
  - rewrite foldl_app. apply collect_from_known.
    intros r ids x Hr Hids Hx Ht. apply collect_from_elem. right.
    split; [done|]. by exists r, ids.
Qed.

(** ** The district menu without [KYTC_Districts] *)

Lemma length_padStart2 s : (String.length s <= String.length (padStart2 s))%nat.
Proof. destruct s as [|c [|c' s]]; cbn; lia. Qed.

Lemma length_String_app a b :
  String.length (a +:+ b) = (String.length a + String.length b)%nat.
Proof.
  induction a as [|c a IH]; [done|].
  rewrite String_app_cons. cbn [String.length plus]. by rewrite IH.
Qed.

Lemma formattedDistrict_differs d :
  "District " +:+ padStart2 d <> d.
Proof.
  intros Heq. apply (f_equal String.length) in Heq.
  rewrite length_String_app in Heq.
  pose proof (length_padStart2 d). cbn in Heq. lia.
Qed.

(** X23.  When the district menu is built from [Basic_Project_Info], each
    button carries a [DISTRICT] value of the table as it is.  Selecting one
    filters on "District " followed by that value, so the table then lists
    none of the projects of the district on the button.  Where the lookup of
    the value in the district index stops at a member inherited from
    [Object.prototype], the zoom throws first and the outputs stay as they
    were. *)
Theorem fallback_district_menu_misses_its_projects (db : Database)
    (s : Dashboard) (d : string) :
  database s = Some db ->
  d ∈ fallback_districts db ->
  (exists p, p ∈ Basic_Project_Info db /\ DISTRICT p = Some d)
  /\ (foundDistrict (str d) d (districtLayers s) <> inherited ->
      exists t,
        highwayProjectsTable (applyDistrictFilter (str d) s) = Some t
        /\ forall r, r ∈ data t -> prop "DISTRICT" r <> str d)
  /\ (foundDistrict (str d) d (districtLayers s) = inherited ->
      outputs (applyDistrictFilter (str d) s) = outputs s).
Proof.
  intros Hdb Hd. split_and!.
  - unfold fallback_districts in Hd.
    apply list_elem_of_filter in Hd as [_ Hd].
    rewrite merge_sort_Permutation, elem_of_remove_dups in Hd.
    by apply list_elem_of_omap in Hd.
  - intros Hfound.
    destruct (table_applyDistrictFilter db (str d) d s Hdb eq_refl Hfound)
      as (t & Ht & Hdata).
    exists t. split; [done|]. rewrite Hdata. intros r Hr%rows_byDistrict_all.
    rewrite Hr. intros [= Heq]. by apply formattedDistrict_differs in Heq.
  - intros Hfound. unfold applyDistrictFilter. cbv zeta.
    rewrite (proj2 (zoomToDistrict_None (str d)
                      (updatePanelTitles (set_district (str d) s)))); [done|].
    right. by exists d.
Qed.

(** X23 on the fixture, whose districts are "District 05" and
    "District 07". *)
Lemma fallback_district_menu_misses_its_projects_witness :
  fallback_districts Fixture.db = ["District 05"; "District 07"]
  /\ exists t,
       highwayProjectsTable
         (applyDistrictFilter (str "District 07") (Fixture.loaded Fixture.db))
       = Some t
       /\ forall r, r ∈ data t -> prop "DISTRICT" r <> str "District 07".
Proof.
  assert (fallback_districts Fixture.db = ["District 05"; "District 07"])
    as Hmenu by (vm_compute; reflexivity).
  split; [exact Hmenu|].
  apply (fallback_district_menu_misses_its_projects Fixture.db
           (Fixture.loaded Fixture.db) "District 07" eq_refl);
    [|discriminate].
  rewrite Hmenu. right. left.
Defined.

(** ** The district menu *)

Lemma StronglySorted_le_lt (l : list Z) :
  StronglySorted Z.le l -> NoDup l -> StronglySorted Z.lt l.
Proof.
  induction 1 as [|x l Hl IH Hx]; intros Hnd; [constructor|].
  apply NoDup_cons in Hnd as [Hnin Hnd].
  constructor; [by apply IH|].
  rewrite Forall_forall in Hx |- *. intros y Hy.
  specialize (Hx y Hy). assert (x <> y) by (by intros ->). lia.
Qed.

Lemma formattedDistrict_menu_number n :
  1 <= n <= 12 ->
  formattedDistrict (str (pretty n))
  = Some ("District " +:+ (if n <? 10 then "0" +:+ pretty n else pretty n)).
Proof.
  intros Hn.
  assert (forallb
            (fun n =>
               bool_decide
                 (formattedDistrict (str (pretty n))
                  = Some ("District "
                          +:+ (if n <? 10 then "0" +:+ pretty n else pretty n))))
            (seqZ 1 12) = true) as Hall by (vm_compute; reflexivity).
  rewrite forallb_forall in Hall.
  specialize (Hall n). apply bool_decide_eq_true_1 in Hall; [done|].
  apply list_elem_of_In, elem_of_seqZ. lia.
Qed.

(** X24.  The district menu built from [KYTC_Districts] lists the numbers
    from 1 to 12 found in the table, in increasing order and each once;
    selecting number [n] filters on "District " followed by [n] in two
    digits. *)
Theorem district_menu_numbers_and_their_filter (rows : list Row) :
  exists ns,
    districtMenu rows = (fun n => str (pretty n)) <$> ns
    /\ StronglySorted Z.lt ns
    /\ (forall n, n ∈ ns
                  <-> exists row, row ∈ rows /\ districtOption row = Some n)
    /\ forall n, n ∈ ns ->
         1 <= n <= 12
         /\ formattedDistrict (str (pretty n))
            = Some ("District "
                    +:+ (if n <? 10 then "0" +:+ pretty n else pretty n)).
Proof.
  exists (merge_sort Z.le (remove_dups (omap districtOption rows))).
  assert (forall n,
            n ∈ merge_sort Z.le (remove_dups (omap districtOption rows))
            <-> exists row, row ∈ rows /\ districtOption row = Some n) as Helem.
  { intros n.
    by rewrite merge_sort_Permutation, elem_of_remove_dups, list_elem_of_omap. }
  split_and!; [reflexivity| |exact Helem|].
  - apply StronglySorted_le_lt.
    + apply Sorted_StronglySorted; [apply _|]. apply (Sorted_merge_sort Z.le).
    + rewrite merge_sort_Permutation. apply NoDup_remove_dups.
  - intros n (row & _ & Hrow)%Helem.
    pose proof (districtOption_range _ _ Hrow) as Hrange.
    split; [exact Hrange|]. by apply formattedDistrict_menu_number.
Qed.

(** X24 on a table that names district 12 once and district 3 twice. *)
Lemma district_menu_numbers_and_their_filter_witness :
  let rows := [[("Name", str "District 12")]; [("Name", str "District 3")];
               [("Name", str "District 3")]] in
  districtMenu rows = [str "3"; str "12"]
  /\ formattedDistrict (str "3") = Some "District 03".
Proof.
  intros rows.
  destruct (district_menu_numbers_and_their_filter rows)
    as (ns & Hmenu & _ & Helem & Hfd).
  split; [vm_compute; reflexivity|].
  refine (proj2 (Hfd 3 _)). apply Helem.
  exists [("Name", str "District 3")]. split; [right; left | reflexivity].
Defined.

(** ** What the years chart counts *)

Lemma elem_of_years_chart (m : YearData) label v :
  (label, v) ∈ years_chart m <-> m !! label = Some v.
Proof.
  unfold years_chart. rewrite list_elem_of_fmap.
  setoid_rewrite merge_sort_Permutation.
  setoid_rewrite list_elem_of_fmap. split.
  - intros (year & [= -> ->] & [k x] & -> & Hin).
    apply elem_of_map_to_list in Hin. cbn. by rewrite Hin.
  - intros Hm. exists label. split; [by rewrite Hm|].
    exists (label, v). split; [done|]. by apply elem_of_map_to_list.
Qed.

Lemma or_empty_id (m : YearData) : or_empty m = m.
Proof.
  unfold or_empty. case_bool_decide as Hsize; [done|].
  symmetry. apply map_size_empty_iff. lia.
Qed.

Lemma occurrences_ge_2024 (sel : Project -> bool) base y :
  occurrences (Some y)
    (RSY_YEAR <$>
       filter (fun p => sel p && sql_year_ge_2024 (RSY_YEAR p) = true) base)
  = if 2024 <=? y
    then occurrences (Some y) (RSY_YEAR <$> filter (fun p => sel p = true) base)
    else 0.
Proof.
  induction base as [|p base IH]; [by destruct (2024 <=? y)|].
  rewrite !filter_cons. destruct (sel p) eqn:Hsel; cbn [andb].
  - rewrite (decide_True (P := true = true)) by done.
    cbn [fmap list_fmap]. rewrite occurrences_cons.
    destruct (RSY_YEAR p) as [z|] eqn:Hz; cbn [sql_year_ge_2024].
    + destruct (Z.leb_spec 2024 z).
      * rewrite decide_True by done. cbn [fmap list_fmap].
        rewrite occurrences_cons, IH, Hz.
        destruct (Z.leb_spec 2024 y); [done|].
        rewrite decide_False; [done|]. intros [= ->]. lia.
      * rewrite decide_False by done. rewrite IH.
        destruct (Z.leb_spec 2024 y); [|done].
        rewrite decide_False; [lia|]. intros [= ->]. lia.
    + rewrite decide_False by done. rewrite IH.
      rewrite (decide_False (P := None = Some y)) by done.
      destruct (2024 <=? y); lia.
  - rewrite !decide_False by done. exact IH.
Qed.

Lemma counts_years_byCounty db c :
  no_column (ProjectYears_ByCounty db) "COUNTY"
  \/ no_column (ProjectYears_ByCounty db) "RSY_YEAR" ->
  counts_years (years_byCounty db c)
    (RSY_YEAR <$>
       filter (fun p => sql_text_eq (COUNTY p) c
                        && sql_year_ge_2024 (RSY_YEAR p) = true)
         (Basic_Project_Info db)).
Proof.
  intros Hview. unfold years_byCounty, year_rows_byCounty.
  rewrite (proj2 (select_where_order_by_None _ _ c _) Hview).
  rewrite or_empty_id. unfold yearData_byCounty. rewrite fold_record_year.
  apply (counts_years_of_groups _ year_row); [apply entry_byCounty_year_row|].
  by rewrite year_count_rows_format.
Qed.

Lemma counts_years_byProjectType db t :
  counts_years (years_byProjectType db t)
    (RSY_YEAR <$> (joined_where_category db t).*1).
Proof.
  unfold years_byProjectType, yearData_unfiltered. rewrite fold_record_year.
  apply (counts_years_of_groups _ year_row); [apply entry_unfiltered_year_row|].
  by rewrite year_count_rows_format.
Qed.

Lemma chart_applyProjectTypeFilter db t s :
  database s = Some db -> t <> "" ->
  projectYearsChart (applyProjectTypeFilter t s)
  = years_chart (years_byProjectType db t).
Proof.
  intros Hdb Ht. unfold applyProjectTypeFilter, updateChartsAndTable.
  cbn [currentProjectTypeFilter updatePanelTitles set_titles set_projectType].
  rewrite (active_text_Some t Ht).
  rewrite (load_byProjectType_shape db) by done.
  unfold load_filtered_rows, createProjectYearsChart. reflexivity.
Qed.

(** X25.  What the bars of the years chart count.  Under a county filter
    whose lookup in the county index does not stop at a member inherited
    from [Object.prototype], where the database has no
    [ProjectYears_ByCounty] view, or the view lacks the [COUNTY] or the
    [RSY_YEAR] column the statement names, there is one bar
    for each year from 2024 on for which the county has projects, and it
    shows their number.  Under a project type filter there is one bar for
    each year other than 0 of the rows the join with the crosswalk selects,
    showing their number; a project is counted once for each crosswalk row
    of its work type in the category. *)
Theorem years_chart_counts_the_projects_of_each_year (db : Database)
    (s : Dashboard) :
  database s = Some db ->
  (no_column (ProjectYears_ByCounty db) "COUNTY"
   \/ no_column (ProjectYears_ByCounty db) "RSY_YEAR" ->
   forall countyName label v,
     foundLayer countyName (countyLayers s) <> inherited ->
     let selected :=
       filter (fun p => sql_text_eq (COUNTY p) countyName = true)
         (Basic_Project_Info db) in
     (label, v) ∈ projectYearsChart (applyCountyFilter countyName s)
     <-> exists y,
           2024 <= y /\ label = pretty y
           /\ v = num (projects_of_year y selected)
           /\ 0 < projects_of_year y selected)
  /\ (forall projectType label v,
        projectType <> "" ->
        let selected := (joined_where_category db projectType).*1 in
        (label, v) ∈ projectYearsChart (applyProjectTypeFilter projectType s)
        <-> exists y,
              y <> 0 /\ label = pretty y
              /\ v = num (projects_of_year y selected)
              /\ 0 < projects_of_year y selected).
Proof.
  intros Hdb. split.
  - intros Hview c label v Hfound. cbv zeta.
    rewrite (chart_applyCountyFilter db c s Hdb Hfound), elem_of_years_chart.
    rewrite (counts_years_byCounty db c Hview label v).
    unfold projects_of_year.
    setoid_rewrite (occurrences_ge_2024 (fun p => sql_text_eq (COUNTY p) c)).
    split.
    + intros (y & Hy & -> & -> & Hpos). exists y.
      destruct (Z.leb_spec 2024 y); [done|lia].
    + intros (y & Hy & -> & -> & Hpos). exists y.
      destruct (Z.leb_spec 2024 y); [|lia]. split_and!; [lia|done..].
  - intros t label v Ht. cbv zeta.
    rewrite (chart_applyProjectTypeFilter db t s Hdb Ht), elem_of_years_chart.
    apply (counts_years_byProjectType db t label v).
Qed.

(** X25 on the fixture, which has no view: Fayette has a project of 2023
    and one of 2025, and the chart has one bar, for 2025. *)
Lemma years_chart_counts_the_projects_of_each_year_witness :
  let s := Fixture.loaded Fixture.db in
  ("2025", num 1) ∈ projectYearsChart (applyCountyFilter "Fayette" s)
  /\ ~ ("2023", num 1) ∈ projectYearsChart (applyCountyFilter "Fayette" s).
Proof.
  intros s.
  pose proof (fun label v =>
                proj1 (years_chart_counts_the_projects_of_each_year
                         Fixture.db s eq_refl) (or_introl (or_introl eq_refl))
                  "Fayette" label v ltac:(discriminate)) as H.
  cbv zeta in H. split.
  - apply H. exists 2025. split_and!; [lia|reflexivity|reflexivity|].
    vm_compute. reflexivity.
  - intros (y & Hy & Hlabel & _)%H.
    change "2023" with (pretty 2023) in Hlabel.
    apply (inj pretty) in Hlabel. lia.
Defined.

(** ** Loading the database *)

Lemma loadDatabase_shape db s :
  loadDatabase (Some db) s
  = match rows_unfiltered db with
    | [] => set_database (Some db) s
    | row0 :: rows =>
        set_table (Some (unfiltered_table row0 rows))
          (show_counts (awarded_all db)
             (show_years (years_all db) (set_database (Some db) s)))
    end.
Proof. unfold loadDatabase. by apply loadBasicProjectInfo_shape. Qed.

(** X26.  Loading the database sets it and leaves the filters, the titles
    and the map alone; a failed load changes nothing.  When
    [Basic_Project_Info] is empty the load draws nothing, the charts
    included; otherwise it draws what Clear All draws: Clear All right after
    the load changes none of the pie counts, the years chart and the
    table. *)
Theorem loading_draws_what_clear_all_draws (db : Database) (s : Dashboard) :
  let s1 := loadDatabase (Some db) s in
  loadDatabase None s = s
  /\ database s1 = Some db
  /\ filters s1 = filters s /\ titles s1 = titles s /\ mapView s1 = mapView s
  /\ (Basic_Project_Info db = [] -> outputs s1 = outputs s)
  /\ (Basic_Project_Info db <> [] ->
      outputs (clearAllFilters s1) = outputs s1).
Proof.
  intros s1.
  assert (frame s1 = frame (set_database (Some db) s)) as Hfr
    by apply frame_loadBasicProjectInfo.
  assert (database s1 = Some db) as Hdb
    by (by rewrite (database_of_frame _ _ Hfr)).
  split_and!.
  - reflexivity.
  - exact Hdb.
  - by rewrite (filters_of_frame _ _ Hfr).
  - by rewrite (titles_of_frame _ _ Hfr).
  - unfold frame in Hfr. by injection Hfr.
  - intros Hnil%rows_unfiltered_nil. unfold s1.
    by rewrite loadDatabase_shape, Hnil.
  - intros Hne%rows_unfiltered_nonempty.
    destruct (clearAllFilters_shape db s1 Hdb) as (s0 & Hout & ->).
    revert Hout. unfold s1. rewrite loadDatabase_shape.
    destruct (rows_unfiltered db) as [|row0 rows]; [done|].
    unfold outputs. intros Hout. injection Hout as Hc Hy Ht.
    destruct (awarded_all db), (years_all db); cbn in *; congruence.
Qed.


(** X26 on the page before any database is loaded.  With the fixture,
    Clear All after the load redraws the same; with a database that has a
    [ProjectsAwarded] row but no project, the load leaves the pie at zero
    and Clear All then draws it. *)
Lemma loading_draws_what_clear_all_draws_witness :
  let page := set_database None (Fixture.loaded Fixture.db) in
  let empty :=
    {| Basic_Project_Info := [];
       crosswalk := [];
       ProjectsAwarded :=
         Some {| view_columns := ["Awarded"; "Current"];
                 view_tuples := [[num 3; num 4]] |};
       ProjectsAwarded_ByDistrict := None;
       ProjectsAwarded_ByCounty := None;
       ProjectCount_Year := None;
       ProjectYears_ByDistrict := None;
       ProjectYears_ByCounty := None |} in
  outputs (clearAllFilters (loadDatabase (Some Fixture.db) page))
  = outputs (loadDatabase (Some Fixture.db) page)
  /\ projectCounts (loadDatabase (Some empty) page)
     = {| awarded := num 0; current := num 0 |}
  /\ projectCounts (clearAllFilters (loadDatabase (Some empty) page))
     = {| awarded := num 3; current := num 4 |}.
Proof.
  intros page empty. split_and!.
  - apply (loading_draws_what_clear_all_draws Fixture.db page). done.
  - pose proof (proj1 (proj2 (proj2 (proj2 (proj2 (proj2
                 (loading_draws_what_clear_all_draws empty page))))))
               eq_refl) as Hout.
    exact (f_equal (fun o => o.1.1) Hout).
  - vm_compute. reflexivity.
Defined.
